(** * Session / state-transition engine of the check-in bot

    A shallow embedding of [helper.ts], [constants.ts], [schema.ts],
    [database.ts] and the command handlers of [commands.ts], followed by
    the properties of the session state machine, the break and
    status-update sub-ledgers and the idle-reminder scheduler.

    Conventions of the embedding.
    - A [Date] is its [getTime()] value: milliseconds since the epoch, in [Z].
      Every [new Date()] / [Date.now()] of the source is an explicit clock
      reading passed as an argument, in the order the source reads them.
    - JavaScript numbers holding minutes and counters are [Z]; the
      divisions of the engine, all under [Math.round] or [Math.floor], are
      computed in exact rationals [Q].
    - A Firestore collection is a [gmap] from document id to document, a
      subcollection a [gmap] per parent id.  Optional fields are [option].
      Documents are written with [ignoreUndefinedProperties], so a field
      whose value is [undefined] is not written: under [set] with
      [merge: true] the stored value of such a field is kept.
    - The audit stamps [createdAt], [updatedAt] and [lastActivity] are
      written but never read by the engine and are left out.
    - Input/output failures of the store are not modelled; the exceptions
      the engine raises itself (missing documents) are. *)

From Stdlib Require Import ZArith QArith Qround Ascii String.
From stdpp Require Import gmap strings pretty sorting list fin_maps.

Local Open Scope string_scope.
Local Open Scope Z_scope.

(** ** JavaScript primitives *)

(** [Math.round]: nearest integer, ties towards [+∞]. *)
Definition Math_round (x : Q) : Z := Qfloor (x + (1 # 2))%Q.

(** Truthiness of a string, of an optional string and of a number. *)
Definition truthy (s : string) : bool := negb (String.eqb s "").

Definition truthy_opt (o : option string) : bool :=
  match o with Some s => truthy s | None => false end.

Definition truthy_num (o : option Z) : bool :=
  match o with Some n => negb (n =? 0) | None => false end.

(** [s.replace(/-/g, '')] *)
Fixpoint remove_dashes (s : string) : string :=
  match s with
  | "" => ""
  | String c s' =>
      if Ascii.eqb c "-"%char then remove_dashes s' else String c (remove_dashes s')
  end.

(** Decimal rendering of [n] on exactly [w] digits. *)
Fixpoint pad0 (w : nat) (n : Z) : string :=
  match w with
  | O => ""
  | S w' => pad0 w' (n / 10) +:+ String (pretty_N_char (Z.to_N (n mod 10))) ""
  end.

(** Proleptic Gregorian date of a day count since 1970-01-01. *)
Definition civil_from_days (days : Z) : Z * Z * Z :=
  let z := days + 719468 in
  let era := z / 146097 in
  let doe := z - era * 146097 in
  let yoe := (doe - doe / 1460 + doe / 36524 - doe / 146096) / 365 in
  let doy := doe - (365 * yoe + yoe / 4 - yoe / 100) in
  let mp := (5 * doy + 2) / 153 in
  let d := doy - (153 * mp + 2) / 5 + 1 in
  let m := if mp <? 10 then mp + 3 else mp - 9 in
  let y := yoe + era * 400 + (if m <=? 2 then 1 else 0) in
  (y, m, d).

(** [date.toISOString().split('T')[0]]: four-digit years, and the signed
    six-digit form outside [0, 9999]. *)
Definition iso_date (ms : Z) : string :=
  let '(y, m, d) := civil_from_days (ms / 86400000) in
  let year :=
    if (0 <=? y) && (y <=? 9999) then pad0 4 y
    else if y <? 0 then "-" +:+ pad0 6 (- y) else "+" +:+ pad0 6 y in
  year +:+ "-" +:+ pad0 2 m +:+ "-" +:+ pad0 2 d.

(** ** helper.ts *)

Definition generateSessionId (userId : string) (now : Z) : string :=
  userId +:+ "_" +:+ remove_dashes (iso_date now) +:+ "_" +:+ pretty now.

Definition generateBreakId (now : Z) : string := "break_" +:+ pretty now.

Definition generateStatusUpdateId (now : Z) : string := "status_" +:+ pretty now.

Definition getDateString (date : Z) : string := iso_date date.

(** ** constants.ts, schema.ts *)

Inductive BreakType := short | lunch | personal | meeting.

Record BreakConfig := {
  bc_name : string;
  bc_duration : option Z;
}.

Definition BREAK_TYPES (t : BreakType) : BreakConfig :=
  match t with
  | short => {| bc_name := "Short Break"; bc_duration := Some 15 |}
  | lunch => {| bc_name := "Lunch Break"; bc_duration := Some 45 |}
  | personal => {| bc_name := "Personal Break"; bc_duration := Some 20 |}
  | meeting => {| bc_name := "Meeting Break"; bc_duration := None |}
  end.

Inductive Status := checked_in | checked_out | on_break | offline.

Inductive DocStatus := active | completed.

Global Instance BreakType_eq_dec : EqDecision BreakType.
Proof. solve_decision. Defined.
Global Instance Status_eq_dec : EqDecision Status.
Proof. solve_decision. Defined.
Global Instance DocStatus_eq_dec : EqDecision DocStatus.
Proof. solve_decision. Defined.

Record CurrentBreak := {
  cb_id : string;
  cb_type : BreakType;
  cb_startTime : Z;
}.

Record CurrentSession := {
  cs_checkinTime : Z;
  cs_totalBreakTime : Z;
  cs_currentBreak : option CurrentBreak;
  cs_currentWorkStatus : option string;
  cs_statusUpdateCount : Z;
}.

(** A [user_status] document.  Only [createCheckinSession] writes every
    field; a document first created by a merge may lack some, hence the
    options.  [Partial<UserStatus>] has the same shape, [None] standing
    for a property that is absent or [undefined]. *)
Record UserStatus := {
  us_userId : option string;
  us_username : option string;
  us_status : option Status;
  us_currentSessionId : option string;
  us_lastCheckin : option Z;
  us_lastCheckout : option Z;
  us_timezone : option string;
  us_currentSession : option CurrentSession;
}.

Record Notes := {
  n_checkin : option string;
  n_checkout : option string;
}.

Record CheckinSession := {
  s_sessionId : string;
  s_userId : string;
  s_username : string;
  s_date : string;
  s_checkinTime : Z;
  s_checkoutTime : option Z;
  s_status : DocStatus;
  s_totalBreakTime : Z;
  s_totalWorkTime : option Z;
  s_notes : option Notes;
  s_timezone : string;
  s_breakCount : Z;
  s_statusUpdateCount : Z;
  s_lastWorkStatus : option string;
}.

Record BreakRecord := {
  b_breakId : string;
  b_sessionId : string;
  b_userId : string;
  b_type : BreakType;
  b_startTime : Z;
  b_endTime : option Z;
  b_duration : option Z;
  b_expectedDuration : option Z;
  b_notes : option string;
  b_status : DocStatus;
}.

Record StatusUpdate := {
  u_updateId : string;
  u_sessionId : string;
  u_userId : string;
  u_username : string;
  u_status : string;
  u_timestamp : Z;
  u_previousStatus : option string;
}.

Record UserPreferences := {
  p_timezone : string;
}.

(** Modelled from the spec: the declaration of [StatusReminder] is not in
    [schema.ts] as given; its fields are those the spec lists and
    [createStatusReminder] writes. *)
Record StatusReminder := {
  r_userId : string;
  r_username : string;
  r_sessionId : string;
  r_reminderCount : Z;
  r_isActive : bool;
  r_timezone : string;
  r_lastReminderSent : option Z;
  r_lastStatusUpdate : option Z;
}.

Record UserCurrentState := {
  st_status : UserStatus;
  st_currentSession : option CheckinSession;
  st_activeBreak : option BreakRecord;
  st_recentStatusUpdates : option (list StatusUpdate);
}.

(** ** The persistence provider and the notifier *)

(** A direct message handed to the chat client by the reminder service:
    the channel (the user id), the instant shown as current time, the
    status text echoed, and whether the client reported [ok]. *)
Record DirectMessage := {
  dm_channel : string;
  dm_time : Z;
  dm_lastStatus : string;
  dm_ok : bool;
}.

(** The collections of [COLLECTIONS], the subcollections [breaks] and
    [status_updates] keyed by their session, and the messages posted. *)
Record Store := {
  user_status : gmap string UserStatus;
  checkin_sessions : gmap string CheckinSession;
  breaks : gmap string (gmap string BreakRecord);
  status_updates : gmap string (gmap string StatusUpdate);
  user_preferences : gmap string UserPreferences;
  status_reminders : gmap string StatusReminder;
  outbox : list DirectMessage;
}.

Definition empty_store : Store :=
  {| user_status := ∅; checkin_sessions := ∅; breaks := ∅; status_updates := ∅;
     user_preferences := ∅; status_reminders := ∅; outbox := [] |}.

Definition set_user_status (f : gmap string UserStatus → gmap string UserStatus)
    (st : Store) : Store :=
  {| user_status := f (user_status st); checkin_sessions := checkin_sessions st;
     breaks := breaks st; status_updates := status_updates st;
     user_preferences := user_preferences st;
     status_reminders := status_reminders st; outbox := outbox st |}.

Definition set_checkin_sessions
    (f : gmap string CheckinSession → gmap string CheckinSession) (st : Store) : Store :=
  {| user_status := user_status st; checkin_sessions := f (checkin_sessions st);
     breaks := breaks st; status_updates := status_updates st;
     user_preferences := user_preferences st;
     status_reminders := status_reminders st; outbox := outbox st |}.

Definition set_breaks
    (f : gmap string (gmap string BreakRecord) → gmap string (gmap string BreakRecord))
    (st : Store) : Store :=
  {| user_status := user_status st; checkin_sessions := checkin_sessions st;
     breaks := f (breaks st); status_updates := status_updates st;
     user_preferences := user_preferences st;
     status_reminders := status_reminders st; outbox := outbox st |}.

Definition set_status_updates
    (f : gmap string (gmap string StatusUpdate) → gmap string (gmap string StatusUpdate))
    (st : Store) : Store :=
  {| user_status := user_status st; checkin_sessions := checkin_sessions st;
     breaks := breaks st; status_updates := f (status_updates st);
     user_preferences := user_preferences st;
     status_reminders := status_reminders st; outbox := outbox st |}.

Definition set_status_reminders
    (f : gmap string StatusReminder → gmap string StatusReminder) (st : Store) : Store :=
  {| user_status := user_status st; checkin_sessions := checkin_sessions st;
     breaks := breaks st; status_updates := status_updates st;
     user_preferences := user_preferences st;
     status_reminders := f (status_reminders st); outbox := outbox st |}.

Definition set_outbox (f : list DirectMessage → list DirectMessage) (st : Store) : Store :=
  {| user_status := user_status st; checkin_sessions := checkin_sessions st;
     breaks := breaks st; status_updates := status_updates st;
     user_preferences := user_preferences st;
     status_reminders := status_reminders st; outbox := f (outbox st) |}.

(** The documents of the subcollection under parent [p]. *)
Definition subcol {A} (m : gmap string (gmap string A)) (p : string) : gmap string A :=
  default ∅ (m !! p).

(** [collection(p).doc(i).set(d)] on a subcollection. *)
Definition subcol_set {A} (p i : string) (d : A) (m : gmap string (gmap string A)) :
    gmap string (gmap string A) :=
  <[p := <[i := d]> (subcol m p)]> m.

(** A query [orderBy(field, 'desc')]: documents by decreasing [key], ties by
    decreasing document id. *)
Definition desc_order {A} (key : A → Z) (x y : string * A) : Prop :=
  key y.2 < key x.2 ∨ (key x.2 = key y.2 ∧ String.le y.1 x.1).

Global Instance desc_order_dec {A} (key : A → Z) : RelDecision (desc_order key).
Proof. intros x y. unfold desc_order. apply _. Defined.

Definition query_desc {A} (key : A → Z) (m : gmap string A) : list A :=
  (merge_sort (desc_order key) (map_to_list m)).*2.

(** ** Asynchronous operations: a state and exception monad over the store *)

Inductive Outcome (A : Type) :=
  | Ok (a : A)
  | Throw (e : string).
Arguments Ok {A} a.
Arguments Throw {A} e.

Definition M (A : Type) : Type := Store → Store * Outcome A.

Global Instance M_ret : MRet M := λ A a st, (st, Ok a).

Global Instance M_bind : MBind M := λ A B f m st,
  match m st with
  | (st', Ok a) => f a st'
  | (st', Throw e) => (st', Throw e)
  end.

Definition throw {A} (e : string) : M A := λ st, (st, Throw e).

Definition gets {A} (f : Store → A) : M A := λ st, (st, Ok (f st)).

Definition modify (f : Store → Store) : M unit := λ st, (f st, Ok tt).

(** [try { m } catch (error) { h error }] *)
Definition try_catch {A} (m : M A) (h : string → M A) : M A := λ st,
  match m st with
  | (st', Ok a) => (st', Ok a)
  | (st', Throw e) => h e st'
  end.

(** [if (c) { m }] *)
Definition when (c : bool) (m : M unit) : M unit := if c then m else mret tt.

(** ** database.ts: preferences, user status, sessions *)

Section Database.

(** [getSystemTimezone()], a constant of the host. *)
Variable systemTimezone : string.

Definition getUserPreferences (userId : string) : M (option UserPreferences) :=
  gets (λ st, user_preferences st !! userId).

Definition getUserTimezone (userId : string) : M string :=
  preferences ← getUserPreferences userId;
  mret (match preferences with
        | Some p => if truthy (p_timezone p) then p_timezone p else systemTimezone
        | None => systemTimezone
        end).

Definition getUserStatus (userId : string) : M (option UserStatus) :=
  gets (λ st, user_status st !! userId).

(** What [set(updateData, { merge: true })] leaves in a field: the new value
    when one is given, the stored one otherwise. *)
Definition merge_field {A} (new old : option A) : option A :=
  match new with Some x => Some x | None => old end.

(** The nested [currentSession] map is merged leaf by leaf. *)
Definition merge_currentSession (new : CurrentSession) (old : option CurrentSession) :
    CurrentSession :=
  {| cs_checkinTime := cs_checkinTime new;
     cs_totalBreakTime := cs_totalBreakTime new;
     cs_currentBreak := merge_field (cs_currentBreak new) (old ≫= cs_currentBreak);
     cs_currentWorkStatus :=
       merge_field (cs_currentWorkStatus new) (old ≫= cs_currentWorkStatus);
     cs_statusUpdateCount := cs_statusUpdateCount new |}.

Definition merge_user_status (updates : UserStatus) (old : option UserStatus) : UserStatus :=
  {| us_userId := merge_field (us_userId updates) (old ≫= us_userId);
     us_username := merge_field (us_username updates) (old ≫= us_username);
     us_status := merge_field (us_status updates) (old ≫= us_status);
     us_currentSessionId :=
       merge_field (us_currentSessionId updates) (old ≫= us_currentSessionId);
     us_lastCheckin := merge_field (us_lastCheckin updates) (old ≫= us_lastCheckin);
     us_lastCheckout := merge_field (us_lastCheckout updates) (old ≫= us_lastCheckout);
     us_timezone := merge_field (us_timezone updates) (old ≫= us_timezone);
     us_currentSession :=
       match us_currentSession updates with
       | Some cs => Some (merge_currentSession cs (old ≫= us_currentSession))
       | None => old ≫= us_currentSession
       end |}.

Definition updateUserStatus (userId : string) (updates : UserStatus) : M unit :=
  modify (set_user_status (λ m, <[userId := merge_user_status updates (m !! userId)]> m)).

(** The empty [Partial<UserStatus>]. *)
Definition no_updates : UserStatus :=
  {| us_userId := None; us_username := None; us_status := None;
     us_currentSessionId := None; us_lastCheckin := None; us_lastCheckout := None;
     us_timezone := None; us_currentSession := None |}.

(** [tId] is the clock read by [generateSessionId], [now] the one read next. *)
Definition createCheckinSession (userId username notes : string) (tId now : Z) :
    M CheckinSession :=
  let sessionId := generateSessionId userId tId in
  timezone ← getUserTimezone userId;
  let session :=
    {| s_sessionId := sessionId; s_userId := userId; s_username := username;
       s_date := getDateString now; s_checkinTime := now; s_checkoutTime := None;
       s_status := active; s_totalBreakTime := 0; s_totalWorkTime := None;
       s_notes := if truthy notes
                  then Some {| n_checkin := Some notes; n_checkout := None |}
                  else None;
       s_timezone := timezone; s_breakCount := 0; s_statusUpdateCount := 0;
       s_lastWorkStatus := None |} in
  modify (set_checkin_sessions (λ m, <[sessionId := session]> m));;
  updateUserStatus userId
    {| us_userId := Some userId; us_username := Some username;
       us_status := Some checked_in; us_currentSessionId := Some sessionId;
       us_lastCheckin := Some now; us_lastCheckout := None;
       us_timezone := Some timezone;
       us_currentSession :=
         Some {| cs_checkinTime := now; cs_totalBreakTime := 0;
                 cs_currentBreak := None; cs_currentWorkStatus := None;
                 cs_statusUpdateCount := 0 |} |};;
  mret session.

Definition getCheckinSession (sessionId : string) : M (option CheckinSession) :=
  gets (λ st, checkin_sessions st !! sessionId).

(** [doc(sessionId).update(...)]: rejects when the document does not exist. *)
Definition update_session (sessionId : string) (f : CheckinSession → CheckinSession) :
    M unit :=
  doc ← getCheckinSession sessionId;
  match doc with
  | Some s => modify (set_checkin_sessions (λ m, <[sessionId := f s]> m))
  | None => throw "NOT_FOUND"
  end.

Definition completeCheckinSession (sessionId checkoutNotes : string) (checkoutTime : Z) :
    M unit :=
  session ← getCheckinSession sessionId;
  match session with
  | None => throw "Session not found"
  | Some session =>
      let totalWorkTime :=
        Math_round (inject_Z (checkoutTime - s_checkinTime session) / inject_Z 60000
                    - inject_Z (s_totalBreakTime session))%Q in
      update_session sessionId (λ s,
        {| s_sessionId := s_sessionId s; s_userId := s_userId s; s_username := s_username s;
           s_date := s_date s; s_checkinTime := s_checkinTime s;
           s_checkoutTime := Some checkoutTime; s_status := completed;
           s_totalBreakTime := s_totalBreakTime s; s_totalWorkTime := Some totalWorkTime;
           s_notes :=
             if truthy checkoutNotes
             then Some {| n_checkin := s_notes session ≫= n_checkin;
                          n_checkout := Some checkoutNotes |}
             else s_notes s;
           s_timezone := s_timezone s; s_breakCount := s_breakCount s;
           s_statusUpdateCount := s_statusUpdateCount s;
           s_lastWorkStatus := s_lastWorkStatus s |});;
      updateUserStatus (s_userId session)
        {| us_userId := None; us_username := None; us_status := Some checked_out;
           us_currentSessionId := None; us_lastCheckin := None;
           us_lastCheckout := Some checkoutTime; us_timezone := None;
           us_currentSession := None |}
  end.

(** ** database.ts: breaks *)

Definition getBreakDoc (sessionId breakId : string) : M (option BreakRecord) :=
  gets (λ st, subcol (breaks st) sessionId !! breakId).

Definition setBreakDoc (sessionId breakId : string) (b : BreakRecord) : M unit :=
  modify (set_breaks (subcol_set sessionId breakId b)).

(** [FieldValue.increment(n)] on [breakCount] and on [totalBreakTime]. *)
Definition increment_breakCount (n : Z) (s : CheckinSession) : CheckinSession :=
  {| s_sessionId := s_sessionId s; s_userId := s_userId s; s_username := s_username s;
     s_date := s_date s; s_checkinTime := s_checkinTime s;
     s_checkoutTime := s_checkoutTime s; s_status := s_status s;
     s_totalBreakTime := s_totalBreakTime s; s_totalWorkTime := s_totalWorkTime s;
     s_notes := s_notes s; s_timezone := s_timezone s;
     s_breakCount := s_breakCount s + n;
     s_statusUpdateCount := s_statusUpdateCount s;
     s_lastWorkStatus := s_lastWorkStatus s |}.

Definition increment_totalBreakTime (n : Z) (s : CheckinSession) : CheckinSession :=
  {| s_sessionId := s_sessionId s; s_userId := s_userId s; s_username := s_username s;
     s_date := s_date s; s_checkinTime := s_checkinTime s;
     s_checkoutTime := s_checkoutTime s; s_status := s_status s;
     s_totalBreakTime := s_totalBreakTime s + n; s_totalWorkTime := s_totalWorkTime s;
     s_notes := s_notes s; s_timezone := s_timezone s;
     s_breakCount := s_breakCount s;
     s_statusUpdateCount := s_statusUpdateCount s;
     s_lastWorkStatus := s_lastWorkStatus s |}.

(** [tId] is the clock read by [generateBreakId], [now] the one read next. *)
Definition startBreak (sessionId userId : string) (breakType : BreakType)
    (notes : string) (tId now : Z) : M BreakRecord :=
  let breakId := generateBreakId tId in
  let breakRecord :=
    {| b_breakId := breakId; b_sessionId := sessionId; b_userId := userId;
       b_type := breakType; b_startTime := now; b_endTime := None;
       b_duration := None;
       b_expectedDuration := bc_duration (BREAK_TYPES breakType);
       b_notes := if truthy notes then Some notes else None;
       b_status := active |} in
  setBreakDoc sessionId breakId breakRecord;;
  update_session sessionId (increment_breakCount 1);;
  userStatus ← getUserStatus userId;
  match userStatus ≫= us_currentSession with
  | Some cs =>
      updateUserStatus userId
        {| us_userId := None; us_username := None; us_status := Some on_break;
           us_currentSessionId := None; us_lastCheckin := None;
           us_lastCheckout := None; us_timezone := None;
           us_currentSession :=
             Some {| cs_checkinTime := cs_checkinTime cs;
                     cs_totalBreakTime := cs_totalBreakTime cs;
                     cs_currentBreak :=
                       Some {| cb_id := breakId; cb_type := breakType;
                               cb_startTime := now |};
                     cs_currentWorkStatus := cs_currentWorkStatus cs;
                     cs_statusUpdateCount := cs_statusUpdateCount cs |} |}
  | None => mret tt
  end;;
  mret breakRecord.

(** The [notes] written by [endBreak] when end notes are given. *)
Definition end_notes (old : option string) (notes : string) : string :=
  if truthy_opt old then default "" old +:+ " | End: " +:+ notes
  else "End: " +:+ notes.

Definition endBreak (sessionId breakId userId notes : string) (endTime : Z) :
    M BreakRecord :=
  breakDoc ← getBreakDoc sessionId breakId;
  match breakDoc with
  | None => throw "Break record not found"
  | Some breakData =>
      let duration :=
        Math_round (inject_Z (endTime - b_startTime breakData) / inject_Z 60000)%Q in
      let updates_notes :=
        if truthy notes then Some (end_notes (b_notes breakData) notes) else None in
      setBreakDoc sessionId breakId
        {| b_breakId := b_breakId breakData; b_sessionId := b_sessionId breakData;
           b_userId := b_userId breakData; b_type := b_type breakData;
           b_startTime := b_startTime breakData; b_endTime := Some endTime;
           b_duration := Some duration;
           b_expectedDuration := b_expectedDuration breakData;
           b_notes := merge_field updates_notes (b_notes breakData);
           b_status := completed |};;
      update_session sessionId (increment_totalBreakTime duration);;
      userStatus ← getUserStatus userId;
      match userStatus ≫= us_currentSession with
      | Some cs =>
          updateUserStatus userId
            {| us_userId := None; us_username := None; us_status := Some checked_in;
               us_currentSessionId := None; us_lastCheckin := None;
               us_lastCheckout := None; us_timezone := None;
               us_currentSession :=
                 Some {| cs_checkinTime := cs_checkinTime cs;
                         cs_totalBreakTime := cs_totalBreakTime cs + duration;
                         cs_currentBreak := None;
                         cs_currentWorkStatus := cs_currentWorkStatus cs;
                         cs_statusUpdateCount := cs_statusUpdateCount cs |} |}
      | None => mret tt
      end;;
      mret {| b_breakId := b_breakId breakData; b_sessionId := b_sessionId breakData;
              b_userId := b_userId breakData; b_type := b_type breakData;
              b_startTime := b_startTime breakData; b_endTime := Some endTime;
              b_duration := Some duration;
              b_expectedDuration := b_expectedDuration breakData;
              b_notes := updates_notes; b_status := completed |}
  end.

Definition getSessionBreaks (sessionId : string) : M (list BreakRecord) :=
  gets (λ st, query_desc b_startTime (subcol (breaks st) sessionId)).

(** ** database.ts: status updates *)

(** [limit] is applied only when truthy: [0] and [undefined] do not cap. *)
Definition getSessionStatusUpdates (sessionId : string) (limit : option nat) :
    M (list StatusUpdate) :=
  gets (λ st,
    let all := query_desc u_timestamp (subcol (status_updates st) sessionId) in
    match limit with
    | Some (S n) => take (S n) all
    | _ => all
    end).

Definition getLatestStatusUpdate (sessionId : string) : M (option StatusUpdate) :=
  updates ← getSessionStatusUpdates sessionId (Some 1%nat);
  mret (head updates).

Definition record_status_update (status : string) (s : CheckinSession) : CheckinSession :=
  {| s_sessionId := s_sessionId s; s_userId := s_userId s; s_username := s_username s;
     s_date := s_date s; s_checkinTime := s_checkinTime s;
     s_checkoutTime := s_checkoutTime s; s_status := s_status s;
     s_totalBreakTime := s_totalBreakTime s; s_totalWorkTime := s_totalWorkTime s;
     s_notes := s_notes s; s_timezone := s_timezone s;
     s_breakCount := s_breakCount s;
     s_statusUpdateCount := s_statusUpdateCount s + 1;
     s_lastWorkStatus := Some status |}.

(** [tId] is the clock read by [generateStatusUpdateId], [now] the one read next. *)
Definition addStatusUpdate (sessionId userId username status : string) (tId now : Z) :
    M StatusUpdate :=
  let updateId := generateStatusUpdateId tId in
  previousUpdate ← getLatestStatusUpdate sessionId;
  let statusUpdate :=
    {| u_updateId := updateId; u_sessionId := sessionId; u_userId := userId;
       u_username := username; u_status := status; u_timestamp := now;
       u_previousStatus := u_status <$> previousUpdate |} in
  modify (set_status_updates (subcol_set sessionId updateId statusUpdate));;
  update_session sessionId (record_status_update status);;
  userStatus ← getUserStatus userId;
  match userStatus ≫= us_currentSession with
  | Some cs =>
      updateUserStatus userId
        {| us_userId := None; us_username := None; us_status := None;
           us_currentSessionId := None; us_lastCheckin := None;
           us_lastCheckout := None; us_timezone := None;
           us_currentSession :=
             Some {| cs_checkinTime := cs_checkinTime cs;
                     cs_totalBreakTime := cs_totalBreakTime cs;
                     cs_currentBreak := cs_currentBreak cs;
                     cs_currentWorkStatus := Some status;
                     cs_statusUpdateCount := cs_statusUpdateCount cs + 1 |} |}
  | None => mret tt
  end;;
  mret statusUpdate.

(** ** database.ts: the composed read *)

Definition getUserCurrentState (userId : string) : M (option UserCurrentState) :=
  status ← getUserStatus userId;
  match status with
  | None => mret None
  | Some status =>
      let bare :=
        {| st_status := status; st_currentSession := None; st_activeBreak := None;
           st_recentStatusUpdates := None |} in
      match us_currentSessionId status with
      | Some sid =>
          if truthy sid then
            session ← getCheckinSession sid;
            match session with
            | Some session =>
                statusUpdates ← getSessionStatusUpdates sid (Some 5%nat);
                activeBreak ←
                  match us_currentSession status ≫= cs_currentBreak with
                  | Some cb =>
                      breaks ← getSessionBreaks sid;
                      mret (List.find (λ b, String.eqb (b_breakId b) (cb_id cb)) breaks)
                  | None => mret None
                  end;
                mret (Some {| st_status := status; st_currentSession := Some session;
                              st_activeBreak := activeBreak;
                              st_recentStatusUpdates := Some statusUpdates |})
            | None => mret (Some bare)
            end
          else mret (Some bare)
      | None => mret (Some bare)
      end
  end.

(** ** database.ts: status reminders *)

Definition createStatusReminder (userId username sessionId : string) : M unit :=
  timezone ← getUserTimezone userId;
  modify (set_status_reminders (λ m,
    <[userId := {| r_userId := userId; r_username := username;
                   r_sessionId := sessionId; r_reminderCount := 0;
                   r_isActive := true; r_timezone := timezone;
                   r_lastReminderSent := None; r_lastStatusUpdate := None |}]> m)).

(** The properties of [Partial<StatusReminder>] that the engine passes. *)
Record ReminderUpdates := {
  ru_isActive : option bool;
  ru_reminderCount : option Z;
  ru_lastReminderSent : option Z;
  ru_lastStatusUpdate : option Z;
}.

Definition apply_reminder_updates (updates : ReminderUpdates) (r : StatusReminder) :
    StatusReminder :=
  {| r_userId := r_userId r; r_username := r_username r; r_sessionId := r_sessionId r;
     r_reminderCount := default (r_reminderCount r) (ru_reminderCount updates);
     r_isActive := default (r_isActive r) (ru_isActive updates);
     r_timezone := r_timezone r;
     r_lastReminderSent :=
       merge_field (ru_lastReminderSent updates) (r_lastReminderSent r);
     r_lastStatusUpdate :=
       merge_field (ru_lastStatusUpdate updates) (r_lastStatusUpdate r) |}.

(** [doc(userId).update(...)]; the rejection for a missing document is
    caught and logged, leaving the store as it was. *)
Definition updateStatusReminder (userId : string) (updates : ReminderUpdates) : M unit :=
  modify (set_status_reminders (λ m,
    match m !! userId with
    | Some r => <[userId := apply_reminder_updates updates r]> m
    | None => m
    end)).

Definition getStatusReminder (userId : string) : M (option StatusReminder) :=
  gets (λ st, status_reminders st !! userId).

Definition deactivateStatusReminder (userId : string) : M unit :=
  updateStatusReminder userId
    {| ru_isActive := Some false; ru_reminderCount := None;
       ru_lastReminderSent := None; ru_lastStatusUpdate := None |}.

(** [where('isActive', '==', true)], in the store's default order, by
    document id. *)
Definition getActiveStatusReminders : M (list StatusReminder) :=
  gets (λ st,
    filter (λ r, r_isActive r = true)
      (merge_sort (λ x y, String.le x.1 y.1) (map_to_list (status_reminders st))).*2).

(** What one delivery attempt meets: the clock shown in the message, the
    clock stamped on the reminder afterwards, and the client's answer. *)
Record Delivery := {
  d_msgTime : Z;
  d_stampTime : Z;
  d_ok : bool;
}.

Definition is_checked_in (userState : option UserCurrentState) : bool :=
  match userState with
  | Some s => bool_decide (us_status (st_status s) = Some checked_in)
  | None => false
  end.

Definition sendStatusReminder (userId timezone : string) (d : Delivery) : M unit :=
  userState ← getUserCurrentState userId;
  match userState with
  | Some s =>
      if is_checked_in userState then
        let currentWorkStatus := us_currentSession (st_status s) ≫= cs_currentWorkStatus in
        let lastStatus :=
          if truthy_opt currentWorkStatus then default "" currentWorkStatus
          else "No status set" in
        modify (set_outbox (λ l,
          (l ++ [{| dm_channel := userId; dm_time := d_msgTime d;
                    dm_lastStatus := lastStatus; dm_ok := d_ok d |}])%list));;
        if d_ok d then
          reminder ← getStatusReminder userId;
          match reminder with
          | Some reminder =>
              updateStatusReminder userId
                {| ru_isActive := None;
                   ru_reminderCount := Some (r_reminderCount reminder + 1);
                   ru_lastReminderSent := Some (d_stampTime d);
                   ru_lastStatusUpdate := None |}
          | None => mret tt
          end
        else mret tt
      else mret tt
  | None => mret tt
  end.

Definition REMINDER_INTERVAL_MS : Z := 45 * 60 * 1000.

Definition CHECK_INTERVAL_MS : Z := 5 * 60 * 1000.

(** The reference instant of the reminder loop: [lastActivityTime], or
    [None] where the loop [continue]s for want of one. *)
Definition lastActivityTime (reminder : StatusReminder) (userState : UserCurrentState) :
    option Z :=
  match r_lastStatusUpdate reminder with
  | Some t => Some t
  | None =>
      match st_recentStatusUpdates userState with
      | Some (u :: _) => Some (u_timestamp u)
      | _ =>
          match st_currentSession userState with
          | Some session => Some (s_checkinTime session)
          | None => None
          end
      end
  end.

(** The test guarding [sendStatusReminder] in the loop. *)
Definition reminder_due (now : Z) (reminder : StatusReminder) (lastActivity : Z) : bool :=
  if REMINDER_INTERVAL_MS <=? now - lastActivity then
    match r_lastReminderSent reminder with
    | Some sent => negb (now - sent <? REMINDER_INTERVAL_MS)
    | None => true
    end
  else false.

(** The body of the loop of [checkAndSendStatusReminders]. *)
Definition check_reminder (now : Z) (env : string → Delivery) (reminder : StatusReminder) :
    M unit :=
  userState ← getUserCurrentState (r_userId reminder);
  match userState with
  | Some s =>
      if is_checked_in userState then
        match lastActivityTime reminder s with
        | Some lastActivity =>
            if reminder_due now reminder lastActivity
            then sendStatusReminder (r_userId reminder) (r_timezone reminder)
                   (env (r_userId reminder))
            else mret tt
        | None => mret tt
        end
      else mret tt
  | None => mret tt
  end.

Fixpoint for_each {A} (l : list A) (body : A → M unit) : M unit :=
  match l with
  | [] => mret tt
  | x :: l' => body x;; for_each l' body
  end.

(** One tick of the reminder service; [now] is read once, before the loop. *)
Definition checkAndSendStatusReminders (now : Z) (env : string → Delivery) : M unit :=
  activeReminders ← getActiveStatusReminders;
  for_each activeReminders (check_reminder now env).

Definition createCheckinSessionWithReminder (userId username notes : string)
    (tId now : Z) : M CheckinSession :=
  session ← createCheckinSession userId username notes tId now;
  createStatusReminder userId username (s_sessionId session);;
  mret session.

Definition completeCheckinSessionWithReminder (sessionId checkoutNotes : string)
    (checkoutTime : Z) : M unit :=
  session ← getCheckinSession sessionId;
  match session with
  | None => throw "Session not found"
  | Some session =>
      completeCheckinSession sessionId checkoutNotes checkoutTime;;
      deactivateStatusReminder (s_userId session)
  end.

(** [tStamp] is the clock read for the reminder, after the update is stored. *)
Definition addStatusUpdateWithReminderUpdate (sessionId userId username status : string)
    (tId now tStamp : Z) : M StatusUpdate :=
  statusUpdate ← addStatusUpdate sessionId userId username status tId now;
  reminder ← getStatusReminder userId;
  match reminder with
  | Some reminder =>
      if r_isActive reminder then
        updateStatusReminder userId
          {| ru_isActive := None; ru_reminderCount := None;
             ru_lastReminderSent := None; ru_lastStatusUpdate := Some tStamp |}
      else mret tt
  | None => mret tt
  end;;
  mret statusUpdate.

(** ** commands.ts: the command handlers

    A handler takes the parsed command (the transport layer trims the text
    and, for [/break-start], looks the first word up in [BREAK_TYPES]) and
    answers with one [Response].  The replies are kept as data: rendering
    them into chat blocks goes through [Intl] date formatting and is not
    part of the engine; the duration text of [/break-end] is rendered in
    full. *)

Inductive Response :=
  | AlreadyActive (onBreak : bool) (since : option Z)
  | CheckinDone (session : CheckinSession)
  | NotCheckedIn
  | CheckoutDone (session : CheckinSession) (breaks : list BreakRecord)
  | AlreadyOnBreak (type : BreakType)
  | BreakUsage
  | BreakStarted (b : BreakRecord) (count : nat)
  | NotOnBreak
  | BreakEnded (b : BreakRecord) (durationText : string) (session : option CheckinSession)
  | CurrentStatus (current : string) (recent : list StatusUpdate)
  | StatusPosted (workStatus : string) (onBreak : bool)
  | Failed.

(** [try { m } catch (error) { respond('Failed ...') }] *)
Definition handler (m : M Response) : M Response := try_catch m (λ _, mret Failed).

Definition has_status (s : Status) (userState : UserCurrentState) : bool :=
  bool_decide (us_status (st_status userState) = Some s).

Definition handleCheckin (userId username notes : string) (tId now : Z) : M Response :=
  handler (
    userStatus ← getUserStatus userId;
    match userStatus with
    | Some us =>
        if bool_decide (us_status us = Some checked_in)
           || bool_decide (us_status us = Some on_break)
        then mret (AlreadyActive (bool_decide (us_status us = Some on_break))
                     (cs_checkinTime <$> us_currentSession us))
        else
          session ← createCheckinSession userId username notes tId now;
          mret (CheckinDone session)
    | None =>
        session ← createCheckinSession userId username notes tId now;
        mret (CheckinDone session)
    end).

(** [tEnd] is read only when a break is force-ended; [tCheckout] is the
    clock of [completeCheckinSession]. *)
Definition handleCheckout (userId notes : string) (tEnd tCheckout : Z) : M Response :=
  handler (
    userState ← getUserCurrentState userId;
    match userState with
    | None => mret NotCheckedIn
    | Some s =>
        match st_currentSession s with
        | None => mret NotCheckedIn
        | Some currentSession =>
            if has_status checked_out s then mret NotCheckedIn else
            match st_activeBreak s with
            | Some activeBreak =>
                if has_status on_break s
                then endBreak (s_sessionId currentSession) (b_breakId activeBreak) userId
                       "Auto-ended due to checkout" tEnd;; mret tt
                else mret tt
            | None => mret tt
            end;;
            completeCheckinSession (s_sessionId currentSession) notes tCheckout;;
            completedSession ← getCheckinSession (s_sessionId currentSession);
            match completedSession with
            | Some completedSession =>
                match s_checkoutTime completedSession with
                | Some _ =>
                    breaks ← getSessionBreaks (s_sessionId completedSession);
                    mret (CheckoutDone completedSession breaks)
                | None => throw "Failed to complete session"
                end
            | None => throw "Failed to complete session"
            end
        end
    end).

Definition handleBreakStart (userId : string) (breakType : option BreakType)
    (notes : string) (tId now : Z) : M Response :=
  handler (
    userState ← getUserCurrentState userId;
    match userState with
    | None => mret NotCheckedIn
    | Some s =>
        match st_currentSession s with
        | None => mret NotCheckedIn
        | Some currentSession =>
            if has_status checked_out s then mret NotCheckedIn else
            match (if has_status on_break s then st_activeBreak s else None) with
            | Some activeBreak => mret (AlreadyOnBreak (b_type activeBreak))
            | None =>
                match breakType with
                | None => mret BreakUsage
                | Some breakType =>
                    breakRecord ← startBreak (s_sessionId currentSession) userId
                                    breakType notes tId now;
                    allBreaks ← getSessionBreaks (s_sessionId currentSession);
                    mret (BreakStarted breakRecord (length allBreaks))
                end
            end
        end
    end).

(** The duration line of the break-end summary. *)
Definition durationText (breakConfig : BreakConfig) (duration : option Z) : string :=
  let text := from_option pretty "undefined" duration +:+ " minutes" in
  if truthy_num (bc_duration breakConfig) && truthy_num duration then
    let difference := default 0 duration - default 0 (bc_duration breakConfig) in
    if 5 <? difference
    then text +:+ " (" +:+ pretty difference +:+ " min longer than expected)"
    else if difference <? -5
    then text +:+ " (" +:+ pretty (Z.abs difference) +:+ " min shorter than expected)"
    else text
  else text.

Definition handleBreakEnd (userId notes : string) (tEnd : Z) : M Response :=
  handler (
    userState ← getUserCurrentState userId;
    match userState with
    | None => mret NotOnBreak
    | Some s =>
        match st_activeBreak s, st_currentSession s with
        | Some activeBreak, Some currentSession =>
            if has_status on_break s then
              endedBreak ← endBreak (s_sessionId currentSession) (b_breakId activeBreak)
                             userId notes tEnd;
              let breakConfig := BREAK_TYPES (b_type endedBreak) in
              updatedSession ← getCheckinSession (s_sessionId currentSession);
              mret (BreakEnded endedBreak
                      (durationText breakConfig (b_duration endedBreak)) updatedSession)
            else mret NotOnBreak
        | _, _ => mret NotOnBreak
        end
    end).

Definition handleStatusUpdate (userId username workStatus : string) (tId now : Z) :
    M Response :=
  handler (
    userState ← getUserCurrentState userId;
    match userState with
    | None => mret NotCheckedIn
    | Some s =>
        match st_currentSession s with
        | None => mret NotCheckedIn
        | Some currentSession =>
            if has_status checked_out s then mret NotCheckedIn else
            if truthy workStatus then
              addStatusUpdate (s_sessionId currentSession) userId username workStatus
                tId now;;
              mret (StatusPosted workStatus (has_status on_break s))
            else
              let current := us_currentSession (st_status s) ≫= cs_currentWorkStatus in
              mret (CurrentStatus
                      (if truthy_opt current then default "" current
                       else "No work status set")
                      (take 5 (default [] (st_recentStatusUpdates s))))
        end
    end).

End Database.

(** ** The engine as a transition system

    The entry points of the running service: the five slash commands and
    the tick of the reminder service.  A history is a list of them, run
    one after the other from a store that holds user preferences only. *)

Inductive Command :=
  | Checkin (userId username notes : string) (tId now : Z)
  | Checkout (userId notes : string) (tEnd tCheckout : Z)
  | BreakStart (userId : string) (breakType : option BreakType) (notes : string)
      (tId now : Z)
  | BreakEnd (userId notes : string) (tEnd : Z)
  | PostStatus (userId username workStatus : string) (tId now : Z)
  | Tick (now : Z) (env : string → Delivery).

Definition initial_store (prefs : gmap string UserPreferences) : Store :=
  {| user_status := ∅; checkin_sessions := ∅; breaks := ∅; status_updates := ∅;
     user_preferences := prefs; status_reminders := ∅; outbox := [] |}.

Section Engine.

Variable systemTimezone : string.

Definition step (st : Store) (c : Command) : Store :=
  match c with
  | Checkin userId username notes tId now =>
      (handleCheckin systemTimezone userId username notes tId now st).1
  | Checkout userId notes tEnd tCheckout =>
      (handleCheckout userId notes tEnd tCheckout st).1
  | BreakStart userId breakType notes tId now =>
      (handleBreakStart userId breakType notes tId now st).1
  | BreakEnd userId notes tEnd => (handleBreakEnd userId notes tEnd st).1
  | PostStatus userId username workStatus tId now =>
      (handleStatusUpdate userId username workStatus tId now st).1
  | Tick now env => (checkAndSendStatusReminders now env st).1
  end.

Definition run (prefs : gmap string UserPreferences) (history : list Command) : Store :=
  foldl step (initial_store prefs) history.

End Engine.

(** ** The reminder service over time *)

(** The instants of [n] ticks of [setInterval], the first at [t0]. *)
Fixpoint tick_times (t0 : Z) (n : nat) : list Z :=
  match n with
  | O => []
  | S n' => t0 :: tick_times (t0 + CHECK_INTERVAL_MS) n'
  end.

(** The store after the ticks at [ticks]; [env t] is what the deliveries of
    the tick at [t] meet. *)
Definition run_ticks (env : Z → string → Delivery) (ticks : list Z) (st : Store) : Store :=
  foldl (λ st t, (checkAndSendStatusReminders t (env t) st).1) st ticks.

(** The reminders handed to the chat client for [userId] between [st] and
    a later store [st'], and those of them shown as sent in [lo, hi). *)
Definition reminders_sent (userId : string) (st st' : Store) : list DirectMessage :=
  filter (λ m, dm_channel m = userId) (drop (length (outbox st)) (outbox st')).

Definition in_window (lo hi : Z) (l : list DirectMessage) : list DirectMessage :=
  filter (λ m, lo ≤ dm_time m < hi) l.

(** ** The status-update ledger of a session *)

(** The updates recorded in a session, oldest first. *)
Definition session_updates (st : Store) (sessionId : string) : list StatusUpdate :=
  reverse (query_desc u_timestamp (subcol (status_updates st) sessionId)).

(** Strictly increasing timestamps, and every update carrying the status
    text of the one before it, the first carrying none. *)
Fixpoint linked (prev : option StatusUpdate) (l : list StatusUpdate) : Prop :=
  match l with
  | [] => True
  | u :: l' =>
      u_previousStatus u = u_status <$> prev
      ∧ from_option (λ p, u_timestamp p < u_timestamp u) True prev
      ∧ linked (Some u) l'
  end.

(** A call of [addStatusUpdate], with the two clocks it reads. *)
Record UpdateCall := {
  uc_sessionId : string;
  uc_userId : string;
  uc_username : string;
  uc_status : string;
  uc_tId : Z;
  uc_now : Z;
}.

Definition post (st : Store) (c : UpdateCall) : Store :=
  (addStatusUpdate (uc_sessionId c) (uc_userId c) (uc_username c) (uc_status c)
     (uc_tId c) (uc_now c) st).1.

(** The clock moves on: within a call the second reading is not before
    the first, and every call starts after the previous one has read its
    last clock. *)
Fixpoint clock_advances (last : Z) (calls : list UpdateCall) : Prop :=
  match calls with
  | [] => True
  | c :: calls' =>
      last < uc_tId c ∧ uc_tId c ≤ uc_now c ∧ clock_advances (uc_now c) calls'
  end.

(** ** The documents an operation leaves behind *)

(** The break document left by [endBreak], and the record it returns. *)
Definition ended_break (b : BreakRecord) (notes : string) (endTime : Z) : BreakRecord :=
  {| b_breakId := b_breakId b; b_sessionId := b_sessionId b; b_userId := b_userId b;
     b_type := b_type b; b_startTime := b_startTime b; b_endTime := Some endTime;
     b_duration :=
       Some (Math_round (inject_Z (endTime - b_startTime b) / inject_Z 60000)%Q);
     b_expectedDuration := b_expectedDuration b;
     b_notes :=
       merge_field (if truthy notes then Some (end_notes (b_notes b) notes) else None)
         (b_notes b);
     b_status := completed |}.

Definition returned_break (b : BreakRecord) (notes : string) (endTime : Z) : BreakRecord :=
  {| b_breakId := b_breakId b; b_sessionId := b_sessionId b; b_userId := b_userId b;
     b_type := b_type b; b_startTime := b_startTime b; b_endTime := Some endTime;
     b_duration :=
       Some (Math_round (inject_Z (endTime - b_startTime b) / inject_Z 60000)%Q);
     b_expectedDuration := b_expectedDuration b;
     b_notes := if truthy notes then Some (end_notes (b_notes b) notes) else None;
     b_status := completed |}.

(** The [user_status] collection after [endBreak] by [uid]. *)
Definition status_after_endBreak (uid : string) (d : Z) (m : gmap string UserStatus) :
    gmap string UserStatus :=
  match m !! uid ≫= us_currentSession with
  | Some cs =>
      <[uid :=
          merge_user_status
            {| us_userId := None; us_username := None; us_status := Some checked_in;
               us_currentSessionId := None; us_lastCheckin := None;
               us_lastCheckout := None; us_timezone := None;
               us_currentSession :=
                 Some {| cs_checkinTime := cs_checkinTime cs;
                         cs_totalBreakTime := cs_totalBreakTime cs + d;
                         cs_currentBreak := None;
                         cs_currentWorkStatus := cs_currentWorkStatus cs;
                         cs_statusUpdateCount := cs_statusUpdateCount cs |} |}
            (m !! uid)]> m
  | None => m
  end.

(** ** A worked day

    Alice checks in at 09:00 UTC on 2024-01-01 and goes to lunch at noon;
    the stores along that day serve as concrete instances below. *)

Definition nine : Z := 1704099600000.

Definition hours (h : Z) : Z := h * 3600000.

Definition minutes (m : Z) : Z := m * 60000.

Definition alice_session : string := "U1_20240101_1704099600000".

Definition alice_lunch : string := "break_1704110400000".

Definition day_at_work : Store :=
  run "UTC" ∅ [Checkin "U1" "alice" "" nine (nine + 1)].

Definition day_at_lunch : Store :=
  run "UTC" ∅ [Checkin "U1" "alice" "" nine (nine + 1);
               BreakStart "U1" (Some lunch) "food" (nine + hours 3) (nine + hours 3 + 2)].

Definition day_short_break : Store :=
  run "UTC" ∅ [Checkin "U1" "alice" "" nine (nine + 1);
               BreakStart "U1" (Some short) "" (nine + hours 1) (nine + hours 1 + 2)].

Definition day_two_users : Store :=
  run "UTC" ∅ [Checkin "U1" "alice" "" nine (nine + 1);
               Checkin "U2" "bob" "" (nine + 5) (nine + 6)].

(** ** Shape of the generated identifiers *)

Fixpoint no_underscore (s : string) : Prop :=
  match s with
  | "" => True
  | String c s' => c ≠ "_"%char ∧ no_underscore s'
  end.

(** ** The reminder loop, one record at a time *)

(** What [getUserCurrentState] returns on a store (it only reads). *)
Definition current_state (st : Store) (userId : string) : option UserCurrentState :=
  match (getUserCurrentState userId st).2 with
  | Ok o => o
  | Throw _ => None
  end.

(** The most recent status update of a session. *)
Definition latest_update (st : Store) (sessionId : string) : option StatusUpdate :=
  head (query_desc u_timestamp (subcol (status_updates st) sessionId)).

(** The reference instant as the specification words it: the reminder's
    [lastStatusUpdate] if set, else the timestamp of the most recent status
    update of the session, else the session's [checkinTime]. *)
Definition reference_instant (reminder : StatusReminder) (latest : option StatusUpdate)
    (session : CheckinSession) : Z :=
  match r_lastStatusUpdate reminder with
  | Some t => t
  | None =>
      match latest with
      | Some u => u_timestamp u
      | None => s_checkinTime session
      end
  end.

(** The message of a reminder to a user in state [s]. *)
Definition reminder_message (userId : string) (d : Delivery) (s : UserCurrentState) :
    DirectMessage :=
  let currentWorkStatus := us_currentSession (st_status s) ≫= cs_currentWorkStatus in
  {| dm_channel := userId; dm_time := d_msgTime d;
     dm_lastStatus := if truthy_opt currentWorkStatus then default "" currentWorkStatus
                      else "No status set";
     dm_ok := d_ok d |}.

(** The reminder record after a delivery that met [d]. *)
Definition reminded (d : Delivery) (r : StatusReminder) : StatusReminder :=
  if d_ok d then
    apply_reminder_updates
      {| ru_isActive := None; ru_reminderCount := Some (r_reminderCount r + 1);
         ru_lastReminderSent := Some (d_stampTime d); ru_lastStatusUpdate := None |} r
  else r.

(** Whether the loop sends for record [r] of a user in state [s]. *)
Definition sends (now : Z) (r : StatusReminder) (s : option UserCurrentState) : bool :=
  match s with
  | Some s' =>
      is_checked_in s
      && from_option (reminder_due now r) false (lastActivityTime r s')
  | None => false
  end.

(** The record and the messages one pass of the loop body leaves for [r]. *)
Definition reminder_outcome (now : Z) (d : Delivery) (r : StatusReminder)
    (s : option UserCurrentState) : StatusReminder * list DirectMessage :=
  match s with
  | Some s' =>
      if sends now r s then (reminded d r, [reminder_message (r_userId r) d s'])
      else (r, [])
  | None => (r, [])
  end.

(** Every reminder document is filed under its user's id. *)
Definition reminders_keyed (st : Store) : Prop :=
  map_Forall (λ k r, r_userId r = k) (status_reminders st).

(** Alice at work with a reminder record, as [createCheckinSessionWithReminder]
    leaves her, and the same with a lunch break under way. *)
Definition day_reminded : Store :=
  (createCheckinSessionWithReminder "UTC" "U1" "alice" "" nine (nine + 1)
     (initial_store ∅)).1.

Definition day_reminded_lunch : Store :=
  (startBreak alice_session "U1" lunch "" (nine + hours 3) (nine + hours 3 + 2)
     day_reminded).1.

Definition alice_reminder : StatusReminder :=
  {| r_userId := "U1"; r_username := "alice"; r_sessionId := alice_session;
     r_reminderCount := 0; r_isActive := true; r_timezone := "UTC";
     r_lastReminderSent := None; r_lastStatusUpdate := None |}.

(** Deliveries that succeed at once. *)
Definition prompt (now : Z) (userId : string) : Delivery :=
  {| d_msgTime := now; d_stampTime := now; d_ok := true |}.

(** The record of one user and the messages to them over a run of ticks,
    the user staying in state [s]. *)
Fixpoint user_ticks (env : Z → string → Delivery) (userId : string)
    (s : option UserCurrentState) (ticks : list Z) (r : StatusReminder) :
    StatusReminder * list DirectMessage :=
  match ticks with
  | [] => (r, [])
  | t :: ticks' =>
      let o := reminder_outcome t (env t userId) r s in
      let rest := user_ticks env userId s ticks' o.1 in
      (rest.1, (o.2 ++ rest.2)%list)
  end.

(** A delivery of the tick at [t] that succeeds, reads its clocks in order
    after [t], and is shown as sent before the next tick. *)
Definition timely (t : Z) (d : Delivery) : Prop :=
  d_ok d = true
  ∧ t ≤ d_msgTime d ∧ d_msgTime d ≤ d_stampTime d
  ∧ d_msgTime d < t + CHECK_INTERVAL_MS.

(** No reminder stamped after instant [T]. *)
Definition not_reminded_since (T : Z) (r : StatusReminder) : Prop :=
  from_option (λ sent, sent ≤ T) True (r_lastReminderSent r).

(** The document written by [addStatusUpdate], and the [user_status]
    collection it leaves. *)
Definition new_update (st : Store) (sessionId userId username status : string)
    (tId now : Z) : StatusUpdate :=
  {| u_updateId := generateStatusUpdateId tId; u_sessionId := sessionId;
     u_userId := userId; u_username := username; u_status := status;
     u_timestamp := now;
     u_previousStatus := u_status <$> latest_update st sessionId |}.

Definition status_after_update (uid status : string) (m : gmap string UserStatus) :
    gmap string UserStatus :=
  match m !! uid ≫= us_currentSession with
  | Some cs =>
      <[uid :=
          merge_user_status
            {| us_userId := None; us_username := None; us_status := None;
               us_currentSessionId := None; us_lastCheckin := None;
               us_lastCheckout := None; us_timezone := None;
               us_currentSession :=
                 Some {| cs_checkinTime := cs_checkinTime cs;
                         cs_totalBreakTime := cs_totalBreakTime cs;
                         cs_currentBreak := cs_currentBreak cs;
                         cs_currentWorkStatus := Some status;
                         cs_statusUpdateCount := cs_statusUpdateCount cs + 1 |} |}
            (m !! uid)]> m
  | None => m
  end.

(** The reminder record after [addStatusUpdateWithReminderUpdate]. *)
Definition stamped (tStamp : Z) (r : StatusReminder) : StatusReminder :=
  apply_reminder_updates
    {| ru_isActive := None; ru_reminderCount := None;
       ru_lastReminderSent := None; ru_lastStatusUpdate := Some tStamp |} r.

(** A ledger written up to clock [bound]: linked, no timestamp after
    [bound], every document filed under an id generated by then. *)
Definition ledger_ok (bound : Z) (m : gmap string StatusUpdate) : Prop :=
  linked None (reverse (query_desc u_timestamp m))
  ∧ ∀ k d, m !! k = Some d →
      u_timestamp d ≤ bound ∧ ∃ t, k = generateStatusUpdateId t ∧ t ≤ bound.

(** The last clock read by a sequence of calls started after [last]. *)
Definition last_clock (last : Z) (calls : list UpdateCall) : Z :=
  foldl (λ _ c, uc_now c) last calls.

(** Three updates posted to Alice's session through the morning. *)
Definition morning_calls : list UpdateCall :=
  [ {| uc_sessionId := alice_session; uc_userId := "U1"; uc_username := "alice";
       uc_status := "triage"; uc_tId := nine + minutes 10;
       uc_now := nine + minutes 10 + 1 |};
    {| uc_sessionId := alice_session; uc_userId := "U1"; uc_username := "alice";
       uc_status := "bug 42"; uc_tId := nine + minutes 70;
       uc_now := nine + minutes 70 |};
    {| uc_sessionId := alice_session; uc_userId := "U1"; uc_username := "alice";
       uc_status := "review"; uc_tId := nine + minutes 130;
       uc_now := nine + minutes 130 + 3 |} ].

(** * The rest of the engine *)

(** ** helper.ts: elapsed time *)

(** [Math.floor] *)
Definition Math_floor (x : Q) : Z := Qfloor x.

(** [calculateDuration]; the [%] of JavaScript takes the sign of the
    dividend, as [Z.rem] does. *)
Definition calculateDuration (start end_ : Z) : string :=
  let diffMs := end_ - start in
  let hours := Math_floor (inject_Z diffMs / inject_Z (1000 * 60 * 60))%Q in
  let minutes :=
    Math_floor (inject_Z (Z.rem diffMs (1000 * 60 * 60)) / inject_Z (1000 * 60))%Q in
  pretty hours +:+ "h " +:+ pretty minutes +:+ "m".

(** ** database.ts: preferences and the team queries *)

(** [updateUserPreferences(userId, { timezone })], the one form in which
    the engine calls it; the other preference fields are never read. *)
Definition updateUserPreferences (userId timezone : string) : M unit :=
  modify (λ st,
    {| user_status := user_status st; checkin_sessions := checkin_sessions st;
       breaks := breaks st; status_updates := status_updates st;
       user_preferences := <[userId := {| p_timezone := timezone |}]> (user_preferences st);
       status_reminders := status_reminders st; outbox := outbox st |}).




(** ** commands.ts: the remaining handlers *)

Inductive TimezoneReply :=
  | TimezoneUsage (current : option string)
  | TimezoneInvalid (timezone : string)
  | TimezoneUpdated (timezone : string)
  | TimezoneFailed.

Section SetTimezone.

(** Whether [toLocaleString] of the host accepts the zone name. *)
Variable validTimezone : string → bool.

Definition handleSetTimezone (userId timezone : string) : M TimezoneReply :=
  try_catch (
    if truthy timezone then
      if validTimezone timezone then
        updateUserPreferences userId timezone;;
        userStatus ← getUserStatus userId;
        match userStatus with
        | Some _ =>
            updateUserStatus userId
              {| us_userId := None; us_username := None; us_status := None;
                 us_currentSessionId := None; us_lastCheckin := None;
                 us_lastCheckout := None; us_timezone := Some timezone;
                 us_currentSession := None |}
        | None => mret tt
        end;;
        mret (TimezoneUpdated timezone)
      else mret (TimezoneInvalid timezone)
    else
      currentPrefs ← getUserPreferences userId;
      mret (TimezoneUsage
              (match currentPrefs with
               | Some p => if truthy (p_timezone p) then Some (p_timezone p) else None
               | None => None
               end)))
    (λ _, mret TimezoneFailed).

End SetTimezone.




(** ** The service with every state-changing entry point *)

Inductive Request :=
  | Slash (c : Command)
  | SetTimezone (userId timezone : string).

Section Service.

Variable systemTimezone : string.
Variable validTimezone : string → bool.

Definition serve (st : Store) (r : Request) : Store :=
  match r with
  | Slash c => step systemTimezone st c
  | SetTimezone userId timezone => (handleSetTimezone validTimezone userId timezone st).1
  end.

Definition serve_all (prefs : gmap string UserPreferences) (requests : list Request) :
    Store :=
  foldl serve (initial_store prefs) requests.

End Service.

(** ** What the handlers keep true

    The state of the store after any sequence of requests: every user
    document points at a session of that user and mirrors its totals, every
    active session is the current one of its user, every active break is
    the current break of a user on break, and a session carries a checkout
    time and a work time exactly when it is completed. *)

(** The current break of the projection [cs] is an active break document
    of session [sid]. *)
Definition on_active_break (st : Store) (sid : string) (cs : CurrentSession) : Prop :=
  ∃ cb b,
    cs_currentBreak cs = Some cb
    ∧ subcol (breaks st) sid !! cb_id cb = Some b
    ∧ b_status b = active
    ∧ b_type b = cb_type cb ∧ b_startTime b = cb_startTime cb.

Definition user_ok (st : Store) (u : string) (us : UserStatus) : Prop :=
  us_userId us = Some u
  ∧ ∃ sid cs s,
      us_currentSessionId us = Some sid
      ∧ us_currentSession us = Some cs
      ∧ checkin_sessions st !! sid = Some s
      ∧ s_userId s = u
      ∧ cs_checkinTime cs = s_checkinTime s
      ∧ cs_totalBreakTime cs = s_totalBreakTime s
      ∧ cs_statusUpdateCount cs = s_statusUpdateCount s
      ∧ match us_status us with
        | Some checked_in => s_status s = active
        | Some on_break => s_status s = active ∧ on_active_break st sid cs
        | Some checked_out => s_status s = completed
        | _ => False
        end.

Definition session_ok (st : Store) (sid : string) (s : CheckinSession) : Prop :=
  s_sessionId s = sid
  ∧ (∃ t, sid = generateSessionId (s_userId s) t)
  ∧ (s_status s = active →
     ∃ us, user_status st !! s_userId s = Some us ∧ us_currentSessionId us = Some sid)
  ∧ match s_status s with
    | active => s_checkoutTime s = None
    | completed => is_Some (s_checkoutTime s) ∧ is_Some (s_totalWorkTime s)
    end.

Definition break_ok (st : Store) (sid bid : string) (b : BreakRecord) : Prop :=
  b_breakId b = bid
  ∧ b_sessionId b = sid
  ∧ (b_status b = active →
     ∃ s us cs cb,
       checkin_sessions st !! sid = Some s
       ∧ user_status st !! s_userId s = Some us
       ∧ us_status us = Some on_break
       ∧ us_currentSessionId us = Some sid
       ∧ us_currentSession us = Some cs
       ∧ cs_currentBreak cs = Some cb
       ∧ cb_id cb = bid).

Record engine_inv (st : Store) : Prop := {
  inv_users : ∀ u us, user_status st !! u = Some us → user_ok st u us;
  inv_sessions : ∀ sid s, checkin_sessions st !! sid = Some s → session_ok st sid s;
  inv_breaks : ∀ sid bid b, subcol (breaks st) sid !! bid = Some b → break_ok st sid bid b;
}.

(** The user document left by [createCheckinSession], by [startBreak] and
    by [completeCheckinSession]. *)
Definition checked_in_status (userId username timezone sessionId : string) (now : Z)
    (old : option UserStatus) : UserStatus :=
  merge_user_status
    {| us_userId := Some userId; us_username := Some username;
       us_status := Some checked_in; us_currentSessionId := Some sessionId;
       us_lastCheckin := Some now; us_lastCheckout := None;
       us_timezone := Some timezone;
       us_currentSession :=
         Some {| cs_checkinTime := now; cs_totalBreakTime := 0;
                 cs_currentBreak := None; cs_currentWorkStatus := None;
                 cs_statusUpdateCount := 0 |} |} old.

Definition on_break_status (breakId : string) (breakType : BreakType) (now : Z)
    (cs : CurrentSession) (old : option UserStatus) : UserStatus :=
  merge_user_status
    {| us_userId := None; us_username := None; us_status := Some on_break;
       us_currentSessionId := None; us_lastCheckin := None;
       us_lastCheckout := None; us_timezone := None;
       us_currentSession :=
         Some {| cs_checkinTime := cs_checkinTime cs;
                 cs_totalBreakTime := cs_totalBreakTime cs;
                 cs_currentBreak :=
                   Some {| cb_id := breakId; cb_type := breakType; cb_startTime := now |};
                 cs_currentWorkStatus := cs_currentWorkStatus cs;
                 cs_statusUpdateCount := cs_statusUpdateCount cs |} |} old.

Definition checked_out_status (checkoutTime : Z) (old : option UserStatus) : UserStatus :=
  merge_user_status
    {| us_userId := None; us_username := None; us_status := Some checked_out;
       us_currentSessionId := None; us_lastCheckin := None;
       us_lastCheckout := Some checkoutTime; us_timezone := None;
       us_currentSession := None |} old.

(** The break document written by [startBreak]. *)
Definition started_break (sessionId userId : string) (breakType : BreakType)
    (notes : string) (tId now : Z) : BreakRecord :=
  {| b_breakId := generateBreakId tId; b_sessionId := sessionId; b_userId := userId;
     b_type := breakType; b_startTime := now; b_endTime := None; b_duration := None;
     b_expectedDuration := bc_duration (BREAK_TYPES breakType);
     b_notes := if truthy notes then Some notes else None; b_status := active |}.

(** The session document written by [createCheckinSession]. *)
Definition new_session (userId username notes timezone : string) (tId now : Z) :
    CheckinSession :=
  {| s_sessionId := generateSessionId userId tId; s_userId := userId;
     s_username := username; s_date := getDateString now; s_checkinTime := now;
     s_checkoutTime := None; s_status := active; s_totalBreakTime := 0;
     s_totalWorkTime := None;
     s_notes := if truthy notes
                then Some {| n_checkin := Some notes; n_checkout := None |}
                else None;
     s_timezone := timezone; s_breakCount := 0; s_statusUpdateCount := 0;
     s_lastWorkStatus := None |}.

(** The zone [getUserTimezone] resolves on a store. *)
Definition timezone_of (systemTimezone : string) (st : Store) (userId : string) : string :=
  match user_preferences st !! userId with
  | Some p => if truthy (p_timezone p) then p_timezone p else systemTimezone
  | None => systemTimezone
  end.

(** The session document left by [completeCheckinSession]. *)
Definition completed_session (s : CheckinSession) (checkoutNotes : string)
    (checkoutTime : Z) : CheckinSession :=
  {| s_sessionId := s_sessionId s; s_userId := s_userId s; s_username := s_username s;
     s_date := s_date s; s_checkinTime := s_checkinTime s;
     s_checkoutTime := Some checkoutTime; s_status := completed;
     s_totalBreakTime := s_totalBreakTime s;
     s_totalWorkTime :=
       Some (Math_round (inject_Z (checkoutTime - s_checkinTime s) / inject_Z 60000
                         - inject_Z (s_totalBreakTime s))%Q);
     s_notes :=
       if truthy checkoutNotes
       then Some {| n_checkin := s_notes s ≫= n_checkin;
                    n_checkout := Some checkoutNotes |}
       else s_notes s;
     s_timezone := s_timezone s; s_breakCount := s_breakCount s;
     s_statusUpdateCount := s_statusUpdateCount s;
     s_lastWorkStatus := s_lastWorkStatus s |}.

(** What a slash command leaves alone: the reminder records, the messages
    sent and the preferences. *)
Definition same_reminders (st st' : Store) : Prop :=
  status_reminders st' = status_reminders st ∧ outbox st' = outbox st
  ∧ user_preferences st' = user_preferences st.

(** ** commands.ts: the team report

    [handleCheckinReport] as the data its text is built from: the users
    and sessions that get a line, the counts printed in the headings and
    the numbers of the summary.  [arg] is the first word of the command
    text, [now] the clock read when it is empty. *)

(** The hours and minutes of a summary line: [Math.round(total / 60)] and
    [total % 60]. *)
Definition summary_time (total : Z) : Z * Z :=
  (Math_round (inject_Z total / inject_Z 60)%Q, Z.rem total 60).







(** ** Worked histories *)



(** Deliveries that the chat client turns down. *)
Definition refused (now : Z) (userId : string) : Delivery :=
  {| d_msgTime := now; d_stampTime := now; d_ok := false |}.

(** * Properties *)

(** ** Rounding *)

Lemma Qfloor_add_Z (q : Q) (n : Z) : Qfloor (q + inject_Z n)%Q = Qfloor q + n.
Proof.
  apply Z.le_antisymm.
  - apply Z.lt_succ_r. rewrite Zlt_Qlt.
    eapply Qle_lt_trans; [apply Qfloor_le|].
    replace (Z.succ (Qfloor q + n)) with ((Qfloor q + 1) + n) by lia.
    rewrite inject_Z_plus. apply Qplus_lt_le_compat; [apply Qlt_floor|apply Qle_refl].
  - rewrite <- (Qfloor_Z (Qfloor q + n)). apply Qfloor_resp_le.
    rewrite inject_Z_plus. apply Qplus_le_compat; [apply Qfloor_le|apply Qle_refl].
Qed.

(** Subtracting whole minutes commutes with [Math.round]. *)
Lemma Math_round_sub_Z (x : Q) (n : Z) :
  Math_round (x - inject_Z n)%Q = Math_round x - n.
Proof.
  unfold Math_round.
  rewrite (Qfloor_comp _ ((x + (1 # 2)) + inject_Z (- n))%Q).
  - rewrite Qfloor_add_Z. lia.
  - rewrite inject_Z_opp. ring.
Qed.

(** Milliseconds to minutes, in integer arithmetic. *)
Lemma Math_round_div (a : Z) :
  Math_round (inject_Z a / inject_Z 60000)%Q = (a + 30000) / 60000.
Proof.
  unfold Math_round. rewrite Zdiv_Qdiv. apply Qfloor_comp.
  rewrite inject_Z_plus. field.
Qed.

Lemma Math_round_div_nonneg (a : Z) :
  0 ≤ a → 0 ≤ Math_round (inject_Z a / inject_Z 60000)%Q.
Proof. intros. rewrite Math_round_div. apply Z.div_pos; lia. Qed.

(** ** Subcollections *)

Lemma subcol_set_same {A} (p i : string) (d : A) m :
  subcol (subcol_set p i d m) p = <[i := d]> (subcol m p).
Proof. unfold subcol at 1, subcol_set. by rewrite lookup_insert_eq. Qed.

Lemma subcol_set_other {A} (p p' i : string) (d : A) m :
  p ≠ p' → subcol (subcol_set p i d m) p' = subcol m p'.
Proof. intros. unfold subcol, subcol_set. by rewrite lookup_insert_ne. Qed.

Lemma subcol_set_lookup {A} (p i : string) (d : A) m :
  subcol (subcol_set p i d m) p !! i = Some d.
Proof. by rewrite subcol_set_same, lookup_insert_eq. Qed.

Lemma subcol_set_lookup_ne {A} (p i p' i' : string) (d : A) m :
  (p, i) ≠ (p', i') → subcol (subcol_set p i d m) p' !! i' = subcol m p' !! i'.
Proof.
  intros Hne. destruct (decide (p = p')) as [->|].
  - rewrite subcol_set_same, lookup_insert_ne; [done|congruence].
  - by rewrite subcol_set_other.
Qed.

(** ** What each store operation does

    The outcome and the resulting collections of every operation, on the
    stores where its documents exist. *)

Ltac run_unfold :=
  unfold mbind, M_bind, mret, M_ret, gets, modify, throw, getCheckinSession,
    update_session, getUserStatus, updateUserStatus, getBreakDoc, setBreakDoc,
    getStatusReminder, updateStatusReminder; simpl.

(** Runs the monadic code, rewriting with the lookups [H] on the way. *)
Tactic Notation "run_with" constr(H) :=
  repeat progress (run_unfold; rewrite ?H; simpl).
Tactic Notation "run_with" constr(H1) constr(H2) :=
  repeat progress (run_unfold; rewrite ?H1, ?H2; simpl).
Tactic Notation "run_with" constr(H1) constr(H2) constr(H3) :=
  repeat progress (run_unfold; rewrite ?H1, ?H2, ?H3; simpl).
Tactic Notation "run_with" constr(H1) constr(H2) constr(H3) constr(H4) :=
  repeat progress (run_unfold; rewrite ?H1, ?H2, ?H3, ?H4; simpl).

Lemma completeCheckinSession_run st sid notes co s :
  checkin_sessions st !! sid = Some s →
  ∃ st' s',
    completeCheckinSession sid notes co st = (st', Ok tt)
    ∧ checkin_sessions st' = <[sid := s']> (checkin_sessions st)
    ∧ user_status st' =
        <[s_userId s :=
            merge_user_status
              {| us_userId := None; us_username := None; us_status := Some checked_out;
                 us_currentSessionId := None; us_lastCheckin := None;
                 us_lastCheckout := Some co; us_timezone := None;
                 us_currentSession := None |}
              (user_status st !! s_userId s)]> (user_status st)
    ∧ breaks st' = breaks st ∧ status_updates st' = status_updates st
    ∧ user_preferences st' = user_preferences st
    ∧ status_reminders st' = status_reminders st ∧ outbox st' = outbox st
    ∧ s_sessionId s' = s_sessionId s ∧ s_userId s' = s_userId s
    ∧ s_checkinTime s' = s_checkinTime s
    ∧ s_status s' = completed ∧ s_checkoutTime s' = Some co
    ∧ s_totalBreakTime s' = s_totalBreakTime s
    ∧ s_totalWorkTime s' =
        Some (Math_round (inject_Z (co - s_checkinTime s) / inject_Z 60000
                          - inject_Z (s_totalBreakTime s))%Q).
Proof.
  intros Hs. unfold completeCheckinSession. run_with Hs. eexists _, _. split; [reflexivity|]. simpl.
  repeat split; reflexivity.
Qed.

Lemma completeCheckinSession_missing st sid notes co :
  checkin_sessions st !! sid = None →
  completeCheckinSession sid notes co st = (st, Throw "Session not found").
Proof. intros Hs. unfold completeCheckinSession. by run_with Hs. Qed.

Lemma endBreak_run st sid bid uid notes t b s :
  subcol (breaks st) sid !! bid = Some b →
  checkin_sessions st !! sid = Some s →
  let d := Math_round (inject_Z (t - b_startTime b) / inject_Z 60000)%Q in
  ∃ st',
    endBreak sid bid uid notes t st = (st', Ok (returned_break b notes t))
    ∧ breaks st' = subcol_set sid bid (ended_break b notes t) (breaks st)
    ∧ checkin_sessions st' = <[sid := increment_totalBreakTime d s]> (checkin_sessions st)
    ∧ user_status st' = status_after_endBreak uid d (user_status st)
    ∧ status_updates st' = status_updates st
    ∧ user_preferences st' = user_preferences st
    ∧ status_reminders st' = status_reminders st ∧ outbox st' = outbox st.
Proof.
  intros Hb Hs d. unfold endBreak, status_after_endBreak.
  destruct (user_status st !! uid) as [us|] eqn:Hus; simpl;
    [destruct (us_currentSession us) as [cs|] eqn:Hcs|pose proof I as Hcs];
    run_with Hb Hs Hus Hcs;
    eexists; (split; [reflexivity|]); simpl; rewrite ?Hus; simpl; rewrite ?Hcs;
    repeat split; reflexivity.
Qed.

(** ** C1: work time at checkout *)

(** C1.  Completing a session whose [totalBreakTime] is a whole number of
    minutes stores [totalWorkTime = round((checkoutTime - checkinTime)/60000)
    - totalBreakTime], marks the session completed and stamps the checkout
    time; nothing clamps the value, so it is stored negative whenever the
    break minutes exceed the rounded elapsed minutes. *)
Theorem completeCheckinSession_totalWorkTime st sid notes co s :
  checkin_sessions st !! sid = Some s →
  let elapsed := Math_round (inject_Z (co - s_checkinTime s) / inject_Z 60000)%Q in
  ∃ st' s',
    completeCheckinSession sid notes co st = (st', Ok tt)
    ∧ checkin_sessions st' !! sid = Some s'
    ∧ s_status s' = completed
    ∧ s_checkoutTime s' = Some co
    ∧ s_totalBreakTime s' = s_totalBreakTime s
    ∧ s_totalWorkTime s' = Some (elapsed - s_totalBreakTime s)
    ∧ (elapsed < s_totalBreakTime s →
       ∃ w, s_totalWorkTime s' = Some w ∧ w < 0).
Proof.
  intros Hs elapsed.
  destruct (completeCheckinSession_run st sid notes co s Hs)
    as (st' & s' & Hrun & Hsess & _ & _ & _ & _ & _ & _ & _ & _ & _ & Hst & Hco & Htb & Hw).
  exists st', s'. rewrite Hsess, lookup_insert_eq.
  rewrite Math_round_sub_Z in Hw. fold elapsed in Hw.
  repeat split; try done.
  intros Hneg. exists (elapsed - s_totalBreakTime s). split; [done|lia].
Qed.

Lemma completeCheckinSession_totalWorkTime_witness :
  ∃ st' s',
    completeCheckinSession alice_session "" (nine + hours 8) day_at_work = (st', Ok tt)
    ∧ checkin_sessions st' !! alice_session = Some s'
    ∧ s_totalWorkTime s' = Some 480.
Proof.
  edestruct (completeCheckinSession_totalWorkTime day_at_work alice_session ""
               (nine + hours 8))
    as (st' & s' & Hrun & Hs' & _ & _ & _ & Hw & _); [vm_compute; reflexivity|].
  exists st', s'. split; [exact Hrun|]. split; [exact Hs'|].
  rewrite Hw. vm_compute. reflexivity.
Defined.

(** Break minutes above the elapsed minutes: the stored work time is negative. *)
Example totalWorkTime_negative :
  ∀ s, checkin_sessions day_at_lunch !! alice_session = Some s →
  let s10 := increment_totalBreakTime 600 s in
  let st := set_checkin_sessions (λ m, <[alice_session := s10]> m) day_at_lunch in
  (s_totalWorkTime <$>
     checkin_sessions (completeCheckinSession alice_session "" (nine + hours 8) st).1
       !! alice_session) = Some (Some (-120)).
Proof. intros s Hs. vm_compute in Hs. injection Hs as <-. vm_compute. reflexivity. Qed.

(** ** C7: ending a break that does not exist *)

(** C7.  [endBreak] with a break id that names no document under the
    session raises "Break record not found" and leaves the whole store
    as it was: no session total, no counter and no user status changes. *)
Theorem endBreak_unknown_break st sid bid uid notes t :
  subcol (breaks st) sid !! bid = None →
  endBreak sid bid uid notes t st = (st, Throw "Break record not found").
Proof. intros Hb. unfold endBreak. by run_with Hb. Qed.

Lemma endBreak_unknown_break_witness :
  endBreak alice_session "break_0" "U1" "" (nine + hours 4) day_at_lunch
  = (day_at_lunch, Throw "Break record not found").
Proof. apply endBreak_unknown_break. vm_compute. reflexivity. Defined.

(** ** C10: ending a break twice *)

(** C10.  [endBreak] does not look at the status of the break: on any
    break document under an existing session, active or completed, a call
    succeeds, computes the duration from its own clock and adds it to the
    session's [totalBreakTime].  Two calls on the same break leave the
    break completed after the first and add both durations to the total. *)
Theorem endBreak_not_idempotent st sid bid uid notes1 notes2 t1 t2 b s :
  subcol (breaks st) sid !! bid = Some b →
  checkin_sessions st !! sid = Some s →
  let d1 := Math_round (inject_Z (t1 - b_startTime b) / inject_Z 60000)%Q in
  let d2 := Math_round (inject_Z (t2 - b_startTime b) / inject_Z 60000)%Q in
  ∃ st1 st2 b1 b2 s1 s2,
    endBreak sid bid uid notes1 t1 st = (st1, Ok b1)
    ∧ endBreak sid bid uid notes2 t2 st1 = (st2, Ok b2)
    ∧ b_duration b1 = Some d1 ∧ b_duration b2 = Some d2
    ∧ (b_status <$> subcol (breaks st1) sid !! bid) = Some completed
    ∧ checkin_sessions st1 !! sid = Some s1
    ∧ s_totalBreakTime s1 = s_totalBreakTime s + d1
    ∧ checkin_sessions st2 !! sid = Some s2
    ∧ s_totalBreakTime s2 = s_totalBreakTime s + d1 + d2.
Proof.
  intros Hb Hs d1 d2.
  destruct (endBreak_run st sid bid uid notes1 t1 b s Hb Hs)
    as (st1 & Hrun1 & Hb1 & Hs1 & _).
  assert (Hb1' : subcol (breaks st1) sid !! bid = Some (ended_break b notes1 t1)).
  { rewrite Hb1. apply subcol_set_lookup. }
  assert (Hs1' : checkin_sessions st1 !! sid = Some (increment_totalBreakTime d1 s)).
  { rewrite Hs1. by rewrite lookup_insert_eq. }
  destruct (endBreak_run st1 sid bid uid notes2 t2 _ _ Hb1' Hs1')
    as (st2 & Hrun2 & _ & Hs2 & _).
  exists st1, st2, (returned_break b notes1 t1),
    (returned_break (ended_break b notes1 t1) notes2 t2),
    (increment_totalBreakTime d1 s),
    (increment_totalBreakTime d2 (increment_totalBreakTime d1 s)).
  repeat split; try done.
  - by rewrite Hb1'.
  - by rewrite Hs2, lookup_insert_eq.
Qed.

Lemma endBreak_not_idempotent_witness :
  ∃ st1 st2 b1 b2 s2,
    endBreak alice_session alice_lunch "U1" "" (nine + hours 3 + minutes 45) day_at_lunch
    = (st1, Ok b1)
    ∧ endBreak alice_session alice_lunch "U1" "" (nine + hours 3 + minutes 50) st1
      = (st2, Ok b2)
    ∧ b_duration b1 = Some 45 ∧ b_duration b2 = Some 50
    ∧ checkin_sessions st2 !! alice_session = Some s2
    ∧ s_totalBreakTime s2 = 95.
Proof.
  edestruct (endBreak_not_idempotent day_at_lunch alice_session alice_lunch "U1" "" ""
               (nine + hours 3 + minutes 45) (nine + hours 3 + minutes 50))
    as (st1 & st2 & b1 & b2 & s1 & s2 & H1 & H2 & Hd1 & Hd2 & _ & _ & _ & Hs2 & Ht);
    [vm_compute; reflexivity | vm_compute; reflexivity |].
  exists st1, st2, b1, b2, s2. repeat split; try done.
Defined.

(** ** C9: expected durations and the variance flag *)

Lemma BREAK_TYPES_durations :
  bc_duration (BREAK_TYPES short) = Some 15
  ∧ bc_duration (BREAK_TYPES lunch) = Some 45
  ∧ bc_duration (BREAK_TYPES personal) = Some 20
  ∧ bc_duration (BREAK_TYPES meeting) = None.
Proof. done. Qed.

(** The break written and returned by [startBreak] carries the table's
    duration for its type. *)
Lemma startBreak_expectedDuration st sid uid ty notes tId now st' b :
  startBreak sid uid ty notes tId now st = (st', Ok b) →
  b_expectedDuration b = bc_duration (BREAK_TYPES ty)
  ∧ (b_expectedDuration <$> subcol (breaks st') sid !! generateBreakId tId)
    = Some (bc_duration (BREAK_TYPES ty)).
Proof.
  unfold startBreak.
  destruct (checkin_sessions st !! sid) as [s|] eqn:Hs;
    [destruct (user_status st !! uid) as [us|] eqn:Hus;
     [destruct (us_currentSession us) as [cs|] eqn:Hcs|pose proof I as Hcs]
    |pose proof I as Hus; pose proof I as Hcs];
    run_with Hs Hus Hcs; intros [= <- <-]; simpl;
    (split; [done|]); by rewrite subcol_set_lookup.
Qed.

(** A break of a timed type whose rounded duration is not zero is flagged
    exactly when it is off by more than five minutes. *)
Lemma durationText_nonzero ty e d :
  bc_duration (BREAK_TYPES ty) = Some e → d ≠ 0 →
  durationText (BREAK_TYPES ty) (Some d) =
    if 5 <? d - e
    then (pretty d +:+ " minutes")
           +:+ " (" +:+ pretty (d - e) +:+ " min longer than expected)"
    else if d - e <? -5
    then (pretty d +:+ " minutes")
           +:+ " (" +:+ pretty (Z.abs (d - e)) +:+ " min shorter than expected)"
    else pretty d +:+ " minutes".
Proof.
  intros He Hd. unfold durationText, truthy_num. rewrite He.
  assert (e ≠ 0) by (destruct ty; simplify_eq/=; lia).
  rewrite (proj2 (Z.eqb_neq e 0)), (proj2 (Z.eqb_neq d 0)) by done.
  reflexivity.
Qed.

(** A meeting has no expected duration, and its summary is never flagged. *)
Lemma durationText_meeting d :
  durationText (BREAK_TYPES meeting) d = from_option pretty "undefined" d +:+ " minutes".
Proof. done. Qed.

(** C9, at the input where the code departs from it.  A short break
    (expected 15 minutes) ended twenty seconds after it started has
    duration 0, fifteen minutes less than expected, and the break-end
    summary reads "0 minutes" with no flag: the guard
    [breakConfig.duration && endedBreak.duration] takes the duration 0 for
    a missing one. *)
Theorem break_end_zero_duration_unflagged :
  ∃ st' b s,
    handleBreakEnd "U1" "" (nine + hours 1 + 20000) day_short_break
    = (st', Ok (BreakEnded b "0 minutes" s))
    ∧ b_type b = short
    ∧ b_duration b = Some 0
    ∧ b_expectedDuration b = Some 15
    ∧ durationText (BREAK_TYPES short) (Some 1)
      = "1 minutes (14 min shorter than expected)".
Proof. eexists _, _, _. split; [vm_compute; reflexivity|]. by vm_compute. Qed.

(** ** C8: generated identifiers *)

Lemma append_cons (x : ascii) (a b : string) : String x a +:+ b = String x (a +:+ b).
Proof. reflexivity. Qed.

Lemma append_nil (b : string) : "" +:+ b = b.
Proof. reflexivity. Qed.

Lemma append_assoc (a b c : string) : (a +:+ b) +:+ c = a +:+ (b +:+ c).
Proof.
  induction a as [|x a IH]; [done|]. rewrite !append_cons. by rewrite IH.
Qed.

Lemma append_length (a b : string) :
  String.length (a +:+ b) = (String.length a + String.length b)%nat.
Proof.
  induction a as [|x a IH]; [done|]. rewrite append_cons. simpl. by rewrite IH.
Qed.

Lemma append_inv_tail (a b c : string) : a +:+ c = b +:+ c → a = b.
Proof.
  revert b. induction a as [|x a IH]; intros [|y b] H;
    rewrite ?append_cons, ?append_nil in H.
  - done.
  - apply (f_equal String.length) in H. simpl in H. rewrite append_length in H. lia.
  - apply (f_equal String.length) in H. simpl in H. rewrite append_length in H. lia.
  - injection H as -> H. f_equal. by apply IH.
Qed.

Lemma no_underscore_append (a b : string) :
  no_underscore (a +:+ String "_" b) → False.
Proof.
  induction a as [|x a IH]; rewrite ?append_cons, ?append_nil; simpl;
    intros [? ?]; [done|auto].
Qed.

(** A string is split in one way only at its last underscore. *)
Lemma split_last_underscore (a b p q : string) :
  a +:+ String "_" p = b +:+ String "_" q →
  no_underscore p → no_underscore q → a = b ∧ p = q.
Proof.
  revert b. induction a as [|x a IH]; intros [|y b] H Hp Hq;
    rewrite ?append_cons, ?append_nil in H.
  - by injection H.
  - injection H as <- ->. by apply no_underscore_append in Hp.
  - injection H as -> <-. by apply no_underscore_append in Hq.
  - injection H as -> H. destruct (IH b H Hp Hq) as [-> ->]. done.
Qed.

Lemma pretty_N_go_no_underscore (x : N) (s : string) :
  no_underscore s → no_underscore (pretty_N_go x s).
Proof.
  revert s. induction (N.lt_wf_0 x) as [x _ IH]; intros s Hs.
  assert (x = 0 ∨ 0 < x)%N as [->|?] by lia.
  - by rewrite pretty_N_go_0.
  - rewrite pretty_N_go_step by done. apply IH; [by apply N.div_lt|].
    simpl. split; [|done]. unfold pretty_N_char. by repeat case_match.
Qed.

Lemma pretty_Z_no_underscore (z : Z) : no_underscore (pretty z).
Proof.
  assert (Hpos : ∀ p : positive, no_underscore (pretty p)).
  { intros p. unfold pretty, pretty_positive, pretty, pretty_N.
    case_decide; [done|]. by apply pretty_N_go_no_underscore. }
  unfold pretty, pretty_Z. destruct z; simpl; [by compute|apply Hpos|].
  split; [done|apply Hpos].
Qed.

Lemma generateSessionId_inj u1 u2 t1 t2 :
  generateSessionId u1 t1 = generateSessionId u2 t2 → u1 = u2 ∧ t1 = t2.
Proof.
  unfold generateSessionId. intros H.
  rewrite <- !(append_assoc _ "_" (_ +:+ "_" +:+ _)) in H.
  rewrite <- !(append_assoc _ _ ("_" +:+ _)) in H.
  apply split_last_underscore in H as [H Ht]; [|apply pretty_Z_no_underscore..].
  apply (inj pretty) in Ht as ->. split; [|done].
  rewrite !append_assoc in H. by apply append_inv_tail in H.
Qed.

Lemma generateBreakId_inj t1 t2 : generateBreakId t1 = generateBreakId t2 → t1 = t2.
Proof. unfold generateBreakId. intros H%(inj (String.app _)). by apply (inj pretty). Qed.

Lemma generateStatusUpdateId_inj t1 t2 :
  generateStatusUpdateId t1 = generateStatusUpdateId t2 → t1 = t2.
Proof.
  unfold generateStatusUpdateId. intros H%(inj (String.app _)). by apply (inj pretty).
Qed.

(** C8, as the code has it.  A session id determines the user id and the
    creation instant it was made from, so two session ids are equal only
    for the same user at the same millisecond.  A break id and a
    status-update id are made from the creation instant alone: two of them
    are equal exactly when the instants are, whoever the user and whatever
    the session. *)
Theorem generated_ids_equal_iff :
  (∀ u1 u2 t1 t2,
     generateSessionId u1 t1 = generateSessionId u2 t2 ↔ u1 = u2 ∧ t1 = t2)
  ∧ (∀ t1 t2, generateBreakId t1 = generateBreakId t2 ↔ t1 = t2)
  ∧ (∀ t1 t2, generateStatusUpdateId t1 = generateStatusUpdateId t2 ↔ t1 = t2).
Proof.
  split; [|split]; intros; split.
  - apply generateSessionId_inj.
  - by intros [-> ->].
  - apply generateBreakId_inj.
  - by intros ->.
  - apply generateStatusUpdateId_inj.
  - by intros ->.
Qed.

(** C8 as stated fails: two users in two sessions who start a break in the
    same millisecond get the same break id. *)
Lemma break_ids_collide :
  ∃ st1 st2 b1 b2 n1 n2,
    handleBreakStart "U1" (Some short) "" (nine + hours 1) (nine + hours 1) day_two_users
    = (st1, Ok (BreakStarted b1 n1))
    ∧ handleBreakStart "U2" (Some lunch) "" (nine + hours 1) (nine + hours 1) st1
      = (st2, Ok (BreakStarted b2 n2))
    ∧ b_userId b1 ≠ b_userId b2
    ∧ b_sessionId b1 ≠ b_sessionId b2
    ∧ b_breakId b1 = b_breakId b2.
Proof.
  eexists _, _, _, _, _, _. split; [vm_compute; reflexivity|].
  split; [vm_compute; reflexivity|]. by vm_compute.
Qed.

(** ** Reading the current state *)

Lemma getUserCurrentState_read uid st :
  getUserCurrentState uid st = (st, Ok (current_state st uid)).
Proof.
  unfold current_state, getUserCurrentState, getSessionStatusUpdates, getSessionBreaks.
  run_unfold. destruct (user_status st !! uid) as [us|]; simpl; [|done].
  destruct (us_currentSessionId us) as [sid|]; simpl; [|done].
  destruct (truthy sid); simpl; [|done].
  run_unfold. destruct (checkin_sessions st !! sid) as [s|]; simpl; [|done].
  destruct (us_currentSession us) as [cs|]; simpl;
    [destruct (cs_currentBreak cs)|]; reflexivity.
Qed.

(** The current state reads four collections only. *)
Lemma current_state_ext st st' uid :
  user_status st' = user_status st →
  checkin_sessions st' = checkin_sessions st →
  breaks st' = breaks st →
  status_updates st' = status_updates st →
  current_state st' uid = current_state st uid.
Proof.
  intros H1 H2 H3 H4. destruct st, st'; simpl in *; subst.
  unfold current_state, getUserCurrentState, getSessionStatusUpdates, getSessionBreaks.
  run_unfold. destruct (_ !! uid) as [us|]; simpl; [|done].
  destruct (us_currentSessionId us) as [sid|]; simpl; [|done].
  destruct (truthy sid); simpl; [|done].
  run_unfold. destruct (_ !! sid) as [s|]; simpl; [|done].
  destruct (us_currentSession us) as [cs|]; simpl;
    [destruct (cs_currentBreak cs)|]; reflexivity.
Qed.

(** The current state of a user with a stored session. *)
Lemma current_state_session st uid us sid session :
  user_status st !! uid = Some us →
  us_currentSessionId us = Some sid → truthy sid = true →
  checkin_sessions st !! sid = Some session →
  ∃ s, current_state st uid = Some s
       ∧ st_status s = us
       ∧ st_currentSession s = Some session
       ∧ st_recentStatusUpdates s
         = Some (take 5 (query_desc u_timestamp (subcol (status_updates st) sid)))
       ∧ st_activeBreak s
         = match us_currentSession us ≫= cs_currentBreak with
           | Some cb =>
               List.find (λ b, String.eqb (b_breakId b) (cb_id cb))
                 (query_desc b_startTime (subcol (breaks st) sid))
           | None => None
           end.
Proof.
  intros Hus Hsid Ht Hs.
  unfold current_state, getUserCurrentState, getSessionStatusUpdates, getSessionBreaks.
  run_with Hus Hsid Ht Hs.
  destruct (us_currentSession us) as [cs|]; simpl;
    [destruct (cs_currentBreak cs)|]; simpl; eexists; repeat split; reflexivity.
Qed.

Lemma current_state_status st uid s :
  current_state st uid = Some s → user_status st !! uid = Some (st_status s).
Proof.
  unfold current_state, getUserCurrentState, getSessionStatusUpdates, getSessionBreaks.
  run_unfold. destruct (user_status st !! uid) as [us|]; simpl; [|done].
  destruct (us_currentSessionId us) as [sid|]; simpl; [|by intros [= <-]].
  destruct (truthy sid); simpl; [|by intros [= <-]].
  run_unfold. destruct (checkin_sessions st !! sid) as [s'|]; simpl; [|by intros [= <-]].
  destruct (us_currentSession us) as [cs|]; simpl;
    [destruct (cs_currentBreak cs)|]; by intros [= <-].
Qed.

Lemma current_state_None st uid :
  current_state st uid = None ↔ user_status st !! uid = None.
Proof.
  split.
  - destruct (user_status st !! uid) as [us|] eqn:Hus; [|done].
    unfold current_state, getUserCurrentState, getSessionStatusUpdates, getSessionBreaks.
    run_with Hus. destruct (us_currentSessionId us) as [sid|]; simpl; [|done].
    destruct (truthy sid); simpl; [|done].
    run_unfold. destruct (checkin_sessions st !! sid) as [s'|]; simpl; [|done].
    destruct (us_currentSession us) as [cs|]; simpl;
      [by destruct (cs_currentBreak cs)|done].
  - intros Hus.
    unfold current_state, getUserCurrentState. by run_with Hus.
Qed.

(** ** One pass of the reminder loop *)

Lemma sendStatusReminder_run uid tz d st :
  ∃ st',
    sendStatusReminder uid tz d st = (st', Ok tt)
    ∧ user_status st' = user_status st
    ∧ checkin_sessions st' = checkin_sessions st
    ∧ breaks st' = breaks st ∧ status_updates st' = status_updates st
    ∧ user_preferences st' = user_preferences st
    ∧ match current_state st uid with
      | Some s =>
          if is_checked_in (Some s) then
            outbox st' = (outbox st ++ [reminder_message uid d s])%list
            ∧ status_reminders st' =
                match status_reminders st !! uid with
                | Some r => <[uid := reminded d r]> (status_reminders st)
                | None => status_reminders st
                end
          else st' = st
      | None => st' = st
      end.
Proof.
  unfold sendStatusReminder. unfold mbind at 1, M_bind at 1.
  rewrite getUserCurrentState_read.
  destruct (current_state st uid) as [s|]; [|by eexists].
  destruct (is_checked_in (Some s)); [|by eexists].
  unfold reminded. destruct (d_ok d) eqn:Hok; run_unfold.
  - destruct (status_reminders st !! uid) as [r|] eqn:Hr; run_with Hr;
      eexists; (split; [reflexivity|]); simpl; rewrite ?Hr;
      unfold reminder_message; rewrite ?Hok; by repeat split.
  - eexists; (split; [reflexivity|]); simpl.
    unfold reminder_message; rewrite ?Hok. repeat split; try done.
    destruct (status_reminders st !! uid) as [r|] eqn:Hr; [|done].
    by rewrite insert_id.
Qed.

Lemma check_reminder_run now env r st :
  ∃ st',
    check_reminder now env r st = (st', Ok tt)
    ∧ user_status st' = user_status st
    ∧ checkin_sessions st' = checkin_sessions st
    ∧ breaks st' = breaks st ∧ status_updates st' = status_updates st
    ∧ user_preferences st' = user_preferences st
    ∧ match current_state st (r_userId r) with
      | Some s =>
          if sends now r (Some s) then
            outbox st' =
              (outbox st ++ [reminder_message (r_userId r) (env (r_userId r)) s])%list
            ∧ status_reminders st' =
                match status_reminders st !! r_userId r with
                | Some r' => <[r_userId r := reminded (env (r_userId r)) r']>
                               (status_reminders st)
                | None => status_reminders st
                end
          else st' = st
      | None => st' = st
      end.
Proof.
  unfold check_reminder. unfold mbind at 1, M_bind at 1.
  rewrite getUserCurrentState_read.
  destruct (sendStatusReminder_run (r_userId r) (r_timezone r) (env (r_userId r)) st)
    as (st' & Hrun & H1 & H2 & H3 & H4 & H5 & H6).
  destruct (current_state st (r_userId r)) as [s|] eqn:Hs; [|by eexists].
  unfold sends. destruct (is_checked_in (Some s)) eqn:Hin; simpl; [|by eexists].
  destruct (lastActivityTime r s) as [T|]; simpl; [|by eexists].
  destruct (reminder_due now r T); [|by eexists].
  exists st'. by rewrite Hrun.
Qed.

(** The loop body changes nothing but the outbox and the reminder filed
    under the record's user. *)
Lemma check_reminder_frame now env r st :
  ∃ st' new,
    check_reminder now env r st = (st', Ok tt)
    ∧ user_status st' = user_status st
    ∧ checkin_sessions st' = checkin_sessions st
    ∧ breaks st' = breaks st ∧ status_updates st' = status_updates st
    ∧ user_preferences st' = user_preferences st
    ∧ outbox st' = (outbox st ++ new)%list
    ∧ new = (reminder_outcome now (env (r_userId r)) r
               (current_state st (r_userId r))).2
    ∧ (∀ u, u ≠ r_userId r → status_reminders st' !! u = status_reminders st !! u)
    ∧ (status_reminders st !! r_userId r = Some r →
       status_reminders st' !! r_userId r
       = Some (reminder_outcome now (env (r_userId r)) r
                 (current_state st (r_userId r))).1)
    ∧ (reminders_keyed st → reminders_keyed st').
Proof.
  destruct (check_reminder_run now env r st)
    as (st' & Hrun & H1 & H2 & H3 & H4 & H5 & H6).
  exists st', (reminder_outcome now (env (r_userId r)) r
                 (current_state st (r_userId r))).2.
  split; [exact Hrun|]. do 5 (split; [done|]).
  unfold reminder_outcome.
  destruct (current_state st (r_userId r)) as [s|] eqn:Hs;
    [destruct (sends now r (Some s)) eqn:Hsend|]; simpl.
  - destruct H6 as [Hout Hrem]. split; [done|]. split; [done|]. rewrite Hrem.
    destruct (status_reminders st !! r_userId r) as [r'|] eqn:Hr'.
    + split; [by intros; rewrite lookup_insert_ne|].
      split; [intros [= ->]; by rewrite lookup_insert_eq|].
      intros Hk k r0. rewrite Hrem. destruct (decide (k = r_userId r)) as [->|].
      * rewrite lookup_insert_eq. intros [= <-]. unfold reminded.
        destruct (d_ok _); simpl; by apply Hk.
      * rewrite lookup_insert_ne by done. apply Hk.
    + split; [done|]. split; [by rewrite Hr'|].
      intros Hk k r0. rewrite Hrem. apply Hk.
  - subst st'. by rewrite app_nil_r.
  - subst st'. by rewrite app_nil_r.
Qed.

Lemma reminder_outcome_channel now d r s u :
  filter (λ m, dm_channel m = u) (reminder_outcome now d r s).2
  = if decide (r_userId r = u) then (reminder_outcome now d r s).2 else [].
Proof.
  unfold reminder_outcome. destruct s as [s|]; [|by case_decide].
  destruct (sends now r (Some s)); simpl; [|by case_decide].
  rewrite filter_cons, filter_nil. simpl. by repeat case_decide.
Qed.

Lemma reminder_outcome_ext now d r st st' :
  user_status st' = user_status st →
  checkin_sessions st' = checkin_sessions st →
  breaks st' = breaks st →
  status_updates st' = status_updates st →
  reminder_outcome now d r (current_state st' (r_userId r))
  = reminder_outcome now d r (current_state st (r_userId r)).
Proof. intros. by rewrite (current_state_ext st st'). Qed.

(** The loop over records filed under distinct users: every record is
    decided on the state the tick started from, and touches nothing but
    its own document and the messages to its own user. *)
Lemma for_each_check now env l : ∀ st,
  NoDup (r_userId <$> l) →
  (∀ r, r ∈ l → status_reminders st !! r_userId r = Some r) →
  ∃ st' new,
    for_each l (check_reminder now env) st = (st', Ok tt)
    ∧ user_status st' = user_status st
    ∧ checkin_sessions st' = checkin_sessions st
    ∧ breaks st' = breaks st ∧ status_updates st' = status_updates st
    ∧ user_preferences st' = user_preferences st
    ∧ outbox st' = (outbox st ++ new)%list
    ∧ (∀ u, u ∉ r_userId <$> l →
         status_reminders st' !! u = status_reminders st !! u
         ∧ filter (λ m, dm_channel m = u) new = [])
    ∧ (∀ r, r ∈ l →
         status_reminders st' !! r_userId r
         = Some (reminder_outcome now (env (r_userId r)) r
                   (current_state st (r_userId r))).1
         ∧ filter (λ m, dm_channel m = r_userId r) new
           = (reminder_outcome now (env (r_userId r)) r
                (current_state st (r_userId r))).2)
    ∧ (reminders_keyed st → reminders_keyed st').
Proof.
  induction l as [|r l IH]; intros st Hnd Hl.
  - exists st, []. simpl. rewrite app_nil_r.
    repeat split; try done;
      match goal with H : _ ∈ [] |- _ => by apply elem_of_nil in H end.
  - rewrite fmap_cons in Hnd. apply NoDup_cons in Hnd as [Hr Hnd].
    destruct (check_reminder_frame now env r st)
      as (st1 & new1 & Hrun1 & A1 & A2 & A3 & A4 & A5 & Hout1 & Hnew1 & Hoth1 & Hown1 & Hk1).
    assert (Hl1 : ∀ r', r' ∈ l → status_reminders st1 !! r_userId r' = Some r').
    { intros r' Hr'. rewrite Hoth1.
      - apply Hl. by right.
      - intros Heq. apply Hr. rewrite <- Heq. by apply list_elem_of_fmap_2. }
    destruct (IH st1 Hnd Hl1)
      as (st2 & new2 & Hrun2 & B1 & B2 & B3 & B4 & B5 & Hout2 & Hoth2 & Hown2 & Hk2).
    exists st2, (new1 ++ new2)%list.
    split. { simpl. unfold mbind, M_bind. by rewrite Hrun1. }
    split; [congruence|]. split; [congruence|]. split; [congruence|].
    split; [congruence|]. split; [congruence|].
    split. { by rewrite Hout2, Hout1, app_assoc. }
    split; [|split].
    + intros u Hu. rewrite fmap_cons, not_elem_of_cons in Hu. destruct Hu as [Hne Hu].
      destruct (Hoth2 u Hu) as [-> Hf2]. split; [by apply Hoth1|].
      rewrite filter_app, Hf2, Hnew1, reminder_outcome_channel.
      by rewrite decide_False by done.
    + intros r0 Hr0. apply elem_of_cons in Hr0 as [->|Hr0].
      * destruct (Hoth2 (r_userId r) Hr) as [-> Hf2].
        split; [apply Hown1, Hl; by left|].
        rewrite filter_app, Hf2, Hnew1, reminder_outcome_channel, app_nil_r.
        by rewrite decide_True.
      * destruct (Hown2 r0 Hr0) as [-> Hf2].
        rewrite (reminder_outcome_ext _ _ _ st st1) in * by done. split; [done|].
        rewrite filter_app, Hf2, Hnew1, reminder_outcome_channel.
        rewrite decide_False; [done|].
        intros Heq. apply Hr. rewrite Heq. by apply list_elem_of_fmap_2.
    + auto.
Qed.

(** The records the tick loops over. *)
Lemma active_reminders_elem st r :
  r ∈ filter (λ r, r_isActive r = true)
        (merge_sort (λ x y, String.le x.1 y.1) (map_to_list (status_reminders st))).*2
  ↔ r_isActive r = true ∧ ∃ k, status_reminders st !! k = Some r.
Proof.
  rewrite list_elem_of_filter, list_elem_of_fmap. split.
  - intros [Ha [[k r'] [-> Hin]]]. split; [done|]. exists k.
    rewrite merge_sort_Permutation in Hin. by apply elem_of_map_to_list in Hin.
  - intros [Ha [k Hk]]. split; [done|]. exists (k, r). split; [done|].
    rewrite merge_sort_Permutation. by apply elem_of_map_to_list.
Qed.

Lemma active_reminders_NoDup st :
  reminders_keyed st →
  NoDup (r_userId <$>
           filter (λ r, r_isActive r = true)
             (merge_sort (λ x y, String.le x.1 y.1)
                (map_to_list (status_reminders st))).*2).
Proof.
  intros Hk. eapply sublist_NoDup; [|apply fmap_sublist, sublist_filter].
  rewrite <- list_fmap_compose.
  erewrite (list_fmap_ext _ fst); [|].
  - rewrite merge_sort_Permutation. apply NoDup_fst_map_to_list.
  - intros i [k r] Hin. simpl. apply Hk.
    apply list_elem_of_lookup_2 in Hin. rewrite merge_sort_Permutation in Hin.
    by apply elem_of_map_to_list in Hin.
Qed.

(** One tick, seen from one user. *)
Lemma tick_frame now env st :
  reminders_keyed st →
  ∃ st' new,
    checkAndSendStatusReminders now env st = (st', Ok tt)
    ∧ user_status st' = user_status st
    ∧ checkin_sessions st' = checkin_sessions st
    ∧ breaks st' = breaks st ∧ status_updates st' = status_updates st
    ∧ user_preferences st' = user_preferences st
    ∧ outbox st' = (outbox st ++ new)%list
    ∧ reminders_keyed st'
    ∧ (∀ u, reminders_sent u st st' = filter (λ m, dm_channel m = u) new)
    ∧ (∀ u r, status_reminders st !! u = Some r → r_isActive r = true →
         status_reminders st' !! u
         = Some (reminder_outcome now (env u) r (current_state st u)).1
         ∧ filter (λ m, dm_channel m = u) new
           = (reminder_outcome now (env u) r (current_state st u)).2)
    ∧ (∀ u, (∀ r, status_reminders st !! u = Some r → r_isActive r = false) →
         status_reminders st' !! u = status_reminders st !! u
         ∧ filter (λ m, dm_channel m = u) new = []).
Proof.
  intros Hk. unfold checkAndSendStatusReminders, getActiveStatusReminders.
  unfold mbind, M_bind, gets.
  set (l := filter _ _).
  destruct (for_each_check now env l st) as
    (st' & new & Hrun & A1 & A2 & A3 & A4 & A5 & Hout & Hoth & Hown & Hk').
  { apply active_reminders_NoDup, Hk. }
  { intros r [_ [k Hr]]%active_reminders_elem. by rewrite (Hk k r Hr). }
  exists st', new. split; [done|]. do 5 (split; [done|]). split; [done|].
  split; [auto|]. split; [|split].
  - intros u. unfold reminders_sent. by rewrite Hout, drop_app_length.
  - intros u r Hr Ha. rewrite <- (Hk u r Hr). apply Hown.
    apply active_reminders_elem. eauto.
  - intros u Hu. apply Hoth. intros (r & Heq & [Ha [k Hr]]%active_reminders_elem)%list_elem_of_fmap.
    rewrite (Hk k r Hr) in Heq. subst k. rewrite (Hu r Hr) in Ha. done.
Qed.

(** ** C6: whom the tick skips, and the reference instant *)

Lemma is_checked_in_true st uid :
  is_checked_in (current_state st uid) = true
  ↔ ∃ us, user_status st !! uid = Some us ∧ us_status us = Some checked_in.
Proof.
  destruct (current_state st uid) as [s|] eqn:Hs; simpl.
  - apply current_state_status in Hs. rewrite bool_decide_eq_true. split.
    + intros ?. eauto.
    + intros (us & Hus & ?). by simplify_eq.
  - apply current_state_None in Hs. split; [done|].
    intros (us & Hus & _). by simplify_eq.
Qed.

Lemma is_checked_in_false st uid :
  (∀ us, user_status st !! uid = Some us → us_status us ≠ Some checked_in) →
  is_checked_in (current_state st uid) = false.
Proof.
  intros Hout. destruct (is_checked_in _) eqn:Hin; [|done].
  apply is_checked_in_true in Hin as (us & Hus & Hin). by destruct (Hout us).
Qed.

Lemma lastActivityTime_reference st uid us sid session s r :
  user_status st !! uid = Some us →
  us_currentSessionId us = Some sid → truthy sid = true →
  checkin_sessions st !! sid = Some session →
  current_state st uid = Some s →
  lastActivityTime r s = Some (reference_instant r (latest_update st sid) session).
Proof.
  intros Hus Hsid Ht Hsess Hs.
  destruct (current_state_session st uid us sid session Hus Hsid Ht Hsess)
    as (s' & Hs' & _ & Hcur & Hrec & _).
  simplify_eq. unfold lastActivityTime, reference_instant, latest_update.
  rewrite Hrec, Hcur. destruct (r_lastStatusUpdate r); [done|].
  by destruct (query_desc _ _).
Qed.

(** C6.  In the loop of a tick, a record whose user is not checked in (no
    status document, on break, checked out) is passed over with no message
    and no write.  For a checked-in user with a stored session the loop
    sends exactly when [reminder_due] holds of the reference instant chosen
    as: the reminder's [lastStatusUpdate] if set, else the timestamp of the
    most recent status update of the session, else the session's
    [checkinTime].  Over a whole tick, every user who is not checked in
    keeps their reminder document and gets no message. *)
Theorem reminder_tick_decision now env st r :
  ((∀ us, user_status st !! r_userId r = Some us → us_status us ≠ Some checked_in) →
   check_reminder now env r st = (st, Ok tt))
  ∧ (∀ us sid session,
       user_status st !! r_userId r = Some us →
       us_status us = Some checked_in →
       us_currentSessionId us = Some sid → truthy sid = true →
       checkin_sessions st !! sid = Some session →
       check_reminder now env r st =
         if reminder_due now r (reference_instant r (latest_update st sid) session)
         then sendStatusReminder (r_userId r) (r_timezone r) (env (r_userId r)) st
         else (st, Ok tt))
  ∧ (reminders_keyed st →
     ∀ u, (∀ us, user_status st !! u = Some us → us_status us ≠ Some checked_in) →
       let st' := (checkAndSendStatusReminders now env st).1 in
       status_reminders st' !! u = status_reminders st !! u
       ∧ reminders_sent u st st' = []).
Proof.
  split; [|split].
  - intros Hout. unfold check_reminder. unfold mbind at 1, M_bind at 1.
    rewrite getUserCurrentState_read.
    destruct (current_state st (r_userId r)) as [s|] eqn:Hs; [|done].
    by rewrite <- Hs, is_checked_in_false.
  - intros us sid session Hus Hin Hsid Ht Hsess.
    unfold check_reminder. unfold mbind at 1, M_bind at 1.
    rewrite getUserCurrentState_read.
    destruct (current_state st (r_userId r)) as [s|] eqn:Hs;
      [|apply current_state_None in Hs; by simplify_eq].
    rewrite <- Hs, (proj2 (is_checked_in_true st (r_userId r))) by eauto.
    rewrite (lastActivityTime_reference st (r_userId r) us sid session s r) by done.
    by destruct (reminder_due _ _ _).
  - intros Hk u Hout st'.
    destruct (tick_frame now env st Hk)
      as (st1 & new & Hrun & _ & _ & _ & _ & _ & _ & _ & Hsent & Hact & Hinact).
    subst st'. rewrite Hrun. simpl. rewrite Hsent.
    assert (Hno : ∀ r0, reminder_outcome now (env u) r0 (current_state st u) = (r0, [])).
    { intros r0. unfold reminder_outcome, sends.
      destruct (current_state st u) as [s|] eqn:Hs; [|done].
      by rewrite <- Hs, is_checked_in_false. }
    destruct (status_reminders st !! u) as [r0|] eqn:Hr0.
    + destruct (r_isActive r0) eqn:Ha.
      * destruct (Hact u r0 Hr0 Ha) as [-> ->]. by rewrite Hno.
      * destruct (Hinact u) as [-> ->]; [intros r1 Hr1; by simplify_eq|].
        by rewrite Hr0.
    + destruct (Hinact u) as [-> ->]; [intros r1 Hr1; by simplify_eq|].
      by rewrite Hr0.
Qed.

Lemma reminder_tick_decision_witness :
  check_reminder (nine + minutes 60) (prompt (nine + minutes 60)) alice_reminder
    day_reminded_lunch
  = (day_reminded_lunch, Ok tt)
  ∧ check_reminder (nine + minutes 60) (prompt (nine + minutes 60)) alice_reminder
      day_reminded
    = sendStatusReminder "U1" "UTC" (prompt (nine + minutes 60) "U1") day_reminded
  ∧ reminders_sent "U1" day_reminded_lunch
      (checkAndSendStatusReminders (nine + minutes 60) (prompt (nine + minutes 60))
         day_reminded_lunch).1 = [].
Proof.
  pose proof (reminder_tick_decision (nine + minutes 60) (prompt (nine + minutes 60))
                day_reminded_lunch alice_reminder) as (Hskip & _ & Htick).
  pose proof (reminder_tick_decision (nine + minutes 60) (prompt (nine + minutes 60))
                day_reminded alice_reminder) as (_ & Hsend & _).
  split; [|split].
  - apply Hskip. intros us. vm_compute. by intros [= <-].
  - erewrite Hsend; [| vm_compute; reflexivity | reflexivity | reflexivity
                     | reflexivity | vm_compute; reflexivity ].
    vm_compute. reflexivity.
  - apply Htick.
    + apply (bool_decide_unpack _). by vm_compute.
    + intros us. vm_compute. by intros [= <-].
Defined.

(** ** The reminder of one user over a run of ticks *)

Lemma lastActivityTime_reminded d r s :
  lastActivityTime (reminded d r) s = lastActivityTime r s.
Proof. unfold reminded. by destruct (d_ok d). Qed.

Lemma reminder_outcome_kept now d r s :
  r_userId (reminder_outcome now d r s).1 = r_userId r
  ∧ r_isActive (reminder_outcome now d r s).1 = r_isActive r
  ∧ ∀ s', lastActivityTime (reminder_outcome now d r s).1 s' = lastActivityTime r s'.
Proof.
  unfold reminder_outcome. destruct s as [s|]; [|done].
  destruct (sends now r (Some s)); [|done]. simpl. unfold reminded.
  by destruct (d_ok d).
Qed.

(** Once a reminder is stamped at or after [lo], every later message is
    shown at least [REMINDER_INTERVAL_MS] after [lo]. *)
Lemma user_ticks_throttled env u s lo ticks : ∀ r sent,
  r_lastReminderSent r = Some sent → lo ≤ sent →
  (∀ t, t ≤ d_msgTime (env t u) ∧ d_msgTime (env t u) ≤ d_stampTime (env t u)) →
  ∀ m, m ∈ (user_ticks env u s ticks r).2 → lo + REMINDER_INTERVAL_MS ≤ dm_time m.
Proof.
  induction ticks as [|t ticks IH]; intros r sent Hr Hlo Henv m; simpl.
  { by intros ?%elem_of_nil. }
  destruct (Henv t) as [Hm Hs].
  unfold reminder_outcome at 2. unfold reminder_outcome at 1.
  destruct s as [s|]; [destruct (sends t r (Some s)) eqn:Hsend|]; simpl.
  - assert (sent + REMINDER_INTERVAL_MS ≤ t) as Ht.
    { unfold sends in Hsend. apply andb_true_iff in Hsend as [_ Hdue].
      destruct (lastActivityTime r s) as [T|]; [|done]. simpl in Hdue.
      unfold reminder_due in Hdue. rewrite Hr in Hdue.
      destruct (_ <=? _); [|done]. apply negb_true_iff, Z.ltb_ge in Hdue. lia. }
    intros [->|Hin]%elem_of_cons; [simpl; lia|].
    assert (∃ sent', r_lastReminderSent (reminded (env t u) r) = Some sent'
                     ∧ lo ≤ sent') as (sent' & Hr' & Hlo').
    { unfold reminded, REMINDER_INTERVAL_MS in *.
      destruct (d_ok (env t u)); simpl; eexists; (split; [done|lia]). }
    by eapply (IH _ sent').
  - by eapply IH.
  - by eapply IH.
Qed.

Lemma filter_none {A} (P : A → Prop) `{∀ x, Decision (P x)} (l : list A) :
  (∀ x, x ∈ l → ¬ P x) → filter P l = [].
Proof.
  induction l as [|x l IH]; intros Hl; [done|].
  rewrite filter_cons_False by (apply Hl; by left).
  apply IH. intros y Hy. apply Hl. by right.
Qed.

Lemma sends_true now r s :
  sends now r (Some s) = true
  ↔ is_checked_in (Some s) = true
    ∧ ∃ T, lastActivityTime r s = Some T
           ∧ REMINDER_INTERVAL_MS ≤ now - T
           ∧ ∀ sent, r_lastReminderSent r = Some sent → REMINDER_INTERVAL_MS ≤ now - sent.
Proof.
  unfold sends. rewrite andb_true_iff. apply and_iff_compat_l.
  destruct (lastActivityTime r s) as [T|]; simpl; [|split; [done|by intros (? & ? & _)]].
  unfold reminder_due. split.
  - intros Hdue. exists T. split; [done|].
    destruct (Z.leb_spec REMINDER_INTERVAL_MS (now - T)); [|done]. split; [done|].
    intros sent Hsent. rewrite Hsent in Hdue. apply negb_true_iff, Z.ltb_ge in Hdue. lia.
  - intros (T0 & [= <-] & Hdue & Hsent).
    rewrite (proj2 (Z.leb_le _ _) Hdue).
    destruct (r_lastReminderSent r) as [sent|]; [|done].
    apply negb_true_iff, Z.ltb_ge. by apply Hsent.
Qed.

Lemma reminder_outcome_sends now d r s :
  sends now r (Some s) = true →
  reminder_outcome now d r (Some s)
  = (reminded d r, [reminder_message (r_userId r) d s]).
Proof. intros H. unfold reminder_outcome. by rewrite H. Qed.

Lemma reminder_outcome_skips now d r s :
  sends now r s = false → reminder_outcome now d r s = (r, []).
Proof. intros H. unfold reminder_outcome. rewrite H. by destruct s. Qed.

Lemma user_ticks_cons env u s t ticks r :
  user_ticks env u s (t :: ticks) r
  = ((user_ticks env u s ticks (reminder_outcome t (env t u) r s).1).1,
     ((reminder_outcome t (env t u) r s).2
      ++ (user_ticks env u s ticks (reminder_outcome t (env t u) r s).1).2)%list).
Proof. reflexivity. Qed.

(** The window of one reminder.  The loop takes [T'] for the reference
    instant; [T], not later than [T'] and less than
    [REMINDER_INTERVAL_MS - 2 * CHECK_INTERVAL_MS] before it, is the
    instant the window is counted from. *)
Lemma user_ticks_window env u s r T T' n : ∀ t0,
  is_checked_in (Some s) = true →
  lastActivityTime r s = Some T' →
  not_reminded_since T' r →
  (∀ t, timely t (env t u)) →
  T ≤ T' ≤ T + (REMINDER_INTERVAL_MS - 2 * CHECK_INTERVAL_MS) →
  t0 < T' + REMINDER_INTERVAL_MS + CHECK_INTERVAL_MS →
  T' + REMINDER_INTERVAL_MS ≤ t0 + (Z.of_nat n - 1) * CHECK_INTERVAL_MS →
  let msgs := (user_ticks env u (Some s) (tick_times t0 n) r).2 in
  (∀ m, m ∈ msgs → T + REMINDER_INTERVAL_MS ≤ dm_time m)
  ∧ length (in_window (T + REMINDER_INTERVAL_MS) (T + 2 * REMINDER_INTERVAL_MS) msgs)
    = 1%nat.
Proof.
  induction n as [|n IH]; intros t0 Hin Hact Hnot Henv HT Hfirst Hlast;
    [unfold REMINDER_INTERVAL_MS, CHECK_INTERVAL_MS in *; simpl in *; lia|].
  cbn [tick_times]. rewrite user_ticks_cons.
  destruct (Henv t0) as (Hok & Hm & Hs & Hnext).
  destruct (Z.le_gt_cases (T' + REMINDER_INTERVAL_MS) t0) as [Hdue|Hearly].
  - rewrite reminder_outcome_sends; cycle 1.
    { apply sends_true. split; [done|]. exists T'. split; [done|]. split; [lia|].
      intros sent Hsent. unfold not_reminded_since in Hnot. rewrite Hsent in Hnot.
      simpl in Hnot. lia. }
    cbn [fst snd].
    assert (Hrest : ∀ m, m ∈ (user_ticks env u (Some s)
                               (tick_times (t0 + CHECK_INTERVAL_MS) n)
                               (reminded (env t0 u) r)).2 →
                         T + 2 * REMINDER_INTERVAL_MS ≤ dm_time m).
    { intros m Hmem.
      assert (T + REMINDER_INTERVAL_MS + REMINDER_INTERVAL_MS ≤ dm_time m); [|lia].
      eapply (user_ticks_throttled env u (Some s) (T + REMINDER_INTERVAL_MS) _
                (reminded (env t0 u) r) (d_stampTime (env t0 u))); [| | |exact Hmem].
      - unfold reminded. by rewrite Hok.
      - lia.
      - intros t. by destruct (Henv t) as (_ & ? & ? & _). }
    split.
    + intros m [->|Hmem]%elem_of_cons; [simpl; lia|]. apply Hrest in Hmem.
      unfold REMINDER_INTERVAL_MS in *. lia.
    + unfold in_window. simpl.
      rewrite filter_cons_True
        by (simpl; unfold REMINDER_INTERVAL_MS, CHECK_INTERVAL_MS in *; lia).
      rewrite filter_none; [done|]. intros m Hmem%Hrest. lia.
  - rewrite reminder_outcome_skips; cycle 1.
    { destruct (sends t0 r (Some s)) eqn:Hsend; [|done].
      apply sends_true in Hsend as (_ & T0 & HT0 & Hdue & _). simplify_eq. lia. }
    cbn [fst snd]. rewrite app_nil_l.
    apply (IH (t0 + CHECK_INTERVAL_MS)); try done;
      unfold REMINDER_INTERVAL_MS, CHECK_INTERVAL_MS in *; lia.
Qed.

Lemma run_ticks_cons env t ticks st :
  run_ticks env (t :: ticks) st
  = run_ticks env ticks (checkAndSendStatusReminders t (env t) st).1.
Proof. reflexivity. Qed.

(** A run of ticks, seen from one user with an active reminder record. *)
Lemma run_ticks_user env u ticks : ∀ st r,
  reminders_keyed st →
  status_reminders st !! u = Some r → r_isActive r = true →
  ∃ new,
    outbox (run_ticks env ticks st) = (outbox st ++ new)%list
    ∧ filter (λ m, dm_channel m = u) new
      = (user_ticks env u (current_state st u) ticks r).2
    ∧ status_reminders (run_ticks env ticks st) !! u
      = Some (user_ticks env u (current_state st u) ticks r).1
    ∧ user_status (run_ticks env ticks st) = user_status st
    ∧ checkin_sessions (run_ticks env ticks st) = checkin_sessions st
    ∧ breaks (run_ticks env ticks st) = breaks st
    ∧ status_updates (run_ticks env ticks st) = status_updates st.
Proof.
  induction ticks as [|t ticks IH]; intros st r Hk Hr Ha.
  { exists []. simpl. by rewrite app_nil_r. }
  rewrite run_ticks_cons.
  destruct (tick_frame t (env t) st Hk)
    as (st1 & new1 & Hrun & A1 & A2 & A3 & A4 & _ & Hout1 & Hk1 & _ & Hact & _).
  rewrite Hrun. cbn [fst].
  destruct (Hact u r Hr Ha) as [Hr1 Hnew1].
  destruct (reminder_outcome_kept t (env t u) r (current_state st u)) as (_ & Ha1 & _).
  destruct (IH st1 _ Hk1 Hr1) as (new2 & Hout2 & Hnew2 & Hr2 & B1 & B2 & B3 & B4).
  { by rewrite Ha1. }
  rewrite (current_state_ext st st1) in Hnew2, Hr2 by done.
  exists (new1 ++ new2)%list. rewrite user_ticks_cons. cbn [fst snd].
  split. { by rewrite Hout2, Hout1, app_assoc. }
  split. { by rewrite filter_app, Hnew1, Hnew2. }
  split; [done|]. repeat split; congruence.
Qed.

Lemma run_ticks_sent env u ticks st r :
  reminders_keyed st →
  status_reminders st !! u = Some r → r_isActive r = true →
  reminders_sent u st (run_ticks env ticks st)
  = (user_ticks env u (current_state st u) ticks r).2.
Proof.
  intros Hk Hr Ha.
  destruct (run_ticks_user env u ticks st r Hk Hr Ha) as (new & Hout & Hnew & _).
  unfold reminders_sent. by rewrite Hout, drop_app_length.
Qed.

(** The window on a store: the loop's reference instant is [T'], the
    window is counted from [T]. *)
Lemma run_ticks_window env st u r s T T' t0 n :
  reminders_keyed st →
  status_reminders st !! u = Some r → r_isActive r = true →
  current_state st u = Some s →
  us_status (st_status s) = Some checked_in →
  lastActivityTime r s = Some T' →
  not_reminded_since T' r →
  (∀ t, timely t (env t u)) →
  T ≤ T' ≤ T + (REMINDER_INTERVAL_MS - 2 * CHECK_INTERVAL_MS) →
  t0 ≤ T + REMINDER_INTERVAL_MS →
  T + 2 * REMINDER_INTERVAL_MS ≤ t0 + Z.of_nat n * CHECK_INTERVAL_MS →
  let sent := reminders_sent u st (run_ticks env (tick_times t0 n) st) in
  (∀ m, m ∈ sent → T + REMINDER_INTERVAL_MS ≤ dm_time m)
  ∧ length (in_window (T + REMINDER_INTERVAL_MS) (T + 2 * REMINDER_INTERVAL_MS) sent)
    = 1%nat.
Proof.
  intros Hk Hr Ha Hs Hin Hact Hnot Henv HT Hfirst Hlast sent. subst sent.
  rewrite (run_ticks_sent env u _ st r) by done. rewrite Hs.
  apply (user_ticks_window env u s r T T'); try done.
  - simpl. by apply bool_decide_eq_true.
  - unfold REMINDER_INTERVAL_MS, CHECK_INTERVAL_MS in *. lia.
  - unfold REMINDER_INTERVAL_MS, CHECK_INTERVAL_MS in *. lia.
Qed.

(** ** What posting a status update does *)

Lemma getLatestStatusUpdate_read sid st :
  getLatestStatusUpdate sid st = (st, Ok (latest_update st sid)).
Proof.
  unfold getLatestStatusUpdate, getSessionStatusUpdates, latest_update. run_unfold.
  by destruct (query_desc _ _).
Qed.

(** The update document is written whether or not the session exists. *)
Lemma addStatusUpdate_writes st sid uid name text tId now :
  status_updates (addStatusUpdate sid uid name text tId now st).1
  = subcol_set sid (generateStatusUpdateId tId)
      (new_update st sid uid name text tId now) (status_updates st).
Proof.
  unfold addStatusUpdate. unfold mbind at 1, M_bind at 1.
  rewrite getLatestStatusUpdate_read.
  destruct (checkin_sessions st !! sid) as [s|] eqn:Hs;
    [destruct (user_status st !! uid) as [us|] eqn:Hus;
     [destruct (us_currentSession us) as [cs|] eqn:Hcs|pose proof I as Hcs]
    |pose proof I as Hus; pose proof I as Hcs];
    by run_with Hs Hus Hcs.
Qed.

Lemma addStatusUpdate_run st sid uid name text tId now s :
  checkin_sessions st !! sid = Some s →
  ∃ st',
    addStatusUpdate sid uid name text tId now st
    = (st', Ok (new_update st sid uid name text tId now))
    ∧ status_updates st'
      = subcol_set sid (generateStatusUpdateId tId)
          (new_update st sid uid name text tId now) (status_updates st)
    ∧ checkin_sessions st' = <[sid := record_status_update text s]> (checkin_sessions st)
    ∧ user_status st' = status_after_update uid text (user_status st)
    ∧ breaks st' = breaks st
    ∧ user_preferences st' = user_preferences st
    ∧ status_reminders st' = status_reminders st ∧ outbox st' = outbox st.
Proof.
  intros Hs. unfold addStatusUpdate, status_after_update.
  unfold mbind at 1, M_bind at 1. rewrite getLatestStatusUpdate_read.
  destruct (user_status st !! uid) as [us|] eqn:Hus; simpl;
    [destruct (us_currentSession us) as [cs|] eqn:Hcs|pose proof I as Hcs];
    run_with Hs Hus Hcs;
    eexists; (split; [reflexivity|]); simpl; rewrite ?Hus; simpl; rewrite ?Hcs;
    repeat split; reflexivity.
Qed.

Lemma status_after_update_lookup uid text m us :
  m !! uid = Some us →
  ∃ us', status_after_update uid text m !! uid = Some us'
         ∧ us_status us' = us_status us
         ∧ us_currentSessionId us' = us_currentSessionId us.
Proof.
  intros Hus. unfold status_after_update. rewrite Hus. simpl.
  destruct (us_currentSession us) as [cs|]; [|by eauto].
  rewrite lookup_insert_eq. by eexists.
Qed.

Lemma addStatusUpdateWithReminderUpdate_run st sid uid name text tId now tStamp s :
  checkin_sessions st !! sid = Some s →
  ∃ st',
    addStatusUpdateWithReminderUpdate sid uid name text tId now tStamp st
    = (st', Ok (new_update st sid uid name text tId now))
    ∧ status_updates st'
      = subcol_set sid (generateStatusUpdateId tId)
          (new_update st sid uid name text tId now) (status_updates st)
    ∧ checkin_sessions st' = <[sid := record_status_update text s]> (checkin_sessions st)
    ∧ user_status st' = status_after_update uid text (user_status st)
    ∧ breaks st' = breaks st
    ∧ status_reminders st'
      = match status_reminders st !! uid with
        | Some r => if r_isActive r
                    then <[uid := stamped tStamp r]> (status_reminders st)
                    else status_reminders st
        | None => status_reminders st
        end
    ∧ outbox st' = outbox st.
Proof.
  intros Hs.
  destruct (addStatusUpdate_run st sid uid name text tId now s Hs)
    as (st1 & Hrun & H1 & H2 & H3 & H4 & H5 & H6 & H7).
  unfold addStatusUpdateWithReminderUpdate. unfold mbind at 1, M_bind at 1.
  rewrite Hrun. run_unfold. rewrite H6.
  destruct (status_reminders st !! uid) as [r|] eqn:Hr; simpl;
    [destruct (r_isActive r) eqn:Ha|]; run_with H6 Hr;
    eexists; (split; [reflexivity|]); simpl; by rewrite ?H6, ?Hr.
Qed.

(** ** C5: the idle reminder *)

(** C5.  A checked-in user [u] with an active reminder record, the service
    polling every five minutes from [t0] on ([n] ticks, reaching past the
    window), deliveries succeeding before the next tick, and nothing else
    happening to [u] between the ticks.
    - With last status activity at [T] (the reference instant of the
      loop) and no reminder stamped after [T]: no reminder is shown before
      [T + 45 min], and exactly one in [T + 45 min, T + 90 min).
    - A status update posted through [addStatusUpdateWithReminderUpdate]
      with timestamp [now] restarts the window at [now]: no reminder
      before [now + 45 min] and exactly one in [now + 45 min, now + 90 min).
      The loop counts from the stamp [tStamp] read after the update is
      stored, here within 35 minutes of [now]. *)
Theorem idle_reminder_window env st u r us sid session t0 n :
  reminders_keyed st →
  status_reminders st !! u = Some r → r_isActive r = true →
  user_status st !! u = Some us → us_status us = Some checked_in →
  us_currentSessionId us = Some sid → truthy sid = true →
  checkin_sessions st !! sid = Some session →
  (∀ t, timely t (env t u)) →
  (∀ T,
     T = reference_instant r (latest_update st sid) session →
     not_reminded_since T r →
     t0 ≤ T + REMINDER_INTERVAL_MS →
     T + 2 * REMINDER_INTERVAL_MS ≤ t0 + Z.of_nat n * CHECK_INTERVAL_MS →
     let sent := reminders_sent u st (run_ticks env (tick_times t0 n) st) in
     (∀ m, m ∈ sent → T + REMINDER_INTERVAL_MS ≤ dm_time m)
     ∧ length (in_window (T + REMINDER_INTERVAL_MS) (T + 2 * REMINDER_INTERVAL_MS) sent)
       = 1%nat)
  ∧ (∀ name text tId now tStamp,
       now ≤ tStamp ≤ now + (REMINDER_INTERVAL_MS - 2 * CHECK_INTERVAL_MS) →
       not_reminded_since tStamp r →
       t0 ≤ now + REMINDER_INTERVAL_MS →
       now + 2 * REMINDER_INTERVAL_MS ≤ t0 + Z.of_nat n * CHECK_INTERVAL_MS →
       let posted := addStatusUpdateWithReminderUpdate sid u name text tId now tStamp st in
       let sent := reminders_sent u posted.1 (run_ticks env (tick_times t0 n) posted.1) in
       (∃ upd, posted.2 = Ok upd ∧ u_timestamp upd = now)
       ∧ (∀ m, m ∈ sent → now + REMINDER_INTERVAL_MS ≤ dm_time m)
       ∧ length (in_window (now + REMINDER_INTERVAL_MS) (now + 2 * REMINDER_INTERVAL_MS)
                   sent) = 1%nat).
Proof.
  intros Hk Hr Ha Hus Hin Hsid Ht Hsess Henv. split.
  - intros T -> Hnot Hfirst Hlast.
    destruct (current_state_session st u us sid session Hus Hsid Ht Hsess)
      as (s & Hs & Hst & _).
    eapply (run_ticks_window env st u r s); try done.
    + by rewrite Hst.
    + by apply (lastActivityTime_reference st u us sid session).
    + unfold REMINDER_INTERVAL_MS, CHECK_INTERVAL_MS. lia.
  - intros name text tId now tStamp Hstamp Hnot Hfirst Hlast posted.
    destruct (addStatusUpdateWithReminderUpdate_run st sid u name text tId now tStamp
                session Hsess)
      as (st1 & Hrun & _ & Hsess1 & Hus1 & _ & Hrem1 & _).
    subst posted. rewrite Hrun. cbn [fst snd]. rewrite Hr, Ha in Hrem1.
    split; [by eexists|].
    destruct (status_after_update_lookup u text _ us Hus) as (us' & Hus' & Hin' & Hsid').
    rewrite <- Hus1 in Hus'.
    assert (Hs1 : checkin_sessions st1 !! sid = Some (record_status_update text session))
      by (by rewrite Hsess1, lookup_insert_eq).
    destruct (current_state_session st1 u us' sid (record_status_update text session)
                Hus') as (s & Hs & Hst & _); [congruence|done|done|].
    eapply (run_ticks_window env st1 u (stamped tStamp r) s now tStamp); try done.
    + intros k r0. rewrite Hrem1. destruct (decide (k = u)) as [->|].
      * rewrite lookup_insert_eq. intros [= <-]. simpl. by apply Hk.
      * rewrite lookup_insert_ne by done. apply Hk.
    + by rewrite Hrem1, lookup_insert_eq.
    + rewrite Hst. congruence.
Qed.

Lemma idle_reminder_window_witness :
  length (in_window (nine + 1 + REMINDER_INTERVAL_MS) (nine + 1 + 2 * REMINDER_INTERVAL_MS)
            (reminders_sent "U1" day_reminded
               (run_ticks prompt (tick_times nine 19) day_reminded))) = 1%nat.
Proof.
  edestruct (idle_reminder_window prompt day_reminded "U1" alice_reminder)
    with (sid := alice_session) (t0 := nine) (n := 19%nat) as [Hidle _].
  - apply (bool_decide_unpack _). by vm_compute.
  - vm_compute. reflexivity.
  - reflexivity.
  - vm_compute. reflexivity.
  - reflexivity.
  - reflexivity.
  - reflexivity.
  - vm_compute. reflexivity.
  - intros t. unfold timely, prompt, CHECK_INTERVAL_MS. simpl. lia.
  - apply (Hidle (nine + 1)); [by vm_compute|by vm_compute|by vm_compute|by vm_compute].
Defined.

(** ** Ordered queries *)

Global Instance desc_order_trans {A} (key : A → Z) : Transitive (desc_order key).
Proof.
  intros x y z [Hxy|[Hxy Hxy']] [Hyz|[Hyz Hyz']]; unfold desc_order.
  - left. lia.
  - left. lia.
  - left. lia.
  - right. split; [lia|]. by etrans.
Qed.

Global Instance desc_order_total {A} (key : A → Z) : Total (desc_order key).
Proof.
  intros x y. unfold desc_order.
  destruct (Z.lt_trichotomy (key x.2) (key y.2)) as [?|[?|?]]; [by right; left| |by left; left].
  destruct (total String.le x.1 y.1); [right|left]; right; split; done.
Qed.

Lemma query_desc_empty {A} (key : A → Z) : query_desc key ∅ = [].
Proof. unfold query_desc. by rewrite map_to_list_empty. Qed.

(** A document newer than all the others comes first. *)
Lemma query_desc_insert_newest {A} (key : A → Z) (m : gmap string A) k d :
  m !! k = None →
  (∀ k' d', m !! k' = Some d' → key d' < key d) →
  query_desc key (<[k := d]> m) = d :: query_desc key m.
Proof.
  intros Hk Hnew. unfold query_desc.
  change (d :: (merge_sort (desc_order key) (map_to_list m)).*2)
    with (((k, d) :: merge_sort (desc_order key) (map_to_list m)).*2).
  f_equal. apply (StronglySorted_unique_strong (desc_order key)).
  - intros [k1 d1] [k2 d2] H1 H2 H12 H21.
    rewrite merge_sort_Permutation in H1. apply elem_of_map_to_list in H1.
    assert (<[k := d]> m !! k2 = Some d2) as H2'.
    { apply elem_of_cons in H2 as [[= -> ->]|H2]; [by rewrite lookup_insert_eq|].
      rewrite merge_sort_Permutation in H2. apply elem_of_map_to_list in H2.
      rewrite lookup_insert_ne; [done|]. intros ->. by simplify_eq. }
    assert (k1 = k2) as ->.
    { destruct H12 as [?|[? ?]], H21 as [?|[? ?]]; simpl in *; try lia.
      by apply (anti_symm String.le). }
    by simplify_eq.
  - apply StronglySorted_merge_sort; apply _.
  - apply StronglySorted_cons. split; [|apply StronglySorted_merge_sort; apply _].
    apply Forall_forall. intros [k' d'] Hin.
    rewrite merge_sort_Permutation in Hin. apply elem_of_map_to_list in Hin.
    left. simpl. by eapply Hnew.
  - rewrite !merge_sort_Permutation. by apply map_to_list_insert.
Qed.

Lemma query_desc_elem {A} (key : A → Z) (m : gmap string A) d :
  d ∈ query_desc key m ↔ ∃ k, m !! k = Some d.
Proof.
  unfold query_desc. rewrite list_elem_of_fmap. split.
  - intros ([k d'] & -> & Hin). rewrite merge_sort_Permutation in Hin.
    exists k. by apply elem_of_map_to_list.
  - intros [k Hk]. exists (k, d). split; [done|].
    rewrite merge_sort_Permutation. by apply elem_of_map_to_list.
Qed.

(** ** C4: the chain of status updates *)

Lemma linked_snoc prev l u :
  linked prev l →
  u_previousStatus u = u_status <$> (from_option Some prev (last l)) →
  from_option (λ p, u_timestamp p < u_timestamp u) True (from_option Some prev (last l)) →
  linked prev (l ++ [u]).
Proof.
  revert prev. induction l as [|x l IH]; intros prev Hl Hp Ht; simpl in *.
  - done.
  - destruct Hl as (Hx & Hxt & Hl). split; [done|]. split; [done|].
    rewrite last_cons in Hp, Ht.
    apply IH; [done| |]; by destruct (last l).
Qed.

Lemma ledger_ok_empty bound : ledger_ok bound ∅.
Proof. split; [by rewrite query_desc_empty|]. intros k d. by rewrite lookup_empty. Qed.

Lemma ledger_ok_mono bound bound' m :
  bound ≤ bound' → ledger_ok bound m → ledger_ok bound' m.
Proof.
  intros Hle [Hl Hb]. split; [done|]. intros k d Hk.
  destruct (Hb k d Hk) as (? & t & ? & ?). split; [lia|]. exists t. split; [done|lia].
Qed.

(** Posting to a session extends its ledger by the new update, linked to
    the one before. *)
Lemma post_ledger st c last sid :
  last < uc_tId c → uc_tId c ≤ uc_now c →
  ledger_ok last (subcol (status_updates st) sid) →
  ledger_ok (uc_now c) (subcol (status_updates (post st c)) sid).
Proof.
  intros Hlt Hle Hok. unfold post. rewrite addStatusUpdate_writes.
  destruct (decide (uc_sessionId c = sid)) as [<-|Hne];
    [|rewrite subcol_set_other by done; eapply ledger_ok_mono; [|done]; lia].
  rewrite subcol_set_same. destruct Hok as [Hl Hb].
  set (m := subcol (status_updates st) (uc_sessionId c)) in *.
  set (upd := new_update _ _ _ _ _ _ _).
  assert (Hfresh : m !! generateStatusUpdateId (uc_tId c) = None).
  { destruct (m !! _) as [d|] eqn:Hd; [|done].
    destruct (Hb _ _ Hd) as (_ & t & Heq%generateStatusUpdateId_inj & ?). lia. }
  assert (Hnewest : ∀ k' d', m !! k' = Some d' → u_timestamp d' < u_timestamp upd).
  { intros k' d' Hd. destruct (Hb _ _ Hd) as (? & _). simpl. lia. }
  split.
  - rewrite query_desc_insert_newest by done. rewrite reverse_cons.
    apply linked_snoc; [done|..]; rewrite last_reverse; simpl.
    + unfold latest_update. fold m. by destruct (head _).
    + destruct (head (query_desc u_timestamp m)) as [p|] eqn:Hp; simpl; [|done].
      assert (p ∈ query_desc u_timestamp m) as [k Hk]%query_desc_elem
        by (destruct (query_desc u_timestamp m); simplify_eq/=; by left).
      by apply (Hnewest k).
  - intros k d. destruct (decide (k = generateStatusUpdateId (uc_tId c))) as [->|].
    + rewrite lookup_insert_eq. intros [= <-]. simpl. split; [lia|].
      exists (uc_tId c). split; [done|lia].
    + rewrite lookup_insert_ne by done. intros Hd.
      destruct (Hb _ _ Hd) as (? & t & ? & ?). split; [lia|]. exists t. split; [done|lia].
Qed.

Lemma posts_ledger calls : ∀ st last sid,
  clock_advances last calls →
  ledger_ok last (subcol (status_updates st) sid) →
  ledger_ok (last_clock last calls) (subcol (status_updates (foldl post st calls)) sid).
Proof.
  induction calls as [|c calls IH]; intros st last sid Hclock Hok; [done|].
  destruct Hclock as (Hlt & Hle & Hclock). simpl.
  apply (IH _ (uc_now c)); [done|]. by apply (post_ledger st c last).
Qed.

(** C4.  From a store whose ledgers are linked and written by clock
    [last] (the empty ledger of a new session is), after any sequence of
    [addStatusUpdate] calls made while the clock advances, the updates of
    every session, taken by increasing timestamp, have strictly increasing
    timestamps, the first has no [previousStatus], and every later one
    carries the status text of the update just before it. *)
Theorem status_updates_linked st last calls sid :
  (∀ sid', ledger_ok last (subcol (status_updates st) sid')) →
  clock_advances last calls →
  linked None (session_updates (foldl post st calls) sid).
Proof.
  intros Hok Hclock. by destruct (posts_ledger calls st last sid Hclock (Hok sid)).
Qed.

Lemma status_updates_linked_witness :
  linked None (session_updates (foldl post day_at_work morning_calls) alice_session)
  ∧ (u_status <$> session_updates (foldl post day_at_work morning_calls) alice_session)
    = ["triage"; "bug 42"; "review"]
  ∧ (u_previousStatus <$>
       session_updates (foldl post day_at_work morning_calls) alice_session)
    = [None; Some "triage"; Some "bug 42"].
Proof.
  split; [|by vm_compute].
  apply (status_updates_linked day_at_work (nine + 1)).
  - intros sid'. replace (status_updates day_at_work) with
      (∅ : gmap string (gmap string StatusUpdate)) by (by vm_compute).
    unfold subcol. rewrite lookup_empty. apply ledger_ok_empty.
  - unfold morning_calls, nine, minutes. simpl. lia.
Defined.

(** * The rest of the engine *)

(** ** What check-in and break start do *)

Lemma getUserTimezone_read tz uid st :
  getUserTimezone tz uid st = (st, Ok (timezone_of tz st uid)).
Proof.
  unfold getUserTimezone, getUserPreferences, timezone_of. run_unfold.
  by destruct (user_preferences st !! uid).
Qed.

Lemma createCheckinSession_run tz st u name notes tId now :
  ∃ st',
    createCheckinSession tz u name notes tId now st
    = (st', Ok (new_session u name notes (timezone_of tz st u) tId now))
    ∧ checkin_sessions st'
      = <[generateSessionId u tId := new_session u name notes (timezone_of tz st u) tId now]>
          (checkin_sessions st)
    ∧ user_status st'
      = <[u := checked_in_status u name (timezone_of tz st u) (generateSessionId u tId) now
                 (user_status st !! u)]> (user_status st)
    ∧ breaks st' = breaks st ∧ status_updates st' = status_updates st
    ∧ user_preferences st' = user_preferences st
    ∧ status_reminders st' = status_reminders st ∧ outbox st' = outbox st.
Proof.
  unfold createCheckinSession. unfold mbind at 1, M_bind at 1.
  rewrite getUserTimezone_read. run_unfold.
  eexists. split; [reflexivity|]. simpl. by repeat split.
Qed.

Lemma startBreak_run st sid u ty notes tId now s :
  checkin_sessions st !! sid = Some s →
  ∃ st',
    startBreak sid u ty notes tId now st
    = (st', Ok (started_break sid u ty notes tId now))
    ∧ breaks st'
      = subcol_set sid (generateBreakId tId) (started_break sid u ty notes tId now)
          (breaks st)
    ∧ checkin_sessions st' = <[sid := increment_breakCount 1 s]> (checkin_sessions st)
    ∧ user_status st'
      = match user_status st !! u ≫= us_currentSession with
        | Some cs =>
            <[u := on_break_status (generateBreakId tId) ty now cs (user_status st !! u)]>
              (user_status st)
        | None => user_status st
        end
    ∧ status_updates st' = status_updates st
    ∧ user_preferences st' = user_preferences st
    ∧ status_reminders st' = status_reminders st ∧ outbox st' = outbox st.
Proof.
  intros Hs. unfold startBreak.
  destruct (user_status st !! u) as [us|] eqn:Hus; simpl;
    [destruct (us_currentSession us) as [cs|] eqn:Hcs|pose proof I as Hcs];
    run_with Hs Hus Hcs;
    eexists; (split; [reflexivity|]); simpl; rewrite ?Hus; simpl; rewrite ?Hcs;
    repeat split; reflexivity.
Qed.

(** ** The invariant of the engine *)

Lemma truthy_generateSessionId u t : truthy (generateSessionId u t) = true.
Proof.
  unfold generateSessionId, truthy.
  destruct u; [by rewrite append_nil|by rewrite append_cons].
Qed.

Lemma engine_inv_initial prefs : engine_inv (initial_store prefs).
Proof.
  split; simpl.
  - intros u us. by rewrite lookup_empty.
  - intros sid s. by rewrite lookup_empty.
  - intros sid bid b. unfold subcol. by rewrite !lookup_empty.
Qed.

(** The session a user document points at belongs to that user. *)
Lemma pointer_owner st u us sid s :
  engine_inv st →
  user_status st !! u = Some us → us_currentSessionId us = Some sid →
  checkin_sessions st !! sid = Some s → s_userId s = u.
Proof.
  intros Hinv Hus Hsid Hs.
  destruct (inv_users st Hinv u us Hus) as (_ & sid' & cs & s' & ? & _ & ? & ? & _).
  by simplify_eq.
Qed.

Lemma user_ok_ext st st' u us :
  user_ok st u us →
  (∀ sid, us_currentSessionId us = Some sid →
     checkin_sessions st' !! sid = checkin_sessions st !! sid
     ∧ subcol (breaks st') sid = subcol (breaks st) sid) →
  user_ok st' u us.
Proof.
  intros (Hid & sid & cs & s & Hsid & Hcs & Hs & Hown & Hci & Htb & Hcnt & Hst) Hext.
  destruct (Hext sid Hsid) as [Hs' Hb'].
  split; [done|]. exists sid, cs, s. rewrite Hs'. repeat (split; [done|]).
  destruct (us_status us) as [[]|]; try done.
  destruct Hst as [? (cb & b & ? & ? & ?)]. split; [done|].
  exists cb, b. by rewrite Hb'.
Qed.

Lemma createCheckinSession_inv tz st u name notes tId now :
  engine_inv st →
  (∀ us, user_status st !! u = Some us → us_status us = Some checked_out) →
  engine_inv (createCheckinSession tz u name notes tId now st).1.
Proof.
  intros Hinv Hout.
  destruct (createCheckinSession_run tz st u name notes tId now)
    as (st' & -> & Hsess & Hus & Hbr & _).
  set (sid := generateSessionId u tId) in *.
  set (sess := new_session _ _ _ _ _ _) in *. simpl.
  assert (Hother : ∀ w sidw sw, w ≠ u → checkin_sessions st !! sidw = Some sw →
                     s_userId sw = w → sidw ≠ sid).
  { intros w sidw sw Hne Hsw Hown ->.
    destruct (inv_sessions st Hinv _ _ Hsw) as (_ & [t Ht] & _).
    apply generateSessionId_inj in Ht as [? _]. congruence. }
  split.
  - intros w usw. rewrite Hus. destruct (decide (w = u)) as [->|Hne].
    + rewrite lookup_insert_eq. intros [= <-]. split; [done|].
      eexists sid, _, sess. split; [done|]. split; [done|].
      rewrite Hsess, lookup_insert_eq. by repeat split.
    + rewrite lookup_insert_ne by done. intros Hw.
      pose proof (inv_users st Hinv w usw Hw) as Hok.
      apply (user_ok_ext st); [done|]. intros sidw Hsidw. rewrite Hbr. split; [|done].
      destruct Hok as (_ & sid' & cs & s & ? & _ & Hs & Hown & _). simplify_eq.
      rewrite Hsess, lookup_insert_ne; [done|]. intros Heq.
      by apply (Hother (s_userId s) sid' s).
  - intros k s. rewrite Hsess. destruct (decide (k = sid)) as [->|Hne].
    + rewrite lookup_insert_eq. intros [= <-]. split; [done|]. split; [by exists tId|].
      split; [|done].
      intros _. eexists. rewrite Hus. simpl. by rewrite lookup_insert_eq.
    + rewrite lookup_insert_ne by done. intros Hs.
      destruct (inv_sessions st Hinv k s Hs) as (Hk & Ht & Hact & Hclosed).
      split; [done|]. split; [done|]. split; [|done]. intros Ha.
      destruct (Hact Ha) as (us & Hus' & Hp). rewrite Hus.
      destruct (decide (s_userId s = u)) as [Heq|Hneq].
      * rewrite Heq in Hus'. pose proof (Hout us Hus') as Hco.
        destruct (inv_users st Hinv u us Hus')
          as (_ & sid' & cs & s' & ? & _ & ? & _ & _ & _ & _ & Hst).
        rewrite Hco in Hst. simplify_eq. congruence.
      * exists us. by rewrite lookup_insert_ne.
  - intros sid0 bid b. rewrite Hbr. intros Hb.
    destruct (inv_breaks st Hinv sid0 bid b Hb) as (Hid & Hsid & Hact).
    split; [done|]. split; [done|]. intros Ha.
    destruct (Hact Ha) as (s & us & cs & cb & Hs & Hus' & Hon & Hp & Hcs & Hcb & Hcbid).
    assert (s_userId s ≠ u) as Hneq.
    { intros Heq. rewrite Heq in Hus'. rewrite (Hout us Hus') in Hon. done. }
    exists s, us, cs, cb. rewrite Hsess, Hus.
    rewrite lookup_insert_ne by (by apply not_eq_sym, (Hother (s_userId s) sid0 s)).
    by rewrite lookup_insert_ne.
Qed.

(** A step that rewrites the document of user [u], the session [sid] that
    [u] points at and breaks under [sid], and nothing else. *)
Lemma engine_inv_update st st' u us sid s us' s' :
  engine_inv st →
  user_status st !! u = Some us → us_currentSessionId us = Some sid →
  checkin_sessions st !! sid = Some s →
  user_status st' = <[u := us']> (user_status st) →
  checkin_sessions st' = <[sid := s']> (checkin_sessions st) →
  (∀ sid0, sid0 ≠ sid → subcol (breaks st') sid0 = subcol (breaks st) sid0) →
  user_ok st' u us' →
  us_currentSessionId us' = Some sid →
  s_sessionId s' = sid → s_userId s' = u →
  match s_status s' with
  | active => s_checkoutTime s' = None
  | completed => is_Some (s_checkoutTime s') ∧ is_Some (s_totalWorkTime s')
  end →
  (∀ bid b, subcol (breaks st') sid !! bid = Some b → break_ok st' sid bid b) →
  engine_inv st'.
Proof.
  intros Hinv Hus Hp Hs Hus' Hsess' Hbr' Hok' Hp' Hsid' Hown' Hco' Hbrk'.
  assert (Hown : s_userId s = u) by (by eapply pointer_owner).
  assert (Hother : ∀ w usw sidw, w ≠ u → user_status st !! w = Some usw →
                     us_currentSessionId usw = Some sidw → sidw ≠ sid).
  { intros w usw sidw Hne Hw Hpw ->. apply Hne. rewrite <- Hown.
    symmetry. by eapply pointer_owner. }
  split.
  - intros w usw. rewrite Hus'. destruct (decide (w = u)) as [->|Hne].
    + rewrite lookup_insert_eq. by intros [= <-].
    + rewrite lookup_insert_ne by done. intros Hw.
      apply (user_ok_ext st); [by apply (inv_users st Hinv)|].
      intros sidw Hpw. pose proof (Hother w usw sidw Hne Hw Hpw) as Hneq.
      split; [|by apply Hbr']. by rewrite Hsess', lookup_insert_ne.
  - intros k sk. rewrite Hsess'. destruct (decide (k = sid)) as [->|Hne].
    + rewrite lookup_insert_eq. intros [= <-]. split; [done|]. split; [|split; [|done]].
      * destruct (inv_sessions st Hinv sid s Hs) as (_ & [t Ht] & _).
        exists t. by rewrite Hown', <- Hown.
      * intros _. exists us'. by rewrite Hus', Hown', lookup_insert_eq.
    + rewrite lookup_insert_ne by done. intros Hsk.
      destruct (inv_sessions st Hinv k sk Hsk) as (Hk & Ht & Hact & Hco).
      split; [done|]. split; [done|]. split; [|done]. intros Ha.
      destruct (Hact Ha) as (usk & Husk & Hpk). rewrite Hus'.
      destruct (decide (s_userId sk = u)) as [Heq|Hneq].
      * rewrite Heq in Husk. simplify_eq.
      * exists usk. by rewrite lookup_insert_ne.
  - intros sid0 bid b. destruct (decide (sid0 = sid)) as [->|Hne]; [by apply Hbrk'|].
    rewrite Hbr' by done. intros Hb.
    destruct (inv_breaks st Hinv sid0 bid b Hb) as (Hid & Hsid0 & Hact).
    split; [done|]. split; [done|]. intros Ha.
    destruct (Hact Ha) as (s0 & us0 & cs & cb & Hs0 & Hus0 & Hon & Hp0 & Hrest).
    exists s0, us0, cs, cb. rewrite Hsess', Hus'.
    rewrite lookup_insert_ne by done. rewrite lookup_insert_ne; [done|].
    intros Heq. rewrite <- Heq in Hus0. simplify_eq.
Qed.

Lemma completeCheckinSession_store st sid notes co s :
  checkin_sessions st !! sid = Some s →
  ∃ st',
    completeCheckinSession sid notes co st = (st', Ok tt)
    ∧ checkin_sessions st' = <[sid := completed_session s notes co]> (checkin_sessions st)
    ∧ user_status st'
      = <[s_userId s := checked_out_status co (user_status st !! s_userId s)]>
          (user_status st)
    ∧ breaks st' = breaks st ∧ status_updates st' = status_updates st
    ∧ user_preferences st' = user_preferences st
    ∧ status_reminders st' = status_reminders st ∧ outbox st' = outbox st.
Proof.
  intros Hs. unfold completeCheckinSession. run_with Hs.
  eexists. split; [reflexivity|]. simpl. by repeat split.
Qed.

Lemma completeCheckinSession_inv st sid notes co u us :
  engine_inv st →
  user_status st !! u = Some us → us_currentSessionId us = Some sid →
  us_status us = Some checked_in →
  engine_inv (completeCheckinSession sid notes co st).1.
Proof.
  intros Hinv Hus Hp Hin.
  destruct (inv_users st Hinv u us Hus)
    as (Hid & sid' & cs & s & ? & Hcs & Hs & Hown & Hci & Htb & Hcnt & Hst).
  simplify_eq. rewrite Hin in Hst.
  destruct (completeCheckinSession_store st sid notes co s Hs)
    as (st' & -> & Hsess & Hus' & Hbr & _).
  simpl. rewrite Hus in Hus'. unfold checked_out_status in Hus'.
  destruct (inv_sessions st Hinv sid s Hs) as (Hsid & _).
  eapply (engine_inv_update st st' (s_userId s) us sid s _ _); try done.
  - intros. by rewrite Hbr.
  - split; [done|]. eexists sid, cs, _. rewrite Hsess, lookup_insert_eq. simpl.
    repeat split; done.
  - intros bid b. rewrite Hbr. intros Hb.
    destruct (inv_breaks st Hinv sid bid b Hb) as (? & ? & Hact).
    split; [done|]. split; [done|]. intros Ha.
    destruct (Hact Ha) as (s0 & us0 & ? & ? & ? & ? & ? & _). simplify_eq.
Qed.

Lemma startBreak_inv st sid u us ty notes tId now :
  engine_inv st →
  user_status st !! u = Some us → us_currentSessionId us = Some sid →
  us_status us = Some checked_in →
  engine_inv (startBreak sid u ty notes tId now st).1.
Proof.
  intros Hinv Hus Hp Hin.
  destruct (inv_users st Hinv u us Hus)
    as (Hid & sid' & cs & s & ? & Hcs & Hs & Hown & Hci & Htb & Hcnt & Hst).
  simplify_eq. rewrite Hin in Hst.
  destruct (startBreak_run st sid (s_userId s) ty notes tId now s Hs)
    as (st' & -> & Hbr & Hsess & Hus' & _).
  simpl. rewrite Hus in Hus'. simpl in Hus'. rewrite Hcs in Hus'.
  unfold on_break_status in Hus'.
  assert (Hcur : on_active_break st' sid
                   (merge_currentSession
                      {| cs_checkinTime := cs_checkinTime cs;
                         cs_totalBreakTime := cs_totalBreakTime cs;
                         cs_currentBreak :=
                           Some {| cb_id := generateBreakId tId; cb_type := ty;
                                   cb_startTime := now |};
                         cs_currentWorkStatus := cs_currentWorkStatus cs;
                         cs_statusUpdateCount := cs_statusUpdateCount cs |} (Some cs))).
  { eexists _, _. split; [reflexivity|]. rewrite Hbr, subcol_set_lookup. by repeat split. }
  eapply (engine_inv_update st st' (s_userId s) us sid s _ _); try done.
  - intros. by rewrite Hbr, subcol_set_other.
  - split; [done|]. eexists sid, _, _. rewrite Hsess, lookup_insert_eq. simpl.
    repeat split; done.
  - simpl. by destruct (inv_sessions st Hinv sid s Hs).
  - simpl. by destruct (inv_sessions st Hinv sid s Hs) as (_ & _ & _ & ?).
  - intros bid b. rewrite Hbr, subcol_set_same.
    destruct (decide (bid = generateBreakId tId)) as [->|Hne].
    + rewrite lookup_insert_eq. intros [= <-]. repeat split; try done. intros _.
      eexists (increment_breakCount 1 s), _, _, _.
      split; [by rewrite Hsess, lookup_insert_eq|]. simpl.
      split; [by rewrite Hus', lookup_insert_eq|]. simpl.
      rewrite Hp, Hcs. simpl. by repeat split.
    + rewrite lookup_insert_ne by done. intros Hb.
      destruct (inv_breaks st Hinv sid bid b Hb) as (? & ? & Hact).
      split; [done|]. split; [done|]. intros Ha.
      destruct (Hact Ha) as (s0 & us0 & ? & ? & ? & ? & ? & _). simplify_eq.
Qed.

Lemma find_breakId st sid bid :
  engine_inv st →
  List.find (λ b, String.eqb (b_breakId b) bid)
    (query_desc b_startTime (subcol (breaks st) sid))
  = subcol (breaks st) sid !! bid.
Proof.
  intros Hinv.
  destruct (List.find _ _) as [b|] eqn:Hf.
  - apply find_some in Hf as [Hin Heq]. apply String.eqb_eq in Heq.
    apply list_elem_of_In, query_desc_elem in Hin as [k Hk].
    destruct (inv_breaks st Hinv _ _ _ Hk) as (Hid & _). by simplify_eq.
  - destruct (subcol (breaks st) sid !! bid) as [b|] eqn:Hb; [|done].
    assert (Hin : In b (query_desc b_startTime (subcol (breaks st) sid))).
    { apply list_elem_of_In, query_desc_elem. eauto. }
    pose proof (find_none _ _ Hf b Hin) as Hn. simpl in Hn.
    destruct (inv_breaks st Hinv _ _ _ Hb) as (Hid & _).
    rewrite Hid, String.eqb_refl in Hn. done.
Qed.

Lemma current_state_inv st u us :
  engine_inv st → user_status st !! u = Some us →
  ∃ sid cs s,
    us_currentSessionId us = Some sid ∧ us_currentSession us = Some cs
    ∧ checkin_sessions st !! sid = Some s ∧ s_sessionId s = sid ∧ s_userId s = u
    ∧ current_state st u
      = Some {| st_status := us; st_currentSession := Some s;
                st_activeBreak :=
                  cs_currentBreak cs ≫= λ cb, subcol (breaks st) sid !! cb_id cb;
                st_recentStatusUpdates :=
                  Some (take 5 (query_desc u_timestamp (subcol (status_updates st) sid))) |}.
Proof.
  intros Hinv Hus.
  destruct (inv_users st Hinv u us Hus)
    as (Hid & sid & cs & s & Hp & Hcs & Hs & Hown & _).
  destruct (inv_sessions st Hinv sid s Hs) as (Hsid & [t Ht] & _).
  exists sid, cs, s. do 5 (split; [done|]).
  destruct (current_state_session st u us sid s Hus Hp) as (s0 & -> & H1 & H2 & H3 & H4);
    [rewrite Ht; apply truthy_generateSessionId|done|].
  destruct s0; simpl in *. subst. f_equal. f_equal.
  rewrite Hcs. simpl. destruct (cs_currentBreak cs) as [cb|]; simpl; [|done].
  by apply find_breakId.
Qed.

Lemma endBreak_inv st u us sid cs cb notes t :
  engine_inv st →
  user_status st !! u = Some us → us_currentSessionId us = Some sid →
  us_status us = Some on_break →
  us_currentSession us = Some cs → cs_currentBreak cs = Some cb →
  engine_inv (endBreak sid (cb_id cb) u notes t st).1.
Proof.
  intros Hinv Hus Hp Hon Hcs Hcb.
  destruct (inv_users st Hinv u us Hus)
    as (Hid & sid' & cs' & s & ? & ? & Hs & Hown & Hci & Htb & Hcnt & Hst).
  simplify_eq. rewrite Hon in Hst. destruct Hst as [Hact (cb' & b & ? & Hb & Hba & _)].
  simplify_eq.
  destruct (endBreak_run st sid (cb_id cb) (s_userId s) notes t b s Hb Hs)
    as (st' & -> & Hbr & Hsess & Hus' & _).
  simpl. unfold status_after_endBreak in Hus'. rewrite Hus in Hus'. simpl in Hus'.
  rewrite Hcs in Hus'.
  eapply (engine_inv_update st st' (s_userId s) us sid s _ _); try done.
  - intros. by rewrite Hbr, subcol_set_other.
  - split; [done|]. eexists sid, _, _. rewrite Hsess, lookup_insert_eq. simpl.
    repeat split; try done. by rewrite Htb.
  - simpl. by destruct (inv_sessions st Hinv sid s Hs).
  - simpl. by destruct (inv_sessions st Hinv sid s Hs) as (_ & _ & _ & ?).
  - intros bid b0. rewrite Hbr, subcol_set_same.
    destruct (decide (bid = cb_id cb)) as [->|Hne].
    + rewrite lookup_insert_eq. intros [= <-].
      destruct (inv_breaks st Hinv sid _ b Hb) as (? & ? & _). by repeat split.
    + rewrite lookup_insert_ne by done. intros Hb0.
      destruct (inv_breaks st Hinv sid bid b0 Hb0) as (? & ? & Hact0).
      split; [done|]. split; [done|]. intros Ha.
      destruct (Hact0 Ha) as (s0 & us0 & cs0 & cb0 & ? & ? & ? & ? & ? & ? & ?).
      simplify_eq.
Qed.

Lemma addStatusUpdate_inv st u us sid name text tId now :
  engine_inv st →
  user_status st !! u = Some us → us_currentSessionId us = Some sid →
  engine_inv (addStatusUpdate sid u name text tId now st).1.
Proof.
  intros Hinv Hus Hp.
  destruct (inv_users st Hinv u us Hus)
    as (Hid & sid' & cs & s & ? & Hcs & Hs & Hown & Hci & Htb & Hcnt & Hst).
  simplify_eq.
  destruct (addStatusUpdate_run st sid (s_userId s) name text tId now s Hs)
    as (st' & -> & _ & Hsess & Hus' & Hbr & _).
  simpl. unfold status_after_update in Hus'. rewrite Hus in Hus'. simpl in Hus'.
  rewrite Hcs in Hus'.
  eapply (engine_inv_update st st' (s_userId s) us sid s _ _); try done.
  - intros. by rewrite Hbr.
  - split; [done|]. eexists sid, _, _. rewrite Hsess, lookup_insert_eq. simpl.
    repeat split; try done; [by rewrite Hcnt|].
    destruct (us_status us) as [[]|]; try done.
    destruct Hst as [? (cb & b & Hcb & Hb & ?)]. split; [done|].
    exists cb, b. simpl. rewrite Hcs. simpl. rewrite Hcb. by rewrite Hbr.
  - simpl. by destruct (inv_sessions st Hinv sid s Hs).
  - simpl. by destruct (inv_sessions st Hinv sid s Hs) as (_ & _ & _ & ?).
  - intros bid b. rewrite Hbr. intros Hb.
    destruct (inv_breaks st Hinv sid bid b Hb) as (? & ? & Hact).
    split; [done|]. split; [done|]. intros Ha.
    destruct (Hact Ha) as (s0 & us0 & cs0 & cb0 & ? & ? & ? & ? & ? & Hcb0 & ?).
    simplify_eq.
    eexists (record_status_update text s), _, _, cb0.
    split; [by rewrite Hsess, lookup_insert_eq|]. simpl.
    split; [by rewrite Hus', lookup_insert_eq|]. simpl.
    rewrite Hcs. simpl. do 2 (split; [done|]). split; [reflexivity|].
    simpl. by rewrite Hcb0.
Qed.

Ltac hstep :=
  unfold handler, try_catch, mbind, M_bind, mret, M_ret,
    getUserStatus, getCheckinSession, getSessionBreaks, getUserPreferences;
  unfold gets, throw; cbv beta iota.

Lemma same_reminders_refl st : same_reminders st st.
Proof. by repeat split. Qed.

Lemma user_status_range st u us :
  engine_inv st → user_status st !! u = Some us →
  us_status us = Some checked_in ∨ us_status us = Some on_break
  ∨ us_status us = Some checked_out.
Proof.
  intros Hinv Hus.
  destruct (inv_users st Hinv u us Hus) as (_ & ? & ? & ? & _ & _ & _ & _ & _ & _ & _ & Hst).
  destruct (us_status us) as [[]|]; tauto.
Qed.

Lemma handleCheckin_inv tz st u name notes tId now :
  engine_inv st →
  ∃ st' r, handleCheckin tz u name notes tId now st = (st', Ok r) ∧ r ≠ Failed
    ∧ engine_inv st' ∧ same_reminders st st'.
Proof.
  intros Hinv. unfold handleCheckin. hstep.
  destruct (createCheckinSession_run tz st u name notes tId now)
    as (st' & Hrun & _ & _ & _ & _ & Hpr & Hrem & Hout).
  destruct (user_status st !! u) as [us|] eqn:Hus.
  - destruct (user_status_range st u us Hinv Hus) as [Hst|[Hst|Hst]]; rewrite Hst.
    + exists st. eexists. rewrite bool_decide_eq_true_2 by done. simpl.
      split; [reflexivity|]. split; [done|]. split; [done|]. apply same_reminders_refl.
    + exists st. eexists. rewrite bool_decide_eq_false_2 by done.
      rewrite bool_decide_eq_true_2 by done. simpl.
      split; [reflexivity|]. split; [done|]. split; [done|]. apply same_reminders_refl.
    + rewrite !bool_decide_eq_false_2 by done. cbn [orb]. cbv beta iota.
      rewrite Hrun. exists st'. eexists. split; [reflexivity|]. split; [done|].
      split; [|done].
      replace st' with (createCheckinSession tz u name notes tId now st).1
        by (by rewrite Hrun).
      apply createCheckinSession_inv; [done|]. intros us' Hus'. by simplify_eq.
  - rewrite Hrun. exists st'. eexists. split; [reflexivity|]. split; [done|].
    split; [|done].
    replace st' with (createCheckinSession tz u name notes tId now st).1
      by (by rewrite Hrun).
    apply createCheckinSession_inv; [done|]. intros us' Hus'. by simplify_eq.
Qed.

Lemma same_reminders_trans st1 st2 st3 :
  same_reminders st1 st2 → same_reminders st2 st3 → same_reminders st1 st3.
Proof. intros (? & ? & ?) (? & ? & ?). repeat split; congruence. Qed.

(** Ending the current break of a user on break succeeds and leaves the
    user checked in. *)
Lemma endBreak_current st u us sid cs cb notes t :
  engine_inv st →
  user_status st !! u = Some us → us_currentSessionId us = Some sid →
  us_status us = Some on_break →
  us_currentSession us = Some cs → cs_currentBreak cs = Some cb →
  ∃ st' b us',
    subcol (breaks st) sid !! cb_id cb = Some b
    ∧ endBreak sid (cb_id cb) u notes t st = (st', Ok (returned_break b notes t))
    ∧ engine_inv st' ∧ same_reminders st st'
    ∧ user_status st' !! u = Some us' ∧ us_status us' = Some checked_in
    ∧ us_currentSessionId us' = Some sid.
Proof.
  intros Hinv Hus Hp Hon Hcs Hcb.
  pose proof (endBreak_inv st u us sid cs cb notes t Hinv Hus Hp Hon Hcs Hcb) as Hinv'.
  destruct (inv_users st Hinv u us Hus)
    as (Hid & sid' & cs' & s & ? & ? & Hs & Hown & Hci & Htb & Hcnt & Hst).
  simplify_eq. rewrite Hon in Hst. destruct Hst as [Hact (cb' & b & ? & Hb & Hba & _)].
  simplify_eq.
  destruct (endBreak_run st sid (cb_id cb) (s_userId s) notes t b s Hb Hs)
    as (st' & Hrun & Hbr & Hsess & Hus' & _ & Hpr & Hrem & Hout).
  rewrite Hrun in Hinv'. exists st', b. eexists. do 4 (split; [done|]).
  rewrite Hus'. unfold status_after_endBreak. rewrite Hus. simpl. rewrite Hcs.
  rewrite lookup_insert_eq. split; [reflexivity|]. simpl. by rewrite Hp.
Qed.

(** Completing the current session of a checked-in user succeeds. *)
Lemma completeCheckinSession_current st u us sid notes co :
  engine_inv st →
  user_status st !! u = Some us → us_currentSessionId us = Some sid →
  us_status us = Some checked_in →
  ∃ st' s,
    checkin_sessions st !! sid = Some s
    ∧ completeCheckinSession sid notes co st = (st', Ok tt)
    ∧ checkin_sessions st' !! sid = Some (completed_session s notes co)
    ∧ breaks st' = breaks st
    ∧ engine_inv st' ∧ same_reminders st st'.
Proof.
  intros Hinv Hus Hp Hin.
  pose proof (completeCheckinSession_inv st sid notes co u us Hinv Hus Hp Hin) as Hinv'.
  destruct (inv_users st Hinv u us Hus) as (_ & sid' & cs & s & ? & _ & Hs & _).
  simplify_eq.
  destruct (completeCheckinSession_store st sid notes co s Hs)
    as (st' & Hrun & Hsess & _ & Hbr & _ & Hpr & Hrem & Hout).
  rewrite Hrun in Hinv'. exists st', s. do 2 (split; [done|]).
  by rewrite Hsess, lookup_insert_eq.
Qed.

Lemma handleCheckout_inv st u notes tEnd tCheckout :
  engine_inv st →
  ∃ st' r, handleCheckout u notes tEnd tCheckout st = (st', Ok r) ∧ r ≠ Failed
    ∧ engine_inv st' ∧ same_reminders st st'.
Proof.
  intros Hinv. unfold handleCheckout. hstep. rewrite getUserCurrentState_read.
  destruct (user_status st !! u) as [us|] eqn:Hus.
  2: { apply current_state_None in Hus. rewrite Hus. exists st. eexists.
       split; [reflexivity|]. split; [done|]. split; [done|]. apply same_reminders_refl. }
  destruct (current_state_inv st u us Hinv Hus)
    as (sid & cs & s & Hp & Hcs & Hs & Hsid & Hown & ->).
  unfold has_status. cbn [st_currentSession st_activeBreak st_status]. rewrite Hsid.
  destruct (user_status_range st u us Hinv Hus) as [Hst|[Hst|Hst]]; rewrite Hst.
  - rewrite !bool_decide_eq_false_2 by done.
    destruct (completeCheckinSession_current st u us sid notes tCheckout Hinv Hus Hp Hst)
      as (st' & s0 & ? & Hrun & Hs' & Hbr & Hinv' & Hfr).
    destruct (cs_currentBreak cs ≫= _); cbv beta iota; rewrite Hrun, Hs'; simpl;
      exists st'; eexists; (split; [reflexivity|]); done.
  - rewrite bool_decide_eq_false_2 by done. rewrite bool_decide_eq_true_2 by done.
    destruct (inv_users st Hinv u us Hus)
      as (_ & sid' & cs' & s' & ? & ? & ? & _ & _ & _ & _ & Hact).
    simplify_eq. rewrite Hst in Hact. destruct Hact as [_ (cb & b & Hcb & Hb & _)].
    rewrite Hcb. simpl. rewrite Hb.
    destruct (inv_breaks st Hinv _ _ _ Hb) as (-> & _).
    destruct (endBreak_current st (s_userId s) us _ cs cb "Auto-ended due to checkout" tEnd
                Hinv Hus Hp Hst Hcs Hcb)
      as (st1 & b1 & us1 & _ & Hrun1 & Hinv1 & Hfr1 & Hus1 & Hst1 & Hp1).
    rewrite Hrun1.
    destruct (completeCheckinSession_current st1 _ us1 _ notes tCheckout Hinv1 Hus1 Hp1 Hst1)
      as (st' & s0 & ? & Hrun & Hs' & Hbr & Hinv' & Hfr).
    rewrite Hrun, Hs'. simpl.
    exists st'. eexists. split; [reflexivity|]. split; [done|]. split; [done|].
    by eapply same_reminders_trans.
  - rewrite bool_decide_eq_true_2 by done. exists st. eexists.
    split; [reflexivity|]. split; [done|]. split; [done|]. apply same_reminders_refl.
Qed.

Lemma startBreak_current st u us sid ty notes tId now :
  engine_inv st →
  user_status st !! u = Some us → us_currentSessionId us = Some sid →
  us_status us = Some checked_in →
  ∃ st',
    startBreak sid u ty notes tId now st = (st', Ok (started_break sid u ty notes tId now))
    ∧ engine_inv st' ∧ same_reminders st st'.
Proof.
  intros Hinv Hus Hp Hin.
  pose proof (startBreak_inv st sid u us ty notes tId now Hinv Hus Hp Hin) as Hinv'.
  destruct (inv_users st Hinv u us Hus) as (_ & sid' & cs & s & ? & _ & Hs & _).
  simplify_eq.
  destruct (startBreak_run st sid u ty notes tId now s Hs)
    as (st' & Hrun & _ & _ & _ & _ & Hpr & Hrem & Hout).
  rewrite Hrun in Hinv'. by exists st'.
Qed.

Lemma addStatusUpdate_current st u us sid name text tId now :
  engine_inv st →
  user_status st !! u = Some us → us_currentSessionId us = Some sid →
  ∃ st',
    addStatusUpdate sid u name text tId now st
    = (st', Ok (new_update st sid u name text tId now))
    ∧ engine_inv st' ∧ same_reminders st st'.
Proof.
  intros Hinv Hus Hp.
  pose proof (addStatusUpdate_inv st u us sid name text tId now Hinv Hus Hp) as Hinv'.
  destruct (inv_users st Hinv u us Hus) as (_ & sid' & cs & s & ? & _ & Hs & _).
  simplify_eq.
  destruct (addStatusUpdate_run st sid u name text tId now s Hs)
    as (st' & Hrun & _ & _ & _ & _ & Hpr & Hrem & Hout).
  rewrite Hrun in Hinv'. by exists st'.
Qed.

Lemma handleBreakStart_inv st u ty notes tId now :
  engine_inv st →
  ∃ st' r, handleBreakStart u ty notes tId now st = (st', Ok r) ∧ r ≠ Failed
    ∧ engine_inv st' ∧ same_reminders st st'.
Proof.
  intros Hinv. unfold handleBreakStart. hstep. rewrite getUserCurrentState_read.
  destruct (user_status st !! u) as [us|] eqn:Hus.
  2: { apply current_state_None in Hus. rewrite Hus. exists st. eexists.
       split; [reflexivity|]. split; [done|]. split; [done|]. apply same_reminders_refl. }
  destruct (current_state_inv st u us Hinv Hus)
    as (sid & cs & s & Hp & Hcs & Hs & Hsid & Hown & ->).
  unfold has_status. cbn [st_currentSession st_activeBreak st_status]. rewrite Hsid.
  destruct (user_status_range st u us Hinv Hus) as [Hst|[Hst|Hst]]; rewrite Hst.
  - rewrite !bool_decide_eq_false_2 by done. cbv beta iota.
    destruct ty as [ty|].
    + destruct (startBreak_current st u us sid ty notes tId now Hinv Hus Hp Hst)
        as (st' & Hrun & Hinv' & Hfr).
      rewrite Hrun. exists st'. eexists. split; [reflexivity|]. done.
    + exists st. eexists. split; [reflexivity|]. split; [done|]. split; [done|].
      apply same_reminders_refl.
  - rewrite bool_decide_eq_false_2 by done. rewrite bool_decide_eq_true_2 by done.
    destruct (inv_users st Hinv u us Hus)
      as (_ & sid' & cs' & s' & ? & ? & ? & _ & _ & _ & _ & Hact).
    simplify_eq. rewrite Hst in Hact. destruct Hact as [_ (cb & b & Hcb & Hb & _)].
    rewrite Hcb. simpl. rewrite Hb.
    exists st. eexists. split; [reflexivity|]. split; [done|]. split; [done|].
    apply same_reminders_refl.
  - rewrite bool_decide_eq_true_2 by done. exists st. eexists.
    split; [reflexivity|]. split; [done|]. split; [done|]. apply same_reminders_refl.
Qed.

Lemma handleBreakEnd_inv st u notes tEnd :
  engine_inv st →
  ∃ st' r, handleBreakEnd u notes tEnd st = (st', Ok r) ∧ r ≠ Failed
    ∧ engine_inv st' ∧ same_reminders st st'.
Proof.
  intros Hinv. unfold handleBreakEnd. hstep. rewrite getUserCurrentState_read.
  destruct (user_status st !! u) as [us|] eqn:Hus.
  2: { apply current_state_None in Hus. rewrite Hus. exists st. eexists.
       split; [reflexivity|]. split; [done|]. split; [done|]. apply same_reminders_refl. }
  destruct (current_state_inv st u us Hinv Hus)
    as (sid & cs & s & Hp & Hcs & Hs & Hsid & Hown & ->).
  unfold has_status. cbn [st_currentSession st_activeBreak st_status]. rewrite Hsid.
  destruct (decide (us_status us = Some on_break)) as [Hst|Hst].
  - rewrite bool_decide_eq_true_2 by done.
    destruct (inv_users st Hinv u us Hus)
      as (_ & sid' & cs' & s' & ? & ? & ? & _ & _ & _ & _ & Hact).
    simplify_eq. rewrite Hst in Hact. destruct Hact as [_ (cb & b & Hcb & Hb & _)].
    rewrite Hcb. simpl. rewrite Hb.
    destruct (inv_breaks st Hinv _ _ _ Hb) as (-> & _).
    destruct (endBreak_current st (s_userId s) us _ cs cb notes tEnd
                Hinv Hus Hp Hst Hcs Hcb)
      as (st1 & b1 & us1 & _ & Hrun1 & Hinv1 & Hfr1 & Hus1 & Hst1 & Hp1).
    rewrite Hrun1. exists st1. eexists. split; [reflexivity|]. done.
  - rewrite bool_decide_eq_false_2 by done.
    exists st. eexists.
    split; [by destruct (cs_currentBreak cs ≫= _)|].
    split; [done|]. split; [done|]. apply same_reminders_refl.
Qed.

Lemma handleStatusUpdate_inv st u name text tId now :
  engine_inv st →
  ∃ st' r, handleStatusUpdate u name text tId now st = (st', Ok r) ∧ r ≠ Failed
    ∧ engine_inv st' ∧ same_reminders st st'.
Proof.
  intros Hinv. unfold handleStatusUpdate. hstep. rewrite getUserCurrentState_read.
  destruct (user_status st !! u) as [us|] eqn:Hus.
  2: { apply current_state_None in Hus. rewrite Hus. exists st. eexists.
       split; [reflexivity|]. split; [done|]. split; [done|]. apply same_reminders_refl. }
  destruct (current_state_inv st u us Hinv Hus)
    as (sid & cs & s & Hp & Hcs & Hs & Hsid & Hown & ->).
  unfold has_status. cbn [st_currentSession st_activeBreak st_status]. rewrite Hsid.
  destruct (bool_decide (us_status us = Some checked_out)).
  { exists st. eexists.
    split; [reflexivity|]. split; [done|]. split; [done|]. apply same_reminders_refl. }
  destruct (truthy text).
  - destruct (addStatusUpdate_current st u us sid name text tId now Hinv Hus Hp)
      as (st' & Hrun & Hinv' & Hfr).
    rewrite Hrun. exists st'. eexists. split; [reflexivity|]. done.
  - exists st. eexists.
    split; [reflexivity|]. split; [done|]. split; [done|]. apply same_reminders_refl.
Qed.

Lemma handleSetTimezone_inv valid st u tz :
  engine_inv st →
  ∃ st' r, handleSetTimezone valid u tz st = (st', Ok r) ∧ r ≠ TimezoneFailed
    ∧ engine_inv st'
    ∧ status_reminders st' = status_reminders st ∧ outbox st' = outbox st.
Proof.
  intros Hinv. unfold handleSetTimezone. hstep.
  destruct (truthy tz); [destruct (valid tz)|]; cbv beta iota.
  2,3: exists st; eexists; (split; [reflexivity|]); done.
  unfold updateUserPreferences, updateUserStatus, modify. cbv beta iota. simpl.
  destruct (user_status st !! u) as [us|] eqn:Hus; cbv beta iota.
  - eexists. eexists. split; [reflexivity|]. split; [done|]. split; [|done].
    destruct (inv_users st Hinv u us Hus)
      as (Hid & sid & cs & s & Hp & Hcs & Hs & Hown & Hci & Htb & Hcnt & Hst).
    eapply (engine_inv_update st _ u us sid s _ s); try done.
    + simpl. symmetry. by apply insert_id.
    + simpl. rewrite Hus. simpl. split; [done|]. exists sid, cs, s. simpl.
      rewrite Hcs, Hp. repeat (split; [done|]).
      destruct (us_status us) as [[]|]; try done.
    + simpl. by rewrite Hus.
    + by destruct (inv_sessions st Hinv sid s Hs).
    + by destruct (inv_sessions st Hinv sid s Hs) as (_ & _ & _ & ?).
    + intros bid b Hb. simpl in Hb.
      destruct (inv_breaks st Hinv sid bid b Hb) as (? & ? & Hact).
      split; [done|]. split; [done|]. intros Ha.
      destruct (Hact Ha) as (s0 & us0 & cs0 & cb0 & ? & ? & ? & ? & ? & Hcb0 & ?).
      simplify_eq. eexists s, _, cs, cb0. simpl.
      split; [done|]. split; [by rewrite lookup_insert_eq|]. simpl.
      rewrite Hus. by simpl.
  - eexists. eexists. split; [reflexivity|]. split; [done|]. split; [|done].
    destruct Hinv as [H1 H2 H3]. by split.
Qed.

Lemma engine_inv_ext st st' :
  user_status st' = user_status st → checkin_sessions st' = checkin_sessions st →
  breaks st' = breaks st → engine_inv st → engine_inv st'.
Proof.
  intros H1 H2 H3 [Hu Hs Hb]. destruct st, st'. simpl in *. subst. by split.
Qed.

(** With no active reminder record a tick does nothing. *)
Lemma tick_idle now env st :
  status_reminders st = ∅ → checkAndSendStatusReminders now env st = (st, Ok tt).
Proof.
  intros He. unfold checkAndSendStatusReminders, getActiveStatusReminders.
  unfold mbind, M_bind, gets. by rewrite He.
Qed.

Lemma serve_inv tz valid st r :
  engine_inv st → reminders_keyed st →
  engine_inv (serve tz valid st r) ∧ reminders_keyed (serve tz valid st r)
  ∧ (status_reminders st = ∅ →
     status_reminders (serve tz valid st r) = ∅
     ∧ outbox (serve tz valid st r) = outbox st).
Proof.
  intros Hinv Hk.
  assert (Hcmd : ∀ st' : Store, engine_inv st' → same_reminders st st' →
            engine_inv st' ∧ reminders_keyed st'
            ∧ (status_reminders st = ∅ →
               status_reminders st' = ∅ ∧ outbox st' = outbox st)).
  { intros st' Hinv' (Hrem & Hout & _). split; [done|]. unfold reminders_keyed.
    rewrite Hrem. split; [done|]. by intros ->. }
  destruct r as [[u name notes tId now|u notes tEnd tCheckout|u ty notes tId now
                 |u notes tEnd|u name text tId now|now env]|u zone]; simpl.
  - destruct (handleCheckin_inv tz st u name notes tId now Hinv)
      as (st' & r & -> & _ & ? & ?). by apply Hcmd.
  - destruct (handleCheckout_inv st u notes tEnd tCheckout Hinv)
      as (st' & r & -> & _ & ? & ?). by apply Hcmd.
  - destruct (handleBreakStart_inv st u ty notes tId now Hinv)
      as (st' & r & -> & _ & ? & ?). by apply Hcmd.
  - destruct (handleBreakEnd_inv st u notes tEnd Hinv)
      as (st' & r & -> & _ & ? & ?). by apply Hcmd.
  - destruct (handleStatusUpdate_inv st u name text tId now Hinv)
      as (st' & r & -> & _ & ? & ?). by apply Hcmd.
  - destruct (tick_frame now env st Hk)
      as (st' & new & Hrun & H1 & H2 & H3 & _ & _ & _ & Hk' & _).
    split; [|split; [by rewrite Hrun|]].
    + rewrite Hrun. by apply (engine_inv_ext st).
    + intros He. by rewrite (tick_idle now env st He).
  - destruct (handleSetTimezone_inv valid st u zone Hinv)
      as (st' & r & -> & _ & ? & Hrem & Hout). simpl.
    split; [done|]. unfold reminders_keyed. rewrite Hrem. split; [done|]. by intros ->.
Qed.

Lemma serve_from_inv tz valid rs st :
  engine_inv st → reminders_keyed st →
  engine_inv (foldl (serve tz valid) st rs)
  ∧ reminders_keyed (foldl (serve tz valid) st rs)
  ∧ (status_reminders st = ∅ →
     status_reminders (foldl (serve tz valid) st rs) = ∅
     ∧ outbox (foldl (serve tz valid) st rs) = outbox st).
Proof.
  revert st. induction rs as [|r rs IH]; intros st Hinv Hk; simpl.
  - do 2 (split; [done|]). done.
  - destruct (serve_inv tz valid st r Hinv Hk) as (Hinv' & Hk' & He').
    destruct (IH _ Hinv' Hk') as (? & ? & He''). do 2 (split; [done|]).
    intros He. destruct (He' He) as [He1 Ho1]. destruct (He'' He1) as [? ?].
    split; [done|]. congruence.
Qed.

Lemma serve_all_inv tz valid prefs rs :
  engine_inv (serve_all tz valid prefs rs)
  ∧ status_reminders (serve_all tz valid prefs rs) = ∅
  ∧ outbox (serve_all tz valid prefs rs) = [].
Proof.
  unfold serve_all.
  destruct (serve_from_inv tz valid rs (initial_store prefs)) as (? & _ & He).
  - apply engine_inv_initial.
  - unfold reminders_keyed. simpl. apply map_Forall_empty.
  - split; [done|]. by apply He.
Qed.

(** * Further properties of the engine *)

(** ** Elapsed time and summary lines *)

Lemma Math_round_div60 (a : Z) :
  Math_round (inject_Z a / inject_Z 60)%Q = (a + 30) / 60.
Proof.
  unfold Math_round. rewrite Zdiv_Qdiv. apply Qfloor_comp.
  rewrite inject_Z_plus. field.
Qed.

(** X1.  The hours of a summary line are rounded while the minutes are the
    remainder, so from thirty minutes past the hour the line reads an hour
    too much. *)
Theorem summary_time_rounds_hours total :
  0 ≤ total →
  60 * (summary_time total).1 + (summary_time total).2
  = if decide (total mod 60 < 30) then total else total + 60.
Proof.
  intros Hpos. unfold summary_time. simpl.
  rewrite Math_round_div60, Z.rem_mod_nonneg by lia.
  destruct (decide _); Z.div_mod_to_equations; lia.
Qed.

Lemma summary_time_rounds_hours_witness :
  summary_time 90 = (2, 30)
  ∧ 60 * (summary_time 90).1 + (summary_time 90).2 = 150.
Proof.
  split; [by vm_compute|]. rewrite (summary_time_rounds_hours 90); [reflexivity|lia].
Defined.

Lemma Math_floor_div (a b : Z) : Math_floor (inject_Z a / inject_Z b)%Q = a / b.
Proof. unfold Math_floor. by rewrite Zdiv_Qdiv. Qed.

(** X2.  For an end not before the start, [calculateDuration] reads the
    whole hours and the whole minutes left, fewer than sixty; together
    they are the elapsed whole minutes. *)
Theorem calculateDuration_forward start end_ :
  start ≤ end_ →
  ∃ h m,
    calculateDuration start end_ = pretty h +:+ "h " +:+ pretty m +:+ "m"
    ∧ 0 ≤ h ∧ 0 ≤ m < 60 ∧ 60 * h + m = (end_ - start) / 60000.
Proof.
  intros Hle. unfold calculateDuration.
  change (1000 * 60 * 60) with 3600000. change (1000 * 60) with 60000.
  rewrite !Math_floor_div, Z.rem_mod_nonneg by lia.
  eexists _, _. split; [reflexivity|]. Z.div_mod_to_equations. lia.
Qed.

Lemma calculateDuration_forward_witness :
  ∃ h m,
    calculateDuration nine (nine + minutes 135) = pretty h +:+ "h " +:+ pretty m +:+ "m"
    ∧ 0 ≤ h ∧ 0 ≤ m < 60 ∧ 60 * h + m = (nine + minutes 135 - nine) / 60000.
Proof. apply calculateDuration_forward. unfold minutes. lia. Defined.

(** X3.  For an end before the start that is not whole hours away, the
    hours are rounded down and the minutes up: the reading is sixty
    minutes below the elapsed whole minutes. *)
Theorem calculateDuration_backward start end_ :
  end_ < start → (end_ - start) mod 3600000 ≠ 0 →
  ∃ h m,
    calculateDuration start end_ = pretty h +:+ "h " +:+ pretty m +:+ "m"
    ∧ h < 0 ∧ -60 ≤ m < 0 ∧ 60 * h + m = (end_ - start) / 60000 - 60.
Proof.
  intros Hlt Hrem. unfold calculateDuration.
  change (1000 * 60 * 60) with 3600000. change (1000 * 60) with 60000.
  rewrite !Math_floor_div.
  eexists _, _. split; [reflexivity|].
  Z.to_euclidean_division_equations. lia.
Qed.

Lemma calculateDuration_backward_witness :
  ∃ h m,
    calculateDuration (nine + 1) nine = pretty h +:+ "h " +:+ pretty m +:+ "m"
    ∧ h < 0 ∧ -60 ≤ m < 0 ∧ 60 * h + m = (nine - (nine + 1)) / 60000 - 60.
Proof. apply calculateDuration_backward; [lia|]. by vm_compute. Defined.

(** ** Time zones and repeated check-ins *)

(** X4.  A zone the host accepts is stored and is the zone of the
    user's later check-ins, whatever the host's own zone; sessions already
    open keep the zone they were created with. *)
Theorem timezone_round_trip sys valid st u tz name notes tId now :
  truthy tz = true → valid tz = true →
  ∃ st' st'' session,
    handleSetTimezone valid u tz st = (st', Ok (TimezoneUpdated tz))
    ∧ getUserTimezone sys u st' = (st', Ok tz)
    ∧ createCheckinSession sys u name notes tId now st' = (st'', Ok session)
    ∧ s_timezone session = tz
    ∧ checkin_sessions st' = checkin_sessions st.
Proof.
  intros Ht Hv.
  assert (Hset : ∃ st', handleSetTimezone valid u tz st = (st', Ok (TimezoneUpdated tz))
                   ∧ user_preferences st' !! u = Some {| p_timezone := tz |}
                   ∧ checkin_sessions st' = checkin_sessions st).
  { unfold handleSetTimezone. hstep. rewrite Ht, Hv.
    unfold updateUserPreferences, updateUserStatus, modify. cbv beta iota. simpl.
    destruct (user_status st !! u); eexists; (split; [reflexivity|]); simpl;
      by rewrite lookup_insert_eq. }
  destruct Hset as (st' & Hrun & Hpref & Hsess).
  assert (Hzone : timezone_of sys st' u = tz).
  { unfold timezone_of. rewrite Hpref. simpl. by rewrite Ht. }
  destruct (createCheckinSession_run sys st' u name notes tId now) as (st'' & Hc & _).
  exists st', st'', (new_session u name notes (timezone_of sys st' u) tId now).
  split; [done|]. split; [by rewrite getUserTimezone_read, Hzone|].
  split; [done|]. split; [exact Hzone|done].
Qed.

Lemma timezone_round_trip_witness :
  ∃ st' st'' session,
    handleSetTimezone (λ _, true) "U1" "Europe/Paris" day_at_work
    = (st', Ok (TimezoneUpdated "Europe/Paris"))
    ∧ getUserTimezone "UTC" "U1" st' = (st', Ok "Europe/Paris")
    ∧ createCheckinSession "UTC" "U1" "alice" "" (nine + hours 24) (nine + hours 24 + 1) st'
      = (st'', Ok session)
    ∧ s_timezone session = "Europe/Paris"
    ∧ checkin_sessions st' = checkin_sessions day_at_work.
Proof. by apply timezone_round_trip. Defined.

(** X5.  An empty or a refused zone changes nothing in the store. *)
Theorem timezone_rejected valid st u tz :
  truthy tz = false ∨ valid tz = false →
  (handleSetTimezone valid u tz st).1 = st
  ∧ (handleSetTimezone valid u tz st).2 ≠ Ok (TimezoneUpdated tz)
  ∧ (handleSetTimezone valid u tz st).2 ≠ Ok TimezoneFailed.
Proof.
  intros Hno. unfold handleSetTimezone. hstep.
  destruct (truthy tz); [destruct (valid tz)|]; cbv beta iota; simpl; [|done..].
  by destruct Hno.
Qed.

Lemma timezone_rejected_witness :
  (handleSetTimezone (λ z, String.eqb z "UTC") "U1" "Mars/Olympus" day_at_work).1
  = day_at_work.
Proof. apply timezone_rejected. right. reflexivity. Defined.

(** X6.  A second check-in changes nothing: whatever the store, what
    [/checkin] leaves is a store on which [/checkin] by the same user is
    turned down. *)
Theorem checkin_twice tz st u name notes tId now name' notes' tId' now' :
  step tz (step tz st (Checkin u name notes tId now)) (Checkin u name' notes' tId' now')
  = step tz st (Checkin u name notes tId now).
Proof.
  simpl.
  assert (Hactive : ∀ st0 us n nt t nw,
            user_status st0 !! u = Some us →
            us_status us = Some checked_in ∨ us_status us = Some on_break →
            (handleCheckin tz u n nt t nw st0).1 = st0).
  { intros st0 us n nt t nw Hus Hst. unfold handleCheckin. hstep. rewrite Hus.
    destruct Hst as [-> | ->]; by simpl. }
  destruct (user_status st !! u) as [us|] eqn:Hus.
  - destruct (decide (us_status us = Some checked_in ∨ us_status us = Some on_break))
      as [Hst|Hst].
    + by rewrite !(Hactive st us) by done.
    + destruct (createCheckinSession_run tz st u name notes tId now)
        as (st' & Hrun & _ & Hus' & _).
      assert (Hfirst : (handleCheckin tz u name notes tId now st).1 = st').
      { unfold handleCheckin. hstep. rewrite Hus.
        destruct (bool_decide_reflect (us_status us = Some checked_in)); [tauto|].
        destruct (bool_decide_reflect (us_status us = Some on_break)); [tauto|].
        cbn [orb]. cbv beta iota. by rewrite Hrun. }
      rewrite Hfirst. eapply Hactive; [by rewrite Hus', lookup_insert_eq|]. by left.
  - destruct (createCheckinSession_run tz st u name notes tId now)
      as (st' & Hrun & _ & Hus' & _).
    assert (Hfirst : (handleCheckin tz u name notes tId now st).1 = st').
    { unfold handleCheckin. hstep. rewrite Hus. by rewrite Hrun. }
    rewrite Hfirst. eapply Hactive; [by rewrite Hus', lookup_insert_eq|]. by left.
Qed.

(** ** Operations on missing documents, break notes, update queries *)

(** X7.  On a session that does not exist [startBreak] fails with the
    rejection of the session update, after the break document has been
    written under that session id and before the user is touched. *)
Theorem startBreak_missing st sid u ty notes tId now :
  checkin_sessions st !! sid = None →
  ∃ st',
    startBreak sid u ty notes tId now st = (st', Throw "NOT_FOUND")
    ∧ breaks st'
      = subcol_set sid (generateBreakId tId) (started_break sid u ty notes tId now)
          (breaks st)
    ∧ checkin_sessions st' = checkin_sessions st
    ∧ user_status st' = user_status st
    ∧ status_updates st' = status_updates st
    ∧ user_preferences st' = user_preferences st
    ∧ status_reminders st' = status_reminders st ∧ outbox st' = outbox st.
Proof.
  intros Hs. unfold startBreak. run_with Hs.
  eexists. split; [reflexivity|]. simpl. by repeat split.
Qed.

Lemma startBreak_missing_witness :
  ∃ st',
    startBreak "S0" "U1" lunch "" nine (nine + 1) day_at_work = (st', Throw "NOT_FOUND")
    ∧ breaks st'
      = subcol_set "S0" (generateBreakId nine) (started_break "S0" "U1" lunch "" nine (nine + 1))
          (breaks day_at_work)
    ∧ checkin_sessions st' = checkin_sessions day_at_work
    ∧ user_status st' = user_status day_at_work
    ∧ status_updates st' = status_updates day_at_work
    ∧ user_preferences st' = user_preferences day_at_work
    ∧ status_reminders st' = status_reminders day_at_work
    ∧ outbox st' = outbox day_at_work.
Proof. apply startBreak_missing. vm_compute. reflexivity. Defined.

(** X8.  [addStatusUpdate] on a session that does not exist fails with
    the rejection of the session update, after the update document has
    been written under that session id; sessions and users are as before. *)
Theorem addStatusUpdate_missing st sid uid name text tId now :
  checkin_sessions st !! sid = None →
  ∃ st',
    addStatusUpdate sid uid name text tId now st = (st', Throw "NOT_FOUND")
    ∧ subcol (status_updates st') sid !! generateStatusUpdateId tId
      = Some (new_update st sid uid name text tId now)
    ∧ checkin_sessions st' = checkin_sessions st
    ∧ user_status st' = user_status st
    ∧ breaks st' = breaks st.
Proof.
  intros Hs. unfold addStatusUpdate. unfold mbind at 1, M_bind at 1.
  rewrite getLatestStatusUpdate_read. run_with Hs.
  eexists. split; [reflexivity|]. simpl. rewrite subcol_set_lookup. by repeat split.
Qed.

Lemma addStatusUpdate_missing_witness :
  ∃ st',
    addStatusUpdate "S0" "U1" "alice" "triage" nine (nine + 1) day_at_work
    = (st', Throw "NOT_FOUND")
    ∧ subcol (status_updates st') "S0" !! generateStatusUpdateId nine
      = Some (new_update day_at_work "S0" "U1" "alice" "triage" nine (nine + 1))
    ∧ checkin_sessions st' = checkin_sessions day_at_work
    ∧ user_status st' = user_status day_at_work
    ∧ breaks st' = breaks day_at_work.
Proof. apply addStatusUpdate_missing. vm_compute. reflexivity. Defined.

(** X9.  What [endBreak] returns against what it stores.  The two agree
    on the end time, the duration and the status.  With end notes both
    carry the start notes followed by the end notes; without, the stored
    break keeps its start notes while the returned record has none. *)
Theorem endBreak_returned_and_stored st sid bid uid notes t b s :
  subcol (breaks st) sid !! bid = Some b →
  checkin_sessions st !! sid = Some s →
  ∃ st' r b',
    endBreak sid bid uid notes t st = (st', Ok r)
    ∧ subcol (breaks st') sid !! bid = Some b'
    ∧ b_endTime r = Some t ∧ b_endTime b' = Some t
    ∧ b_duration r = b_duration b'
    ∧ b_status r = completed ∧ b_status b' = completed
    ∧ if truthy notes
      then b_notes r = Some (end_notes (b_notes b) notes) ∧ b_notes b' = b_notes r
      else b_notes r = None ∧ b_notes b' = b_notes b.
Proof.
  intros Hb Hs.
  destruct (endBreak_run st sid bid uid notes t b s Hb Hs) as (st' & Hrun & Hbr & _).
  exists st', (returned_break b notes t), (ended_break b notes t).
  split; [done|]. rewrite Hbr, subcol_set_lookup. split; [done|]. simpl.
  do 5 (split; [done|]). by destruct (truthy notes).
Qed.

Lemma endBreak_returned_and_stored_witness :
  ∃ st' r b',
    endBreak alice_session alice_lunch "U1" "" (nine + hours 4) day_at_lunch = (st', Ok r)
    ∧ subcol (breaks st') alice_session !! alice_lunch = Some b'
    ∧ b_notes r = None ∧ b_notes b' = Some "food".
Proof.
  edestruct (endBreak_returned_and_stored day_at_lunch alice_session alice_lunch "U1" ""
               (nine + hours 4))
    as (st' & r & b' & H1 & H2 & _ & _ & _ & _ & _ & H3); [vm_compute; reflexivity..|].
  exists st', r, b'. split; [exact H1|]. split; [exact H2|].
  simpl in H3. destruct H3 as [H3 H4]. split; [exact H3|]. rewrite H4. reflexivity.
Defined.





(** X11.  The reminder record over a session of the reminder-keeping
    variants.  Checking in files an active record with count zero under
    the user, replacing whatever was there; completing that session
    switches the record off and leaves the rest of it as it was. *)
Theorem reminder_record_lifecycle tz st u name notes tId now notes' tCheckout :
  ∃ st1 st2 session r,
    createCheckinSessionWithReminder tz u name notes tId now st = (st1, Ok session)
    ∧ s_sessionId session = generateSessionId u tId
    ∧ status_reminders st1 !! u = Some r
    ∧ r_userId r = u ∧ r_sessionId r = generateSessionId u tId
    ∧ r_isActive r = true ∧ r_reminderCount r = 0
    ∧ r_lastReminderSent r = None ∧ r_lastStatusUpdate r = None
    ∧ completeCheckinSessionWithReminder (generateSessionId u tId) notes' tCheckout st1
      = (st2, Ok tt)
    ∧ status_reminders st2 !! u
      = Some {| r_userId := r_userId r; r_username := r_username r;
                r_sessionId := r_sessionId r; r_reminderCount := r_reminderCount r;
                r_isActive := false; r_timezone := r_timezone r;
                r_lastReminderSent := r_lastReminderSent r;
                r_lastStatusUpdate := r_lastStatusUpdate r |}.
Proof.
  destruct (createCheckinSession_run tz st u name notes tId now)
    as (st0 & Hrun & Hsess & _).
  unfold createCheckinSessionWithReminder, createStatusReminder.
  unfold mbind at 1, M_bind at 1. rewrite Hrun.
  unfold mbind at 1, M_bind at 1. unfold mbind at 1, M_bind at 1.
  rewrite getUserTimezone_read. unfold modify, mret, M_ret. cbv beta iota.
  set (st1 := set_status_reminders _ st0).
  assert (Hs1 : checkin_sessions st1 !! generateSessionId u tId
                = Some (new_session u name notes (timezone_of tz st u) tId now)).
  { subst st1. simpl. by rewrite Hsess, lookup_insert_eq. }
  destruct (completeCheckinSession_store st1 _ notes' tCheckout _ Hs1)
    as (st2 & Hrun2 & _ & _ & _ & _ & _ & Hrem2 & _).
  eexists st1, _, _, _. split; [reflexivity|]. split; [reflexivity|].
  split; [by subst st1; simpl; rewrite lookup_insert_eq|]. simpl.
  do 6 (split; [reflexivity|]).
  unfold completeCheckinSessionWithReminder, deactivateStatusReminder, updateStatusReminder.
  unfold mbind at 1, M_bind at 1. unfold getCheckinSession, gets. rewrite Hs1.
  unfold mbind, M_bind. rewrite Hrun2. unfold modify. cbv beta iota.
  split; [reflexivity|]. simpl.
  rewrite Hrem2. subst st1. simpl. by rewrite !lookup_insert_eq.
Qed.

(** ** The tick and the reminder records *)

(** X12.  A tick of the reminder service reads the engine and writes only
    reminder records and messages: users, sessions, breaks, updates and
    preferences are as before, the messages sent so far stay, and no
    reminder record is created, removed, switched on or off or moved to
    another session. *)
Theorem tick_changes_only_reminders now env st :
  reminders_keyed st →
  ∃ st' new,
    checkAndSendStatusReminders now env st = (st', Ok tt)
    ∧ user_status st' = user_status st
    ∧ checkin_sessions st' = checkin_sessions st
    ∧ breaks st' = breaks st ∧ status_updates st' = status_updates st
    ∧ user_preferences st' = user_preferences st
    ∧ outbox st' = (outbox st ++ new)%list
    ∧ ∀ u, (r_isActive <$> status_reminders st' !! u)
           = (r_isActive <$> status_reminders st !! u)
         ∧ (r_sessionId <$> status_reminders st' !! u)
           = (r_sessionId <$> status_reminders st !! u).
Proof.
  intros Hk.
  destruct (tick_frame now env st Hk)
    as (st' & new & Hrun & H1 & H2 & H3 & H4 & H5 & H6 & _ & _ & Hact & Hidle).
  exists st', new. do 7 (split; [done|]). intros u.
  destruct (status_reminders st !! u) as [r|] eqn:Hr.
  - destruct (r_isActive r) eqn:Ha.
    + destruct (Hact u r Hr Ha) as [-> _]. simpl.
      unfold reminder_outcome.
      destruct (current_state st u); [destruct (sends _ _ _)|]; simpl;
        unfold reminded; try destruct (d_ok _); done.
    + destruct (Hidle u) as [-> _]; [intros r' Hr'; by simplify_eq|].
      by rewrite Hr.
  - destruct (Hidle u) as [-> _]; [intros r' Hr'; by simplify_eq|].
    by rewrite Hr.
Qed.

Lemma tick_changes_only_reminders_witness :
  ∃ st' new,
    checkAndSendStatusReminders (nine + hours 1) (prompt (nine + hours 1)) day_reminded
    = (st', Ok tt)
    ∧ user_status st' = user_status day_reminded
    ∧ checkin_sessions st' = checkin_sessions day_reminded
    ∧ outbox st' = (outbox day_reminded ++ new)%list.
Proof.
  edestruct (tick_changes_only_reminders (nine + hours 1) (prompt (nine + hours 1))
               day_reminded) as (st' & new & H1 & H2 & H3 & _ & _ & _ & H4 & _).
  - apply (bool_decide_unpack _). by vm_compute.
  - exists st', new. split; [exact H1|]. split; [exact H2|]. split; [exact H3|exact H4].
Defined.

Lemma sends_later now now' r s :
  now ≤ now' → sends now r s = true → sends now' r s = true.
Proof.
  intros Hle. destruct s as [s|]; [|done]. rewrite !sends_true.
  intros (Hin & T & HT & Hd & Hsent). split; [done|]. exists T. split; [done|].
  split; [lia|]. intros sent Hs. specialize (Hsent sent Hs). lia.
Qed.

(** X13.  A reminder that is not delivered is tried again.  When the chat
    client turns the message down, the reminder record is left as it was,
    so the next tick finds the reminder still due. *)
Theorem failed_delivery_is_retried now now' env st u r :
  reminders_keyed st →
  status_reminders st !! u = Some r → r_isActive r = true →
  sends now r (current_state st u) = true →
  d_ok (env u) = false → now ≤ now' →
  ∃ m,
    status_reminders (checkAndSendStatusReminders now env st).1 !! u = Some r
    ∧ reminders_sent u st (checkAndSendStatusReminders now env st).1 = [m]
    ∧ dm_ok m = false
    ∧ sends now' r (current_state (checkAndSendStatusReminders now env st).1 u) = true.
Proof.
  intros Hk Hr Ha Hs Hno Hle.
  destruct (tick_frame now env st Hk)
    as (st' & new & -> & H1 & H2 & H3 & H4 & H5 & H6 & _ & Hsent & Hact & _).
  cbn [fst]. destruct (Hact u r Hr Ha) as [Hr' Hnew].
  rewrite (current_state_ext st st' u H1 H2 H3 H4), Hsent, Hnew, Hr'.
  destruct (current_state st u) as [s|] eqn:Hcur; [|done].
  unfold reminder_outcome. rewrite Hs. cbn [fst snd]. unfold reminded. rewrite Hno.
  eexists. split; [done|]. split; [done|]. split; [by rewrite <- Hno|].
  by apply (sends_later now).
Qed.

Lemma failed_delivery_is_retried_witness :
  ∃ m,
    status_reminders
      (checkAndSendStatusReminders (nine + hours 1) (refused (nine + hours 1)) day_reminded).1
      !! "U1" = Some alice_reminder
    ∧ reminders_sent "U1" day_reminded
        (checkAndSendStatusReminders (nine + hours 1) (refused (nine + hours 1))
           day_reminded).1 = [m]
    ∧ dm_ok m = false
    ∧ sends (nine + hours 1 + CHECK_INTERVAL_MS) alice_reminder
        (current_state
           (checkAndSendStatusReminders (nine + hours 1) (refused (nine + hours 1))
              day_reminded).1 "U1") = true.
Proof.
  apply failed_delivery_is_retried.
  - apply (bool_decide_unpack _). by vm_compute.
  - vm_compute. reflexivity.
  - reflexivity.
  - vm_compute. reflexivity.
  - reflexivity.
  - unfold CHECK_INTERVAL_MS. lia.
Defined.

(** ** The states the service can reach *)







(** X17.  The command handlers never create a reminder record, so the
    service as it is wired never holds one and its ticks never send a
    message, whatever the requests. *)
Theorem service_never_reminds tz valid prefs rs :
  status_reminders (serve_all tz valid prefs rs) = ∅
  ∧ outbox (serve_all tz valid prefs rs) = [].
Proof. by destruct (serve_all_inv tz valid prefs rs) as (_ & ? & ?). Qed.


(** ** Histories and commands out of turn *)










(** ** Commands in sequence *)

(** ** The commands on the states they are meant for *)













(** ** The team report *)





